(** * Artovix bot (src/bot.py): a shallow embedding and its verified properties

    The bot is integration glue: every handler is a sequence of calls to an
    external service (Telegram transport, Groq inference, three image
    providers), two small stores (a JSON file of user profiles, an SQLite
    table of metric events) and a transient directory of voice clips.

    The embedding keeps that shape.  Python values are modelled as the code
    has them: [str] is a sequence of Unicode code points, JSON documents are
    a tree, dictionaries keep insertion order.  Handlers run in a small
    state-and-exception monad over a [world] (the stores, the file system
    and the log of everything sent outwards); the answers of the outside
    world are an [env] of oracles. *)

From Stdlib Require Import ZArith NArith Ascii String DecimalString.
From stdpp Require Import base numbers option list gmap.

Local Open Scope nat_scope.
Set Warnings "-register-all".

(* ===================================================================== *)
(** ** Python strings *)
(* ===================================================================== *)

Module Py.

(** A Python 3 [str] is a sequence of code points; [len], slicing and
    [count] all work on code points, never on bytes. *)
Abbreviation char := N (only parsing).
Abbreviation str := (list N) (only parsing).

(** An ASCII literal of the source as a [str]. *)
Definition lit (s : String.string) : str :=
  List.map N_of_ascii (String.list_ascii_of_string s).

(** [str(n)] for an [int]. *)
Definition str_of_int (n : Z) : str := lit (NilZero.string_of_int (Z.to_int n)).

(** The code points [str.strip()] and [str.split()] treat as white space
    (CPython's [_PyUnicode_IsWhitespace]). *)
Definition is_space (c : char) : bool :=
  ((9 <=? c) && (c <=? 13) || (28 <=? c) && (c <=? 32)
   || (c =? 133) || (c =? 160) || (c =? 5760)
   || (8192 <=? c) && (c <=? 8202)
   || (c =? 8232) || (c =? 8233) || (c =? 8239) || (c =? 8287)
   || (c =? 12288))%N.

Fixpoint lstrip (s : str) : str :=
  match s with
  | c :: s' => if is_space c then lstrip s' else s
  | [] => []
  end.

Definition rstrip (s : str) : str := reverse (lstrip (reverse s)).

(** [s.strip()] *)
Definition strip (s : str) : str := rstrip (lstrip s).

(** [s.startswith(p)] *)
Fixpoint startswith (p s : str) : bool :=
  match p, s with
  | [], _ => true
  | _ :: _, [] => false
  | a :: p', b :: s' => (a =? b)%N && startswith p' s'
  end.

(** [sub in s] for strings. *)
Fixpoint contains (sub s : str) : bool :=
  startswith sub s ||
  match s with
  | [] => false
  | _ :: s' => contains sub s'
  end.

(** [s.count(sub)] for a non-empty [sub]: occurrences are counted from the
    left and do not overlap.  [skip] is the number of code points still
    covered by the occurrence just counted. *)
Fixpoint count_from (sub : str) (skip : nat) (s : str) : nat :=
  match s with
  | [] => 0
  | _ :: s' =>
      match skip with
      | S k => count_from sub k s'
      | O => if startswith sub s
             then S (count_from sub (length sub - 1) s')
             else count_from sub 0 s'
      end
  end.

Definition count (sub s : str) : nat := count_from sub 0 s.

(** [s.split()]: maximal runs of non-space code points.  [cur] is the run
    being read. *)
Fixpoint split_from (cur : str) (s : str) : list str :=
  match s with
  | [] => match cur with [] => [] | _ => [cur] end
  | c :: s' =>
      if is_space c
      then match cur with
           | [] => split_from [] s'
           | _ => cur :: split_from [] s'
           end
      else split_from (cur ++ [c]) s'
  end.

Definition split (s : str) : list str := split_from [] s.

(** [sep.join(parts)] *)
Fixpoint join (sep : str) (parts : list str) : str :=
  match parts with
  | [] => []
  | [p] => p
  | p :: ps => p ++ sep ++ join sep ps
  end.

(** [l[-n:]] for [n > 0]. *)
Definition last_n {A} (n : nat) (l : list A) : list A := drop (length l - n) l.

(** [s.lower()] on the code points an HTTP header can hold (Latin-1):
    A-Z, and the accented capitals U+00C0-U+00DE without the
    multiplication sign, move 32 up. *)
Definition lower_char (c : char) : char :=
  (if (65 <=? c) && (c <=? 90)
      || (192 <=? c) && (c <=? 222) && negb (c =? 215)
   then c + 32 else c)%N.

Definition lower (s : str) : str := List.map lower_char s.

End Py.

Import Py.

(* ===================================================================== *)
(** ** Outbound text repair: [clean_markdown] *)
(* ===================================================================== *)

Definition FENCE : str := lit "```".
Definition NL_FENCE : str := [10%N] ++ FENCE.
Definition BOLD : str := lit "**".
Definition UNDERSCORE : str := lit "_".
Definition STAR : str := lit "*".

(** [if text.count(m) % 2 != 0: text += closer] *)
Definition close_if_odd (marker closer text : str) : str :=
  if Nat.odd (count marker text) then text ++ closer else text.

(** The body of [clean_markdown] below the [if not text] guard, up to but
    not including the final slice. *)
Definition repair_markup (text : str) : str :=
  let text := close_if_odd FENCE NL_FENCE text in
  let text := close_if_odd BOLD BOLD text in
  let text := close_if_odd UNDERSCORE UNDERSCORE text in
  let text := close_if_odd STAR STAR text in
  text.

(** [clean_markdown(text)]; the argument is [None] when the inference
    service returned no content. *)
Definition clean_markdown (text : option str) : option str :=
  match text with
  | None => None
  | Some [] => Some []
  | Some t => Some (take 4000 (repair_markup t))
  end.

(* ===================================================================== *)
(** ** JSON documents and Python dictionaries *)
(* ===================================================================== *)

(** What [json.load] returns.  A [dict] keeps its keys in insertion order;
    keys are unique and the operations below keep them so.  (Floats do not
    occur in the documents the bot writes.) *)
Inductive json : Type :=
  | JNull
  | JBool (b : bool)
  | JInt (z : Z)
  | JStr (s : str)
  | JList (items : list json)
  | JObj (fields : list (str * json)).

Definition str_eqb (a b : str) : bool := bool_decide (a = b).

(** [k in d] for a dict [d]. *)
Fixpoint dict_mem (k : str) (d : list (str * json)) : bool :=
  match d with
  | [] => false
  | (k', _) :: d' => str_eqb k k' || dict_mem k d'
  end.

(** [d.get(k)] *)
Fixpoint dict_get (k : str) (d : list (str * json)) : option json :=
  match d with
  | [] => None
  | (k', v) :: d' => if str_eqb k k' then Some v else dict_get k d'
  end.

(** [d[k] = v]: an existing key keeps its place, a new one goes last. *)
Fixpoint dict_set (k : str) (v : json) (d : list (str * json)) : list (str * json) :=
  match d with
  | [] => [(k, v)]
  | (k', v') :: d' =>
      if str_eqb k k' then (k, v) :: d' else (k', v') :: dict_set k v d'
  end.

(** [{"role": role, "content": content}] *)
Definition turn (role : str) (content : option str) : json :=
  JObj [(lit "role", JStr role);
        (lit "content", match content with Some s => JStr s | None => JNull end)].

(** [{"history": h, "settings": s}] *)
Definition profile (h : json) (settings : json) : json :=
  JObj [(lit "history", h); (lit "settings", settings)].

(* ===================================================================== *)
(** ** The world and its oracles *)
(* ===================================================================== *)

Abbreviation bytes := (list Byte.byte) (only parsing).

(** What a call that may raise gives back. *)
Inductive outcome (A : Type) : Type :=
  | Returned (a : A)
  | Raised.
Arguments Returned {A} a.
Arguments Raised {A}.

(** The part of a [requests.Response] the code reads. *)
Record response := {
  status_code : Z;
  content_type : option str;   (* the Content-Type header, if present *)
  content : bytes
}.

(** The four URLs [ImageGenerator.generate] talks to. *)
Inductive endpoint : Type :=
  | HfApi               (* POST api-inference.huggingface.co/models/FLUX.1-schnell *)
  | HfRouter            (* POST router.huggingface.co/hf-inference/models/FLUX.1-schnell *)
  | Pollinations        (* GET image.pollinations.ai/prompt/<prompt> *)
  | PollinationsStyled (style : str). (* GET ...?model=<style> *)

(** The arguments of [groq_client.chat.completions.create]. *)
Record chat_request := {
  model : str;
  messages : list json;
  temperature_tenths : Z;
  max_tokens : Z
}.

(** The structured payload [generate] returns in place of an image. *)
Record text_payload := {
  p_type : str;
  p_prompt : str;
  p_description : option str;
  p_emojis : str;
  p_suggestion : str
}.

(** The three kinds of value [ImageGenerator.generate] returns. *)
Inductive image_result : Type :=
  | NoResult                       (* None *)
  | ImageBytes (b : bytes)         (* response.content *)
  | TextPayload (p : text_payload). (* the dict with 'type': 'text' *)

(** The state of [artovix_memory.json] on disk. *)
Inductive file_state : Type :=
  | Absent                 (* os.path.exists is False *)
  | Unreadable             (* open or json.load raises *)
  | Document (doc : json).

(** What happens when [AdvancedMemory.save] writes the file. *)
Inductive write_outcome : Type :=
  | WriteOk
  | OpenFails     (* the file is left as it was *)
  | DumpFails.    (* the file was truncated and is no longer valid JSON *)

(** One row of the [metrics] table. *)
Record metric_row := {
  m_user_id : str;
  m_timestamp : Z;      (* CURRENT_TIMESTAMP at insertion, seconds since the epoch, UTC *)
  m_tokens : Z;
  m_request_type : str
}.

(** Which feature the "AI backend not configured" notice names. *)
Inductive feature : Type := SearchFeature | CodeFeature | VoiceFeature | ChatFeature.

(** The texts the handlers send to the user.  Each constructor stands for
    one literal or f-string of the source and carries the values that are
    interpolated into it; the fixed wording (emoji, markup) is not spelled
    out. *)
Inductive message_text : Type :=
  (* handle_draw *)
  | DrawUsage
  | DrawCreating (prompt60 : str)
  | DrawConcept (p : text_payload) (prompt : str)
  | DrawCaption (prompt : str) (clock : Z)
  | DrawPreviewUnavailable (prompt : str)
  | DrawTrySpecific (prompt : str)
  | DrawError
  (* handle_search *)
  | SearchUsage
  | SearchResults (query : str) (answer : option str)
  | SearchApology (query : str)
  | SearchUnavailable
  (* handle_code *)
  | CodeUsage
  | CodeAnalysis (analysis : option str)
  | CodeApology (code_text : str)
  | CodeFailed
  (* process_image_generation *)
  | ImageUsage (display_model : str) (explicit : bool)
  | ImageCreating (active_model : str) (prompt60 : str)
  | ImageConcept (p : text_payload) (active_model : str)
  | ImageCaption (active_model : str) (prompt : str) (clock : Z)
  | ImageSendFailed
  | ImageGenerationFailed
  | ImageError
  (* handle_voice *)
  | VoiceUnclear
  | VoiceTranscribed (transcription : str)
  | VoiceFailed
  (* handle_all_messages *)
  | Reply (reply : str)
  | ChatThinking
  | ChatTryAgain
  (* shared *)
  | BackendNotConfigured (f : feature)
  (* safe_send_message's second attempt: the text without the markup
     characters asterisk, underscore, backquote and tilde *)
  | Plain (t : message_text).

(** Everything a handler does to the outside, in the order it happens. *)
Inductive event : Type :=
  | SendMessage (chat : Z) (text : option message_text)  (* bot.send_message *)
  | SendPhoto (chat : Z) (photo : bytes) (caption : message_text)
  | DeleteMessage (chat : Z) (message_id : Z)
  | SendChatAction (chat : Z) (action : str)
  | GetFile (file_id : str)
  | DownloadFile (file_path : str)
  | ImageRequest (e : endpoint) (prompt : str)           (* requests.post / requests.get *)
  | GroqChat (r : chat_request)                          (* chat.completions.create *)
  | GroqTranscribe (filename : str) (audio : bytes).     (* audio.transcriptions.create *)

(** The calls the spec names external: inference calls and image-provider
    requests. *)
Definition is_external_call (e : event) : bool :=
  match e with
  | ImageRequest _ _ | GroqChat _ | GroqTranscribe _ _ => true
  | _ => false
  end.

Definition is_image_request (e : event) : bool :=
  match e with ImageRequest _ _ => true | _ => false end.

(** The answers of the outside world while one event is handled. *)
Record env := {
  groq_client : bool;           (* [groq_client] is not [None] *)
  groq_chat : chat_request -> outcome (option str);
                                (* [response.choices[0].message.content] *)
  groq_transcribe : str -> bytes -> outcome str;
  http : endpoint -> str -> outcome response;
  random_index : nat;           (* what [random.choice] draws *)
  now : Z;                      (* the clock, seconds since the epoch, UTC *)
  memory_write : write_outcome;
  db_available : bool;          (* the SQLite statements do not raise *)
  tg_send_message : Z -> option message_text -> outcome (option Z);
                                (* the id of the sent message; [None] from the dummy bot *)
  tg_send_photo : Z -> bytes -> outcome unit;
  tg_delete_message : Z -> Z -> outcome unit;
  tg_send_chat_action : Z -> outcome unit;
  tg_get_file : str -> outcome str;
  tg_download_file : str -> outcome bytes
}.

Record world := {
  memory_file : file_state;          (* artovix_memory.json *)
  metrics : list metric_row;         (* the metrics table, oldest row first *)
  disk : gmap (list N) (list Byte.byte);  (* the files under temp/ *)
  sent : list event                  (* oldest first *)
}.

Definition set_memory_file (f : file_state) (w : world) : world :=
  {| memory_file := f; metrics := metrics w; disk := disk w; sent := sent w |}.
Definition set_metrics (m : list metric_row) (w : world) : world :=
  {| memory_file := memory_file w; metrics := m; disk := disk w; sent := sent w |}.
Definition set_disk (d : gmap (list N) (list Byte.byte)) (w : world) : world :=
  {| memory_file := memory_file w; metrics := metrics w; disk := d; sent := sent w |}.
Definition log_event (e : event) (w : world) : world :=
  {| memory_file := memory_file w; metrics := metrics w; disk := disk w;
     sent := sent w ++ [e] |}.

(** Changing one oracle of an environment. *)
Definition with_http (h : endpoint -> list N -> outcome response) (E : env) : env :=
  {| groq_client := groq_client E; groq_chat := groq_chat E;
     groq_transcribe := groq_transcribe E; http := h;
     random_index := random_index E; now := now E;
     memory_write := memory_write E; db_available := db_available E;
     tg_send_message := tg_send_message E; tg_send_photo := tg_send_photo E;
     tg_delete_message := tg_delete_message E;
     tg_send_chat_action := tg_send_chat_action E;
     tg_get_file := tg_get_file E; tg_download_file := tg_download_file E |}.

Definition with_groq (client : bool) (c : chat_request -> outcome (option (list N)))
    (t : list N -> list Byte.byte -> outcome (list N)) (E : env) : env :=
  {| groq_client := client; groq_chat := c; groq_transcribe := t; http := http E;
     random_index := random_index E; now := now E;
     memory_write := memory_write E; db_available := db_available E;
     tg_send_message := tg_send_message E; tg_send_photo := tg_send_photo E;
     tg_delete_message := tg_delete_message E;
     tg_send_chat_action := tg_send_chat_action E;
     tg_get_file := tg_get_file E; tg_download_file := tg_download_file E |}.

Definition with_now (t : Z) (E : env) : env :=
  {| groq_client := groq_client E; groq_chat := groq_chat E;
     groq_transcribe := groq_transcribe E; http := http E;
     random_index := random_index E; now := t;
     memory_write := memory_write E; db_available := db_available E;
     tg_send_message := tg_send_message E; tg_send_photo := tg_send_photo E;
     tg_delete_message := tg_delete_message E;
     tg_send_chat_action := tg_send_chat_action E;
     tg_get_file := tg_get_file E; tg_download_file := tg_download_file E |}.

(* ===================================================================== *)
(** ** The handler monad: state and exceptions *)
(* ===================================================================== *)

(** A Python statement either completes with a value or raises; what it
    did to the world before raising stays done. *)
Inductive res (A : Type) : Type :=
  | Ok (a : A)
  | Exc.
Arguments Ok {A} a.
Arguments Exc {A}.

Definition M (A : Type) : Type := world -> res A * world.

Definition ret {A} (a : A) : M A := fun w => (Ok a, w).
Definition raise {A} : M A := fun w => (Exc, w).
Definition bind {A B} (m : M A) (k : A -> M B) : M B :=
  fun w => match m w with
           | (Ok a, w') => k a w'
           | (Exc, w') => (Exc, w')
           end.

(** [try: body except Exception: handler] *)
Definition try_except {A} (body handler : M A) : M A :=
  fun w => match body w with
           | (Ok a, w') => (Ok a, w')
           | (Exc, w') => handler w'
           end.

Definition get_world : M world := fun w => (Ok w, w).
Definition modify (f : world -> world) : M unit := fun w => (Ok tt, f w).

(** Perform an outward call: log it, then answer as the oracle says. *)
Definition call {A} (e : event) (o : outcome A) : M A :=
  fun w => match o with
           | Returned a => (Ok a, log_event e w)
           | Raised => (Exc, log_event e w)
           end.

(** stdpp's monad notations: [x ← m; k] and [m;; k]. *)
#[global] Instance M_ret : MRet M := @ret.
#[global] Instance M_bind : MBind M := fun A B k m => bind m k.

(** What the handler left behind, whatever way it ended. *)
Definition run {A} (m : M A) (w : world) : world := snd (m w).
Definition result {A} (m : M A) (w : world) : res A := fst (m w).

Section Bot.

Variable E : env.

(* ===================================================================== *)
(** ** The counter store: [Analytics] *)
(* ===================================================================== *)

(** [analytics.log_request(user_id, tokens, request_type)]: one INSERT, the
    timestamp is the store's clock; a failure is logged and swallowed. *)
Definition log_request (user_id : str) (tokens : Z) (request_type : str) : M unit :=
  if db_available E
  then modify (fun w =>
         set_metrics (metrics w ++
           [{| m_user_id := user_id; m_timestamp := now E;
               m_tokens := tokens; m_request_type := request_type |}]) w)
  else ret tt.

(** [WHERE timestamp > datetime('now', '-1 minute')] *)
Definition in_last_minute (r : metric_row) : bool := (now E - 60 <? m_timestamp r)%Z.

(** [WHERE DATE(timestamp) = DATE('now')]: the same UTC calendar day. *)
Definition is_today (r : metric_row) : bool :=
  (m_timestamp r `div` 86400 =? now E `div` 86400)%Z.

(** [SELECT request_type, COUNT( * ) ... GROUP BY request_type] read into a
    [dict]. *)
Fixpoint group_count (rows : list metric_row) : gmap (list N) nat :=
  match rows with
  | [] => ∅
  | r :: rows' =>
      let m := group_count rows' in
      <[m_request_type r := S (default 0 (m !! m_request_type r))]> m
  end.

Record metrics_report := {
  RPM : nat;
  TPM : Z;
  RPD : nat;
  breakdown : gmap (list N) nat
}.

(** [analytics.get_current_metrics()] *)
Definition get_current_metrics : M metrics_report :=
  w ← get_world;
  if db_available E
  then
    let recent := filter (fun r => in_last_minute r = true) (metrics w) in
    let today := filter (fun r => is_today r = true) (metrics w) in
    ret {| RPM := length recent;
           TPM := foldr (fun r acc => (m_tokens r + acc)%Z) 0%Z recent;
           RPD := length today;
           breakdown := group_count today |}
  else ret {| RPM := 0; TPM := 0; RPD := 0; breakdown := ∅ |}.

(* ===================================================================== *)
(** ** The conversation store: [AdvancedMemory] *)
(* ===================================================================== *)

(** [memory.load()]: the parsed document, or [{}] when the file is missing
    or cannot be read. *)
Definition load : M json :=
  w ← get_world;
  match memory_file w with
  | Document doc => ret doc
  | Absent | Unreadable => ret (JObj [])
  end.

(** [memory.save(data)]: never raises. *)
Definition save (data : json) : M unit :=
  match memory_write E with
  | WriteOk => modify (set_memory_file (Document data))
  | OpenFails => ret tt
  | DumpFails => modify (set_memory_file Unreadable)
  end.

(** [data.get(key, dflt)]: only a [dict] has [get]. *)
Definition py_get (data : json) (key : str) (dflt : json) : M json :=
  match data with
  | JObj d => ret (default dflt (dict_get key d))
  | _ => raise
  end.

(** [data[key]] for a string key: a [dict] that holds it. *)
Definition py_item (data : json) (key : str) : M json :=
  match data with
  | JObj d => match dict_get key d with Some v => ret v | None => raise end
  | _ => raise
  end.

(** [data[key] = v] for a string key: only a [dict] takes it. *)
Definition py_set_item (data : json) (key : str) (v : json) : M json :=
  match data with
  | JObj d => ret (JObj (dict_set key v d))
  | _ => raise
  end.

(** [key in data] for a string [key]: a key of a dict, an element of a
    list, a substring of a string; anything else is not iterable. *)
Definition py_in (key : str) (data : json) : M bool :=
  match data with
  | JObj d => ret (dict_mem key d)
  | JList l => ret (existsb (fun j => match j with JStr s => str_eqb key s | _ => false end) l)
  | JStr s => ret (contains key s)
  | JNull | JBool _ | JInt _ => raise
  end.

(** [if key not in user_data: user_data[key] = v] *)
Definition ensure_key (key : str) (v : json) (user_data : json) : M json :=
  present ← py_in key user_data;
  if (present : bool) then ret user_data else py_set_item user_data key v.

(** [memory.get_user_data(user_id)].  Callers pass [message.chat.id] or its
    [str]; the first line makes both the same key, which is what the model
    takes. *)
Definition get_user_data (user_id : str) : M json :=
  data ← load;
  user_data ← py_get data user_id (JObj []);
  (* Backward compatibility: if it's a list, convert to dict *)
  let user_data :=
    match user_data with
    | JList _ => profile user_data (JObj [])
    | _ => user_data
    end in
  user_data ← ensure_key (lit "history") (JList []) user_data;
  user_data ← ensure_key (lit "settings") (JObj []) user_data;
  ret user_data.

(** [memory.save_user_data(user_id, user_data)] *)
Definition save_user_data (user_id : str) (user_data : json) : M unit :=
  data ← load;
  data ← py_set_item data user_id user_data;
  save data.

(** [memory.get_setting(user_id, key, default)] *)
Definition get_setting (user_id key : str) (dflt : json) : M json :=
  user_data ← get_user_data user_id;
  settings ← py_item user_data (lit "settings");
  py_get settings key dflt.

(** [memory.update_setting(user_id, key, value)] *)
Definition update_setting (user_id key : str) (value : json) : M unit :=
  user_data ← get_user_data user_id;
  settings ← py_item user_data (lit "settings");
  settings ← py_set_item settings key value;
  user_data ← py_set_item user_data (lit "settings") settings;
  save_user_data user_id user_data.

(* ===================================================================== *)
(** ** Sending text: [safe_send_message] *)
(* ===================================================================== *)

(** [text.replace('*', '')...]: [None] has no [replace]. *)
Definition to_plain (text : option message_text) : M (option message_text) :=
  match text with
  | Some t => ret (Some (Plain t))
  | None => raise
  end.

Definition send_message (chat_id : Z) (text : option message_text) : M (option Z) :=
  call (SendMessage chat_id text) (tg_send_message E chat_id text).

(** [safe_send_message(chat_id, text)]: the sent message, or [None]; never
    raises. *)
Definition safe_send_message (chat_id : Z) (text : option message_text) : M (option Z) :=
  try_except (send_message chat_id text)
    (try_except
       (text_plain ← to_plain text;
        send_message chat_id text_plain)
       (ret None)).

(* ===================================================================== *)
(** ** The image provider chain: [ImageGenerator.generate] *)
(* ===================================================================== *)

Definition AUTO : str := lit "auto".
Definition FLUX : str := lit "flux".
Definition POLLINATIONS : str := lit "pollinations".
Definition CREATIVE : str := lit "creative".
Definition LLAMA : str := lit "llama-3.3-70b-versatile".

Definition styles : list str :=
  [lit "digital-art"; lit "fantasy-art"; lit "neon-punk"; lit "isometric"; lit "low-poly"].

(** [random.choice(styles)] *)
Definition random_choice (l : list str) : str :=
  default [] (l !! (random_index E `mod` length l)).

(** [model_type in [a, b]] *)
Definition is_one_of (model_type a b : str) : bool :=
  str_eqb model_type a || str_eqb model_type b.

Definition request (e : endpoint) (prompt : str) : M response :=
  call (ImageRequest e prompt) (http E e prompt).

(** Step 1, Hugging Face.  [Some b] stands for [return b] out of
    [generate], [None] for falling through to the next step. *)
Definition try_hugging_face (clean_prompt : str) : M (option bytes) :=
  try_except
    (response ← request HfApi clean_prompt;
     if (status_code response =? 200)%Z then
       let content_type := default [] (content_type response) in
       if contains (lit "image") content_type
       then ret (Some (content response))
       else ret None
     else if (status_code response =? 410)%Z then
       response ← request HfRouter clean_prompt;
       if (status_code response =? 200)%Z
       then ret (Some (content response))
       else ret None
     else ret None)
    (ret None).

(** Step 2, Pollinations. *)
Definition try_pollinations (clean_prompt : str) : M (option bytes) :=
  try_except
    (response ← request Pollinations clean_prompt;
     if (status_code response =? 200)%Z then
       let content_type := default [] (content_type response) in
       if contains (lit "image") (lower content_type)
       then ret (Some (content response))
       else ret None
     else ret None)
    (ret None).

(** Step 3, the stylized Pollinations request. *)
Definition try_creative (clean_prompt : str) : M (option bytes) :=
  try_except
    (let style := random_choice styles in
     response ← request (PollinationsStyled style) clean_prompt;
     if (status_code response =? 200)%Z
     then ret (Some (content response))
     else ret None)
    (ret None).

Definition description_prompt (clean_prompt : str) : str :=
  lit "Create a detailed visual description for: " ++ clean_prompt.

Definition description_request (clean_prompt : str) : chat_request :=
  {| model := LLAMA;
     messages := [turn (lit "user") (Some (description_prompt clean_prompt))];
     temperature_tenths := 8;
     max_tokens := 200 |}.

Definition not_configured_payload (clean_prompt : str) : text_payload :=
  {| p_type := lit "text";
     p_prompt := clean_prompt;
     p_description := Some (lit
       "AI backend not configured. Set GROQ_API_KEY in .env to enable detailed descriptions.");
     p_emojis := [9888; 65039]%N;       (* warning sign *)
     p_suggestion := lit "Add GROQ_API_KEY to .env and restart the bot." |}.

Definition description_payload (clean_prompt : str) (description : option str) : text_payload :=
  {| p_type := lit "text";
     p_prompt := clean_prompt;
     p_description := description;
     p_emojis := [127912; 10024]%N;     (* palette, sparkles *)
     p_suggestion := lit "Try a different prompt or simpler description." |}.

(** The text-description fallback of auto mode. *)
Definition text_fallback (clean_prompt : str) : M image_result :=
  try_except
    (if groq_client E then
       description ← call (GroqChat (description_request clean_prompt))
                          (groq_chat E (description_request clean_prompt));
       ret (TextPayload (description_payload clean_prompt description))
     else ret (TextPayload (not_configured_payload clean_prompt)))
    (ret NoResult).

(** Run [step] when [enabled]; a [Some b] from it ends the chain. *)
Definition or_else (enabled : bool) (step : M (option bytes)) (rest : M image_result)
  : M image_result :=
  if enabled then
    r ← step;
    match r with
    | Some b => ret (ImageBytes b)
    | None => rest
    end
  else rest.

(** [ImageGenerator.generate(prompt, model_type)] *)
Definition generate (prompt : str) (model_type : str) : M image_result :=
  try_except
    (let clean_prompt := strip prompt in
     match clean_prompt with
     | [] => ret NoResult
     | _ =>
       or_else (is_one_of model_type AUTO FLUX) (try_hugging_face clean_prompt)
      (or_else (is_one_of model_type AUTO POLLINATIONS) (try_pollinations clean_prompt)
      (or_else (is_one_of model_type AUTO CREATIVE) (try_creative clean_prompt)
         (if str_eqb model_type AUTO
          then text_fallback clean_prompt
          (* If a specific model was requested and failed, return None *)
          else ret NoResult)))
     end)
    (ret NoResult).

(* ===================================================================== *)
(** ** Prompts sent to the inference service *)
(* ===================================================================== *)

(** A triple-quoted literal, one element per source line. *)
Definition lines (l : list str) : str := join [10%N] l.

Definition SYSTEM_PROMPT : str := lines
  [ lit "You are Artovix, an elite AI assistant in 2026.";
    [];
    lit "PERSONALITY:";
    lit "- Brilliant futurist AI";
    lit "- Empathetic and supportive  ";
    lit "- Creative problem solver";
    lit "- Multimodal expert";
    lit "- Ethical and responsible";
    [];
    lit "GUIDELINES:";
    lit "1. Be helpful, accurate, and concise";
    lit "2. Use appropriate emojis";
    lit "3. Admit when you don't know something";
    lit "4. Consider context from previous messages";
    lit "5. Think step-by-step for complex problems";
    [];
    lit "RESPONSE FORMAT:";
    lit "- Use Markdown for readability";
    lit "- Structure complex answers with bullet points";
    lit "- Keep responses clear and engaging";
    [];
    lit "Remember: You're talking to a human in 2026!" ].

Definition search_prompt (query : str) : str := lines
  [ lit "Search Query: " ++ query;
    lit "        ";
    lit "        As a Knowledge Specialist in 2026, provide a comprehensive search result for the query above.";
    lit "        ";
    lit "        Structure your response as follows:";
    lit "        " ++ [127760%N] ++ lit " [Topic Overview]";
    lit "        Brief summary of the most current information.";
    lit "        ";
    lit "        " ++ [128204%N] ++ lit " [Key Facts & Developments]";
    lit "        - Detail 1";
    lit "        - Detail 2";
    lit "        ";
    lit "        " ++ [128736%N] ++ [65039%N] ++ lit " [Practical Insights/Applications]";
    lit "        How this information is used or its significance.";
    lit "        ";
    lit "        " ++ [128161%N] ++ lit " [Expert Tip]";
    lit "        A unique insight or recommendation.";
    lit "        ";
    lit "        Keep it professional, accurate, and formatted for a mobile chat interface." ].

Definition code_block_prompt (code_text : str) : str := lines
  [ lit "Analyze this code and provide:";
    [];
    lit "1. What it does";
    lit "2. Any issues or bugs";
    lit "3. Improvements";
    lit "4. Best practices";
    [];
    lit "Code:";
    code_text ].

Definition code_question_prompt (code_text : str) : str := lines
  [ lit "Answer this programming question: " ++ code_text;
    [];
    lit "Provide:";
    lit "1. Clear explanation";
    lit "2. Code examples if applicable";
    lit "3. Best practices";
    lit "4. Common pitfalls to avoid" ].

(** [[{"role": "user", "content": prompt}]] with the call's fixed budget. *)
Definition single_turn_request (prompt : str) (temperature tokens : Z) : chat_request :=
  {| model := LLAMA;
     messages := [turn (lit "user") (Some prompt)];
     temperature_tenths := temperature;
     max_tokens := tokens |}.

Definition chat (r : chat_request) : M (option str) :=
  call (GroqChat r) (groq_chat E r).

(* ===================================================================== *)
(** ** Command handlers *)
(* ===================================================================== *)

(** The part of a Telegram message the handlers read. *)
Record message := {
  chat_id : Z;
  text : option str;
  voice_file_id : str
}.

(** [if message.text and len(message.text.split()) > 1:
       arg = ' '.join(message.text.split()[1:])]; [None] is the [else]. *)
Definition command_argument (text : option str) : option str :=
  match text with
  | Some ((_ :: _) as t) =>
      if 1 <? length (split t) then Some (join (lit " ") (tail (split t))) else None
  | _ => None
  end.

(** [len(s.split())] as an [int]. *)
Definition word_count (s : str) : Z := Z.of_nat (length (split s)).

Definition reply_to (m : message) (t : message_text) : M unit :=
  safe_send_message (chat_id m) (Some t);; ret tt.

(** [bot.send_chat_action(message.chat.id, action)] *)
Definition send_chat_action (m : message) (action : str) : M unit :=
  call (SendChatAction (chat_id m) action) (tg_send_chat_action E (chat_id m)).

(** [handle_search]: /search, /find, /google. *)
Definition handle_search (m : message) : M unit :=
  try_except
    (match command_argument (text m) with
     | None => reply_to m SearchUsage
     | Some query =>
         send_chat_action m (lit "typing");;
         (* [true]: the inner try block was left normally; [false]: by return *)
         carry_on ← try_except
           (if groq_client E then
              content ← chat (single_turn_request (search_prompt query) 7 500);
              let answer := clean_markdown content in
              reply_to m (SearchResults query answer);;
              ret true
            else
              reply_to m (BackendNotConfigured SearchFeature);;
              ret false)
           (reply_to m (SearchApology query);; ret true);
         if (carry_on : bool)
         then log_request (str_of_int (chat_id m)) (word_count query * 30) (lit "search")
         else ret tt
     end)
    (reply_to m SearchUnavailable).

(** [handle_code]: /code, /program, /debug. *)
Definition handle_code (m : message) : M unit :=
  try_except
    (match command_argument (text m) with
     | None => reply_to m CodeUsage
     | Some code_text =>
         send_chat_action m (lit "typing");;
         let code_prompt :=
           if contains FENCE code_text
           then code_block_prompt code_text
           else code_question_prompt code_text in
         carry_on ← try_except
           (if groq_client E then
              content ← chat (single_turn_request code_prompt 3 600);
              let analysis := clean_markdown content in
              reply_to m (CodeAnalysis analysis);;
              ret true
            else
              reply_to m (BackendNotConfigured CodeFeature);;
              ret false)
           (reply_to m (CodeApology code_text);; ret true);
         if (carry_on : bool)
         then log_request (str_of_int (chat_id m)) (word_count code_text) (lit "code_analysis")
         else ret tt
     end)
    (reply_to m CodeFailed).

(** [if thinking_msg: try: bot.delete_message(...) except: pass] *)
Definition delete_thinking (chat : Z) (thinking_msg : option Z) : M unit :=
  match thinking_msg with
  | Some message_id =>
      try_except
        (call (DeleteMessage chat message_id) (tg_delete_message E chat message_id))
        (ret tt)
  | None => ret tt
  end.

Definition send_photo (chat : Z) (photo : bytes) (caption : message_text) : M unit :=
  call (SendPhoto chat photo caption) (tg_send_photo E chat photo).

(** [handle_draw]: /draw, /imagine, /generate (the first handler registered
    for these commands). *)
Definition handle_draw (m : message) : M unit :=
  match command_argument (text m) with
  | None =>
      try_except (reply_to m DrawUsage)
        (delete_thinking (chat_id m) None;; reply_to m DrawError)
  | Some prompt =>
      thinking_msg ← try_except
        (safe_send_message (chat_id m) (Some (DrawCreating (take 60 prompt))))
        (delete_thinking (chat_id m) None;; reply_to m DrawError;; ret None);
      try_except
        (result ← generate prompt AUTO;
         delete_thinking (chat_id m) thinking_msg;;
         match result with
         | TextPayload p => reply_to m (DrawConcept p prompt)
         | ImageBytes ((_ :: _) as b) =>
             try_except
               (send_photo (chat_id m) b (DrawCaption prompt (now E)))
               (reply_to m (DrawPreviewUnavailable prompt))
         | ImageBytes [] | NoResult => reply_to m (DrawTrySpecific prompt)
         end;;
         log_request (str_of_int (chat_id m)) (word_count prompt) (lit "image_generation"))
        (delete_thinking (chat_id m) thinking_msg;; reply_to m DrawError)
  end.

(** [x.upper()] needs a string. *)
Definition as_str (x : json) : M str :=
  match x with
  | JStr s => ret s
  | _ => raise
  end.

(** [model_type if model_type else other], [model_type] being [None] or a
    string. *)
Definition model_or (model_type : option str) (other : M json) : M json :=
  match model_type with
  | Some ((_ :: _) as s) => ret (JStr s)
  | _ => other
  end.

Definition is_truthy (model_type : option str) : bool :=
  match model_type with
  | Some (_ :: _) => true
  | _ => false
  end.

(** [process_image_generation(message, model_type)] *)
Definition process_image_generation (m : message) (model_type : option str) : M unit :=
  let user_id := str_of_int (chat_id m) in
  let on_error thinking_msg :=
    delete_thinking (chat_id m) thinking_msg;; reply_to m ImageError in
  match command_argument (text m) with
  | None =>
      try_except
        (current_model ← get_setting user_id (lit "image_model") (JStr AUTO);
         display_model ← model_or model_type (ret current_model);
         display_model ← as_str display_model;
         reply_to m (ImageUsage display_model (is_truthy model_type)))
        (on_error None)
  | Some prompt =>
      started ← try_except
        (active_model ← model_or model_type (get_setting user_id (lit "image_model") (JStr AUTO));
         active_model ← as_str active_model;
         thinking_msg ← safe_send_message (chat_id m)
                          (Some (ImageCreating active_model (take 60 prompt)));
         ret (Some (active_model, thinking_msg)))
        (on_error None;; ret None);
      match started with
      | None => ret tt
      | Some (active_model, thinking_msg) =>
          try_except
            (result ← generate prompt active_model;
             delete_thinking (chat_id m) thinking_msg;;
             match result with
             | TextPayload p => reply_to m (ImageConcept p active_model)
             | ImageBytes ((_ :: _) as b) =>
                 try_except
                   (send_photo (chat_id m) b (ImageCaption active_model prompt (now E)))
                   (reply_to m ImageSendFailed)
             | ImageBytes [] | NoResult => reply_to m ImageGenerationFailed
             end;;
             log_request user_id (word_count prompt) (lit "image_gen_" ++ active_model))
            (on_error thinking_msg)
      end
  end.

Definition handle_draw_default (m : message) : M unit := process_image_generation m None.
Definition handle_flux (m : message) : M unit := process_image_generation m (Some FLUX).
Definition handle_pollinations (m : message) : M unit :=
  process_image_generation m (Some POLLINATIONS).
Definition handle_creative (m : message) : M unit := process_image_generation m (Some CREATIVE).
Definition handle_auto (m : message) : M unit := process_image_generation m (Some AUTO).

(** The handlers of commands that take an argument. *)
Inductive handler : Type :=
  | HandleDraw | HandleSearch | HandleCode | HandleDrawDefault
  | HandleFlux | HandlePollinations | HandleCreative | HandleAuto.

(** The [@bot.message_handler(commands=[...])] decorators of these handlers
    in the order they register.  (The handlers of /start, /stats, /reset,
    /status and /help lie in between; their names are disjoint from
    these.) *)
Definition registry : list (list str * handler) :=
  [ ([lit "draw"; lit "imagine"; lit "generate"], HandleDraw);
    ([lit "search"; lit "find"; lit "google"], HandleSearch);
    ([lit "code"; lit "program"; lit "debug"], HandleCode);
    ([lit "draw"; lit "imagine"; lit "generate"], HandleDrawDefault);
    ([lit "flux"], HandleFlux);
    ([lit "pollinations"; lit "pollin"], HandlePollinations);
    ([lit "creative"; lit "art"], HandleCreative);
    ([lit "auto"], HandleAuto) ].

(** The transport runs the first registered handler whose command list
    holds the command. *)
Definition route (command : str) : option handler :=
  snd <$> List.find (fun entry => existsb (str_eqb command) (fst entry)) registry.

Definition run_handler (h : handler) (m : message) : M unit :=
  match h with
  | HandleDraw => handle_draw m
  | HandleSearch => handle_search m
  | HandleCode => handle_code m
  | HandleDrawDefault => handle_draw_default m
  | HandleFlux => handle_flux m
  | HandlePollinations => handle_pollinations m
  | HandleCreative => handle_creative m
  | HandleAuto => handle_auto m
  end.

(** The usage text each handler shows; the image help names the model it
    displays. *)
Definition is_usage_text (h : handler) (t : message_text) : Prop :=
  match h with
  | HandleDraw => t = DrawUsage
  | HandleSearch => t = SearchUsage
  | HandleCode => t = CodeUsage
  | HandleDrawDefault => exists display_model, t = ImageUsage display_model false
  | HandleFlux => t = ImageUsage FLUX true
  | HandlePollinations => t = ImageUsage POLLINATIONS true
  | HandleCreative => t = ImageUsage CREATIVE true
  | HandleAuto => t = ImageUsage AUTO true
  end.

(* ===================================================================== *)
(** ** Free text: [handle_all_messages] *)
(* ===================================================================== *)

(** [*history[-n:]]: the last [n] items of a list, or the last [n]
    characters of a string; nothing else can be sliced. *)
Definition py_last (n : nat) (history : json) : M (list json) :=
  match history with
  | JList l => ret (last_n n l)
  | JStr s => ret ((fun c => JStr [c]) <$> last_n n s)
  | _ => raise
  end.

(** [history.extend(items)]: only a list has [extend]. *)
Definition py_extend (history : json) (items : list json) : M (list json) :=
  match history with
  | JList l => ret (l ++ items)
  | _ => raise
  end.

(** The message list of a chat turn. *)
Definition chat_messages (prior : list json) (user_text : str) : list json :=
  [turn (lit "system") (Some SYSTEM_PROMPT)] ++ prior ++ [turn (lit "user") (Some user_text)].

Definition chat_turn_request (prior : list json) (user_text : str) : chat_request :=
  {| model := LLAMA;
     messages := chat_messages prior user_text;
     temperature_tenths := 7;
     max_tokens := 400 |}.

(** [if len(history) > 20: history = history[-20:]] *)
Definition limit_memory (history : list json) : list json :=
  if 20 <? length history then last_n 20 history else history.

(** [len(reply.split())]: [None] has no [split]. *)
Definition reply_word_count (reply : option str) : M Z :=
  match reply with
  | Some r => ret (word_count r)
  | None => raise
  end.

(** The inner [try] block from the reply on: save the turn to memory, send
    the reply, log the request. *)
Definition save_and_reply (m : message) (user_id : str) (user_data history : json)
    (user_text : str) (content : option str) : M unit :=
  let reply := clean_markdown content in
  (* Save to memory *)
  history ← py_extend history
              [turn (lit "user") (Some user_text); turn (lit "assistant") reply];
  (* Limit memory size *)
  let history := limit_memory history in
  user_data ← py_set_item user_data (lit "history") (JList history);
  save_user_data user_id user_data;;
  (* Send reply *)
  safe_send_message (chat_id m) (Reply <$> reply);;
  (* Log analytics *)
  reply_words ← reply_word_count reply;
  log_request user_id (word_count user_text + reply_words) (lit "chat").

Definition handle_all_messages (m : message) : M unit :=
  try_except
    (match text m with
     | None | Some [] => ret tt
     | Some user_text =>
       if startswith (lit "/") user_text then ret tt else
       let user_id := str_of_int (chat_id m) in
       user_data ← get_user_data user_id;
       history ← py_item user_data (lit "history");
       (* Prepare conversation *)
       prior ← py_last 4 history;
       let request := chat_turn_request prior user_text in
       send_chat_action m (lit "typing");;
       try_except
         (if groq_client E then
            content ← chat request;
            save_and_reply m user_id user_data history user_text content
          else reply_to m (BackendNotConfigured ChatFeature))
         (try_except (reply_to m ChatThinking) (ret tt))
     end)
    (try_except (reply_to m ChatTryAgain) (ret tt)).

(* ===================================================================== *)
(** ** Voice clips: [handle_voice] *)
(* ===================================================================== *)

(** [f"temp/voice_{message.chat.id}_{int(time.time())}.ogg"] *)
Definition temp_filename (m : message) : str :=
  lit "temp/voice_" ++ str_of_int (chat_id m) ++ lit "_" ++ str_of_int (now E) ++ lit ".ogg".

(** [with open(name, 'wb') as f: f.write(data)] *)
Definition write_file (name : str) (data : bytes) : M unit :=
  modify (fun w => set_disk (<[name := data]> (disk w)) w).

(** [os.remove(name)] *)
Definition remove_file (name : str) : M unit :=
  w ← get_world;
  match disk w !! name with
  | Some _ => modify (fun w => set_disk (delete name (disk w)) w)
  | None => raise
  end.

Definition with_text (m : message) (t : str) : message :=
  {| chat_id := chat_id m; text := Some t; voice_file_id := voice_file_id m |}.

Definition handle_voice (m : message) : M unit :=
  try_except
    (send_chat_action m (lit "upload_document");;
     file_path ← call (GetFile (voice_file_id m)) (tg_get_file E (voice_file_id m));
     downloaded_file ← call (DownloadFile file_path) (tg_download_file E file_path);
     (* Save temporarily *)
     let name := temp_filename m in
     write_file name downloaded_file;;
     (* Transcribe with Groq Whisper *)
     if groq_client E then
       transcription ← call (GroqTranscribe name downloaded_file)
                            (groq_transcribe E name downloaded_file);
       (* Cleanup *)
       remove_file name;;
       match strip transcription with
       | [] => reply_to m VoiceUnclear
       | _ =>
           reply_to m (VoiceTranscribed transcription);;
           handle_all_messages (with_text m transcription)
       end
     else reply_to m (BackendNotConfigured VoiceFeature))
    (reply_to m VoiceFailed).

End Bot.

(* ===================================================================== *)
(** ** When a provider counts as failed *)
(* ===================================================================== *)

(** A soft failure in the words of the specification: an exception, a
    status other than 200, or a content type that is not an image. *)
Definition soft_failure (o : outcome response) : bool :=
  match o with
  | Raised => true
  | Returned r =>
      negb (status_code r =? 200)%Z
      || negb (contains (lit "image") (lower (default [] (content_type r))))
  end.

(** The outcomes after which step 1 of [generate] falls through: an
    exception, a status other than 200 and 410, status 200 without an image
    content type, or status 410 and then an exception or a status other
    than 200 from the router URL. *)
Definition primary_fails (E : env) (clean_prompt : list N) : bool :=
  match http E HfApi clean_prompt with
  | Raised => true
  | Returned r =>
      if (status_code r =? 200)%Z
      then negb (contains (lit "image") (default [] (content_type r)))
      else if (status_code r =? 410)%Z
      then match http E HfRouter clean_prompt with
           | Raised => true
           | Returned r' => negb (status_code r' =? 200)%Z
           end
      else true
  end.

(** The outcomes after which step 2 falls through. *)
Definition secondary_fails (E : env) (clean_prompt : list N) : bool :=
  soft_failure (http E Pollinations clean_prompt).

(** The outcomes after which step 3 falls through: an exception or a
    status other than 200. *)
Definition tertiary_fails (E : env) (clean_prompt : list N) : bool :=
  match http E (PollinationsStyled (random_choice E styles)) clean_prompt with
  | Raised => true
  | Returned r => negb (status_code r =? 200)%Z
  end.

(** What the text fallback of auto mode returns. *)
Definition fallback_result (E : env) (clean_prompt : list N) : image_result :=
  if groq_client E then
    match groq_chat E (description_request clean_prompt) with
    | Returned description => TextPayload (description_payload clean_prompt description)
    | Raised => NoResult
    end
  else TextPayload (not_configured_payload clean_prompt).

(* ===================================================================== *)
(** ** Recording a run of chat events *)
(* ===================================================================== *)

(** One recorded event: the store's clock when it is written, the user and
    the token count. *)
Record chat_event := {
  at_time : Z;
  by_user : list N;
  tokens_used : Z
}.

(** [analytics.log_request(user, tokens, "chat")] once per event, each at
    its own time. *)
Fixpoint record_chats (E : env) (events : list chat_event) : M unit :=
  match events with
  | [] => ret tt
  | e :: rest =>
      log_request (with_now (at_time e) E) (by_user e) (tokens_used e) (lit "chat");;
      record_chats E rest
  end.

(** The row an event leaves in the table. *)
Definition chat_row (e : chat_event) : metric_row :=
  {| m_user_id := by_user e; m_timestamp := at_time e;
     m_tokens := tokens_used e; m_request_type := lit "chat" |}.

(** The time of the event lies in the minute before the query. *)
Definition within_last_minute (E : env) (e : chat_event) : Prop :=
  (now E - 60 < at_time e <= now E)%Z.

(** The event and the query fall on the same UTC calendar day. *)
Definition same_utc_day (E : env) (e : chat_event) : Prop :=
  (at_time e `div` 86400 = now E `div` 86400)%Z.

(* ===================================================================== *)
(** ** Observing the stores and the log *)
(* ===================================================================== *)

(** What [memory.load()] returns in world [w]. *)
Definition loaded (w : world) : json :=
  match memory_file w with
  | Document doc => doc
  | Absent | Unreadable => JObj []
  end.

(** The entry the store holds for a user, if any. *)
Definition stored_entry (w : world) (user_id : list N) : option json :=
  match loaded w with
  | JObj d => dict_get user_id d
  | _ => None
  end.

(** The user has no entry in the store. *)
Definition never_seen (w : world) (user_id : list N) : Prop :=
  exists d, loaded w = JObj d /\ dict_get user_id d = None.

(** The user's entry is a bare list of turns (the legacy schema). *)
Definition legacy_entry (w : world) (user_id : list N) (turns : list json) : Prop :=
  exists d, loaded w = JObj d /\ dict_get user_id d = Some (JList turns).

(** The history the store holds for a user: the legacy list, the
    ["history"] list of a profile, or nothing. *)
Definition stored_history (w : world) (user_id : list N) : list json :=
  match stored_entry w user_id with
  | Some (JList turns) => turns
  | Some (JObj p) =>
      match dict_get (lit "history") p with
      | Some (JList h) => h
      | _ => []
      end
  | _ => []
  end.

(** The shapes of entry the bot itself writes: a legacy list, or a dict
    whose ["history"], if present, is a list and whose ["settings"], if
    present, is a dict. *)
Definition well_formed_profile (entry : json) : bool :=
  match entry with
  | JList _ => true
  | JObj p =>
      match dict_get (lit "history") p with
      | None | Some (JList _) => true
      | _ => false
      end
      &&
      match dict_get (lit "settings") p with
      | None | Some (JObj _) => true
      | _ => false
      end
  | _ => false
  end.

(** The memory file is missing, unreadable, or a mapping from user ids to
    well-formed entries. *)
Definition well_formed_store (w : world) : Prop :=
  exists d, loaded w = JObj d /\
    forall k v, dict_get k d = Some v -> well_formed_profile v = true.

(** What [m] sent outwards when run in [w]. *)
Definition events_of {A} (m : M A) (w : world) : list event :=
  drop (length (sent w)) (sent (run m w)).

(** [w] after the outward calls [evs]. *)
Definition log_events (evs : list event) (w : world) : world :=
  {| memory_file := memory_file w; metrics := metrics w; disk := disk w;
     sent := sent w ++ evs |}.

Definition is_chat_call (e : event) : bool :=
  match e with GroqChat _ => true | _ => false end.

(** Every run of [m] takes a world to one related to it by [R]; with [R]
    a preorder this is how a handler is shown to leave a store alone or to
    send only events of one kind. *)
Definition steps_with {A} (R : relation world) (m : M A) : Prop :=
  forall w, R w (snd (m w)).

(** The memory file is left as it was. *)
Definition same_memory : relation world :=
  fun w w' => memory_file w' = memory_file w.

(** The temporary directory is left as it was. *)
Definition same_disk : relation world :=
  fun w w' => disk w' = disk w.

(** The log grew, and only by events that satisfy [P]. *)
Definition sends (P : event -> Prop) : relation world :=
  fun w w' => exists evs, sent w' = sent w ++ evs /\ Forall P evs.

(** A store of the shape the bot writes stays one. *)
Definition keeps_well_formed : relation world :=
  fun w w' => well_formed_store w -> well_formed_store w'.

(** A chat call replays at most four prior entries, between the system
    instruction and the text of the message. *)
Definition replays_at_most_four (m : message) (e : event) : Prop :=
  match e with
  | GroqChat r =>
      exists prior user_text,
        text m = Some user_text /\
        messages r = chat_messages prior user_text /\
        length prior <= 4
  | _ => True
  end.

(** The conditions under which a free-text message reaches the chat call:
    the message carries text that is not a command, the user's entry is one
    the bot wrote, the typing indicator goes out and an inference
    credential is configured. *)
Record chat_turn (E : env) (w : world) (m : message) (user_text : list N) : Prop := {
  turn_text : text m = Some user_text;
  turn_not_empty : user_text <> [];
  turn_not_command : startswith (lit "/") user_text = false;
  turn_store : well_formed_store w;
  turn_typing : tg_send_chat_action E (chat_id m) = Returned tt;
  turn_client : groq_client E = true
}.

(* ===================================================================== *)
(** ** Memory reset: [handle_reset] *)
(* ===================================================================== *)

Section Reset.

Variable E : env.

(** The two literal texts of [handle_reset]: the confirmation, and the
    shorter one its [except] branch sends. *)
Variables MEMORY_CLEARED RESET_COMPLETED : message_text.

(** [handle_reset]: /reset. *)
Definition handle_reset (m : message) : M unit :=
  try_except
    (let user_id := str_of_int (chat_id m) in
     user_data ← get_user_data user_id;
     user_data ← py_set_item user_data (lit "history") (JList []);
     save_user_data E user_id user_data;;
     reply_to E m MEMORY_CLEARED)
    (reply_to E m RESET_COMPLETED).

End Reset.

(* ===================================================================== *)
(** ** Further observations *)
(* ===================================================================== *)

(** The metrics table is left as it was. *)
Definition same_metrics : relation world :=
  fun w w' => metrics w' = metrics w.

(** The entries of all users but [user_id] are left as they were. *)
Definition others_kept (user_id : list N) : relation world :=
  fun w w' => forall k, k <> user_id -> stored_entry w' k = stored_entry w k.

(** The settings the store holds for a user: the ["settings"] dict of a
    profile, or nothing. *)
Definition stored_settings (w : world) (user_id : list N) : list (list N * json) :=
  match stored_entry w user_id with
  | Some (JObj p) =>
      match dict_get (lit "settings") p with
      | Some (JObj s) => s
      | _ => []
      end
  | _ => []
  end.

(** The settings of [user_id], once they are [s], stay [s]. *)
Definition keeps_settings (user_id : list N) (s : list (list N * json)) : relation world :=
  fun w w' => stored_settings w user_id = s -> stored_settings w' user_id = s.

(** Every run of [m] returns normally, in a world related to the first by
    [R]. *)
Definition completes {A} (R : relation world) (m : M A) : Prop :=
  forall w, exists a w', m w = (Ok a, w') /\ R w w'.

(** The provider a specific mode stands for. *)
Definition serves (mode : list N) (e : endpoint) : bool :=
  match e with
  | HfApi | HfRouter => str_eqb mode FLUX
  | Pollinations => str_eqb mode POLLINATIONS
  | PollinationsStyled _ => str_eqb mode CREATIVE
  end.

(** The event is a request to the provider of [mode]. *)
Definition is_request_of (mode : list N) (e : event) : Prop :=
  match e with
  | ImageRequest ep _ => serves mode ep = true
  | _ => False
  end.

(** The event goes to the messaging transport. *)
Definition is_transport (e : event) : bool :=
  match e with
  | SendMessage _ _ | SendPhoto _ _ _ | DeleteMessage _ _ | SendChatAction _ _
  | GetFile _ | DownloadFile _ => true
  | _ => false
  end.

(** The transport behaves like [_DummyBot]: sending and deleting do nothing
    and return [None], fetching a file raises. *)
Record is_dummy_bot (E : env) : Prop := {
  dummy_send_message : forall chat t, tg_send_message E chat t = Returned None;
  dummy_send_photo : forall chat photo, tg_send_photo E chat photo = Returned tt;
  dummy_delete_message : forall chat id, tg_delete_message E chat id = Returned tt;
  dummy_send_chat_action : forall chat, tg_send_chat_action E chat = Returned tt;
  dummy_get_file : forall file_id, tg_get_file E file_id = Raised;
  dummy_download_file : forall path, tg_download_file E path = Raised
}.

(** The row [log_request] writes. *)
Definition logged_row (E : env) (user_id : list N) (tokens : Z) (request_type : list N)
  : metric_row :=
  {| m_user_id := user_id; m_timestamp := now E;
     m_tokens := tokens; m_request_type := request_type |}.

(** The number of today's rows of one request type. *)
Definition todays_count (E : env) (request_type : list N) (rows : list metric_row) : nat :=
  length (filter (fun r => m_request_type r = request_type)
            (filter (fun r => is_today E r = true) rows)).

(* ===================================================================== *)
(** ** Sample environments *)
(* ===================================================================== *)

Module Sample.

Definition png : list Byte.byte := [Byte.x89; Byte.x50; Byte.x4e; Byte.x47].
Definition html : list Byte.byte := [Byte.x3c; Byte.x68; Byte.x74; Byte.x6d; Byte.x6c; Byte.x3e].

Definition image_response : response :=
  {| status_code := 200; content_type := Some (lit "image/png"); content := png |}.
Definition html_response : response :=
  {| status_code := 200; content_type := Some (lit "text/html"); content := html |}.
Definition unavailable_response : response :=
  {| status_code := 503; content_type := Some (lit "text/plain"); content := [] |}.

(** Every service answers; every provider returns an image. *)
Definition healthy : env :=
  {| groq_client := true;
     groq_chat := fun _ => Returned (Some (lit "Sure."));
     groq_transcribe := fun _ _ => Returned (lit "hello there");
     http := fun _ _ => Returned image_response;
     random_index := 2;
     now := 1000;
     memory_write := WriteOk;
     db_available := true;
     tg_send_message := fun _ _ => Returned (Some 7%Z);
     tg_send_photo := fun _ _ => Returned tt;
     tg_delete_message := fun _ _ => Returned tt;
     tg_send_chat_action := fun _ => Returned tt;
     tg_get_file := fun _ => Returned (lit "voice/file_1.oga");
     tg_download_file := fun _ => Returned [Byte.x4f; Byte.x67; Byte.x67; Byte.x53] |}.

(** No provider can be reached. *)
Definition providers_down : env := with_http (fun _ _ => Raised) healthy.

(** Every provider answers 200 with an HTML page. *)
Definition providers_html : env := with_http (fun _ _ => Returned html_response) healthy.

(** No provider can be reached and every inference call raises. *)
Definition all_down : env :=
  with_groq true (fun _ => Raised) (fun _ _ => Raised) providers_down.

(** No inference credential is configured. *)
Definition no_credential : env :=
  with_groq false (fun _ => Raised) (fun _ _ => Raised) healthy.

(** The inference service is configured but every call to it raises. *)
Definition groq_failing : env :=
  with_groq true (fun _ => Raised) (fun _ _ => Raised) healthy.

(** A fresh installation: no memory file, no metric, no temporary file. *)
Definition fresh : world :=
  {| memory_file := Absent; metrics := []; disk := ∅; sent := [] |}.

(** A store in the legacy schema: the entry of user 42 is a bare list. *)
Definition legacy : world :=
  {| memory_file :=
       Document (JObj [(lit "42", JList [turn (lit "user") (Some (lit "hi"))])]);
     metrics := []; disk := ∅; sent := [] |}.

(** User 42 has [n] turns on record. *)
Definition talkative (n : nat) : world :=
  {| memory_file :=
       Document (JObj [(lit "42",
         profile (JList (replicate n (turn (lit "user") (Some (lit "again")))))
                 (JObj [(lit "image_model", JStr FLUX)]))]);
     metrics := []; disk := ∅; sent := [] |}.

(** One chat request, written one second before midnight UTC. *)
Definition late_chat : chat_event :=
  {| at_time := 86399; by_user := lit "42"; tokens_used := 3 |}.

Definition msg (t : list N) : message :=
  {| chat_id := 42; text := Some t; voice_file_id := lit "AwACAgQ" |}.

End Sample.

(** Further sample inputs. *)
Module Scenario.

Definition with_memory_write (o : write_outcome) (E : env) : env :=
  {| groq_client := groq_client E; groq_chat := groq_chat E;
     groq_transcribe := groq_transcribe E; http := http E;
     random_index := random_index E; now := now E;
     memory_write := o; db_available := db_available E;
     tg_send_message := tg_send_message E; tg_send_photo := tg_send_photo E;
     tg_delete_message := tg_delete_message E;
     tg_send_chat_action := tg_send_chat_action E;
     tg_get_file := tg_get_file E; tg_download_file := tg_download_file E |}.

Definition with_database (available : bool) (E : env) : env :=
  {| groq_client := groq_client E; groq_chat := groq_chat E;
     groq_transcribe := groq_transcribe E; http := http E;
     random_index := random_index E; now := now E;
     memory_write := memory_write E; db_available := available;
     tg_send_message := tg_send_message E; tg_send_photo := tg_send_photo E;
     tg_delete_message := tg_delete_message E;
     tg_send_chat_action := tg_send_chat_action E;
     tg_get_file := tg_get_file E; tg_download_file := tg_download_file E |}.

(** The environment of a bot started without BOT_TOKEN. *)
Definition dummy_bot : env :=
  {| groq_client := true;
     groq_chat := fun _ => Returned (Some (lit "Sure."));
     groq_transcribe := fun _ _ => Returned (lit "hello there");
     http := fun _ _ => Returned Sample.image_response;
     random_index := 0;
     now := 1000;
     memory_write := WriteOk;
     db_available := true;
     tg_send_message := fun _ _ => Returned None;
     tg_send_photo := fun _ _ => Returned tt;
     tg_delete_message := fun _ _ => Returned tt;
     tg_send_chat_action := fun _ => Returned tt;
     tg_get_file := fun _ => Raised;
     tg_download_file := fun _ => Raised |}.

(** Two users on record: 42 with three turns and a preferred model, 7 in
    the legacy schema. *)
Definition two_users : world :=
  {| memory_file :=
       Document (JObj
         [(lit "42",
           profile (JList (replicate 3 (turn (lit "user") (Some (lit "again")))))
                   (JObj [(lit "image_model", JStr FLUX)]));
          (lit "7", JList [turn (lit "user") (Some (lit "hi"))])]);
     metrics :=
       [{| m_user_id := lit "42"; m_timestamp := 990; m_tokens := 12;
           m_request_type := lit "chat" |};
        {| m_user_id := lit "7"; m_timestamp := 100; m_tokens := 30;
           m_request_type := lit "search" |}];
     disk := ∅;
     sent := [] |}.

(** The transcription service hears nothing. *)
Definition silent_audio : env :=
  with_groq true (fun _ => Returned (Some (lit "Sure."))) (fun _ _ => Returned (lit "  "))
    Sample.healthy.

(** The primary provider has moved (410); its router URL answers. *)
Definition hf_moved : env :=
  with_http (fun e _ =>
               match e with
               | HfApi => Returned {| status_code := 410; content_type := None; content := [] |}
               | _ => Returned Sample.html_response
               end) Sample.healthy.

(** A voice message of user 42. *)
Definition voice_note : message :=
  {| chat_id := 42; text := None; voice_file_id := lit "AwACAgQ" |}.

(** The two texts of /reset. *)
Definition memory_cleared : message_text := Reply (lit "Memory Cleared!").
Definition reset_completed : message_text := Reply (lit "Reset completed!").

End Scenario.

(* ===================================================================== *)
(** * Properties *)
(* ===================================================================== *)

(* ===================================================================== *)
(** ** Strings *)
(* ===================================================================== *)

Lemma lstrip_blank (s : list N) : forallb is_space s = true -> lstrip s = [].
Proof.
  induction s as [|c s IH]; simpl; [done|].
  intros [Hc Hs]%andb_prop. rewrite Hc. auto.
Qed.

Lemma strip_blank (s : list N) : forallb is_space s = true -> strip s = [].
Proof. intros H. unfold strip. rewrite (lstrip_blank s H). reflexivity. Qed.

Lemma count_nil (sub : list N) : count sub [] = 0.
Proof. reflexivity. Qed.

Lemma str_eqb_eq (a b : list N) : str_eqb a b = true <-> a = b.
Proof. unfold str_eqb. apply bool_decide_eq_true. Qed.

Lemma str_eqb_refl (a : list N) : str_eqb a a = true.
Proof. by apply str_eqb_eq. Qed.

Lemma str_eqb_neq (a b : list N) : str_eqb a b = false <-> a <> b.
Proof. unfold str_eqb. apply bool_decide_eq_false. Qed.

Lemma length_last_n {A} (n : nat) (l : list A) : length (last_n n l) = n `min` length l.
Proof. unfold last_n. rewrite length_drop. lia. Qed.

Lemma last_n_short {A} (n : nat) (l : list A) : length l <= n -> last_n n l = l.
Proof. intros H. unfold last_n. replace (length l - n) with 0 by lia. reflexivity. Qed.

(* ===================================================================== *)
(** ** [clean_markdown] *)
(* ===================================================================== *)

Lemma close_if_odd_suffix (marker closer text : list N) :
  exists suffix, close_if_odd marker closer text = text ++ suffix.
Proof.
  unfold close_if_odd. destruct (Nat.odd _).
  - by exists closer.
  - exists []. by rewrite app_nil_r.
Qed.

(** The repaired text is the input followed by the closers that were
    added. *)
Lemma repair_markup_suffix (text : list N) :
  exists suffix, repair_markup text = text ++ suffix.
Proof.
  unfold repair_markup.
  destruct (close_if_odd_suffix FENCE NL_FENCE text) as [s1 ->].
  destruct (close_if_odd_suffix BOLD BOLD (text ++ s1)) as [s2 ->].
  destruct (close_if_odd_suffix UNDERSCORE UNDERSCORE ((text ++ s1) ++ s2)) as [s3 ->].
  destruct (close_if_odd_suffix STAR STAR (((text ++ s1) ++ s2) ++ s3)) as [s4 ->].
  exists (s1 ++ s2 ++ s3 ++ s4). by rewrite <- !app_assoc.
Qed.

(** Whatever [clean_markdown] returns has at most 4000 code points. *)
Lemma clean_markdown_length (text : option (list N)) (out : list N) :
  clean_markdown text = Some out -> length out <= 4000.
Proof.
  destruct text as [[|c t]|]; unfold clean_markdown; intros H; simplify_eq.
  - apply Nat.le_0_l.
  - rewrite length_take. apply Nat.le_min_l.
Qed.

Lemma clean_markdown_closes_odd_fence_suffix (text : list N) :
  Nat.odd (count FENCE text) = true ->
  exists suffix,
    clean_markdown (Some text) = Some (take 4000 ((text ++ NL_FENCE) ++ suffix)).
Proof.
  intros Hodd.
  destruct text as [|c t]; [discriminate Hodd|].
  unfold clean_markdown, repair_markup.
  unfold close_if_odd at 4. rewrite Hodd.
  destruct (close_if_odd_suffix BOLD BOLD ((c :: t) ++ NL_FENCE)) as [s2 ->].
  destruct (close_if_odd_suffix UNDERSCORE UNDERSCORE (((c :: t) ++ NL_FENCE) ++ s2))
    as [s3 ->].
  destruct (close_if_odd_suffix STAR STAR ((((c :: t) ++ NL_FENCE) ++ s2) ++ s3))
    as [s4 ->].
  exists (s2 ++ s3 ++ s4). by rewrite <- !app_assoc.
Qed.

(** C9. A text with an odd number of code fences gets a newline and a
    closing fence appended directly after it; the other closers come after
    that fence, the slice to 4000 code points comes last, and so the output
    never has more than 4000 code points. *)
Theorem clean_markdown_closes_odd_fence (text : list N) :
  Nat.odd (count FENCE text) = true ->
  exists suffix out,
    clean_markdown (Some text) = Some out /\
    out = take 4000 ((text ++ NL_FENCE) ++ suffix) /\
    length out <= 4000.
Proof.
  intros Hodd.
  destruct (clean_markdown_closes_odd_fence_suffix text Hodd) as (suffix & Hrun).
  exists suffix, (take 4000 ((text ++ NL_FENCE) ++ suffix)).
  split; [exact Hrun|]. split; [reflexivity|].
  rewrite length_take. apply Nat.le_min_l.
Qed.

Lemma clean_markdown_closes_odd_fence_witness :
  Nat.odd (count FENCE (lit "```py")) = true /\
  exists suffix out,
    clean_markdown (Some (lit "```py")) = Some out /\
    out = take 4000 ((lit "```py" ++ NL_FENCE) ++ suffix) /\
    length out <= 4000.
Proof.
  split; [reflexivity|].
  apply (clean_markdown_closes_odd_fence (lit "```py")). reflexivity.
Defined.

(** While the text with its closing fence fits into 4000 code points, the
    output begins with both. *)
Lemma clean_markdown_keeps_short_fence (text out : list N) :
  Nat.odd (count FENCE text) = true ->
  length (text ++ NL_FENCE) <= 4000 ->
  clean_markdown (Some text) = Some out ->
  (text ++ NL_FENCE) `prefix_of` out.
Proof.
  intros Hodd Hlen Hout.
  destruct (clean_markdown_closes_odd_fence_suffix text Hodd) as (suffix & Hrun).
  rewrite Hrun in Hout. injection Hout as <-.
  rewrite take_app_ge by exact Hlen.
  by eexists.
Qed.

(** A text of exactly 4000 code points that opens a fence comes back as it
    was: the closing fence is appended and then cut off by the slice. *)
Example closing_fence_can_be_cut :
  let text := lit "```" ++ replicate 3997 97%N in
  Nat.odd (count FENCE text) = true /\ clean_markdown (Some text) = Some text.
Proof. vm_compute. done. Qed.

Example clean_markdown_open_fence :
  clean_markdown (Some (lit "```py")) = Some (lit "```py" ++ [10%N] ++ lit "```").
Proof. reflexivity. Qed.

Example count_does_not_overlap : count FENCE (lit "````") = 1.
Proof. reflexivity. Qed.

Example split_example : split (lit "/draw  a cat ") = [lit "/draw"; lit "a"; lit "cat"].
Proof. reflexivity. Qed.

(* ===================================================================== *)
(** ** Running handlers *)
(* ===================================================================== *)

Lemma bind_ok {A B} (m : M A) (k : A -> M B) w a w' :
  m w = (Ok a, w') -> (m ≫= k) w = k a w'.
Proof. intros H. unfold mbind, M_bind, bind. by rewrite H. Qed.

Lemma bind_exc {A B} (m : M A) (k : A -> M B) w w' :
  m w = (Exc, w') -> (m ≫= k) w = (Exc, w').
Proof. intros H. unfold mbind, M_bind, bind. by rewrite H. Qed.

Lemma try_ok {A} (m h : M A) w a w' :
  m w = (Ok a, w') -> try_except m h w = (Ok a, w').
Proof. intros H. unfold try_except. by rewrite H. Qed.

Lemma try_exc {A} (m h : M A) w w' :
  m w = (Exc, w') -> try_except m h w = h w'.
Proof. intros H. unfold try_except. by rewrite H. Qed.

Lemma log_events_nil w : log_events [] w = w.
Proof. destruct w. unfold log_events. simpl. by rewrite app_nil_r. Qed.

Lemma log_events_app evs evs' w :
  log_events evs' (log_events evs w) = log_events (evs ++ evs') w.
Proof. unfold log_events. simpl. by rewrite app_assoc. Qed.

Lemma log_event_events e w : log_event e w = log_events [e] w.
Proof. reflexivity. Qed.

Lemma events_of_log {A} (m : M A) w evs :
  run m w = log_events evs w -> events_of m w = evs.
Proof.
  intros H. unfold events_of. rewrite H. simpl. by rewrite drop_app_length.
Qed.

(** [safe_send_message] never raises; it tries the text once and, if the
    transport raised, the plain text once more. *)
Lemma safe_send_message_spec E chat t w :
  exists r evs,
    safe_send_message E chat (Some t) w = (Ok r, log_events evs w) /\
    (evs = [SendMessage chat (Some t)] \/
     evs = [SendMessage chat (Some t); SendMessage chat (Some (Plain t))]).
Proof.
  unfold safe_send_message, try_except, send_message, to_plain, call,
    mbind, M_bind, bind, ret.
  destruct (tg_send_message E chat (Some t)) as [r|].
  - exists r, [SendMessage chat (Some t)]. split; [reflexivity | by left].
  - destruct (tg_send_message E chat (Some (Plain t))) as [r|].
    + exists r, [SendMessage chat (Some t); SendMessage chat (Some (Plain t))].
      rewrite !log_event_events, log_events_app. split; [reflexivity | by right].
    + exists None, [SendMessage chat (Some t); SendMessage chat (Some (Plain t))].
      rewrite !log_event_events, log_events_app. split; [reflexivity | by right].
Qed.

Lemma reply_to_spec E m t w :
  exists evs,
    reply_to E m t w = (Ok tt, log_events evs w) /\
    (evs = [SendMessage (chat_id m) (Some t)] \/
     evs = [SendMessage (chat_id m) (Some t); SendMessage (chat_id m) (Some (Plain t))]).
Proof.
  destruct (safe_send_message_spec E (chat_id m) t w) as (r & evs & Hrun & Hevs).
  exists evs. split; [|done].
  unfold reply_to. by rewrite (bind_ok _ _ _ _ _ Hrun).
Qed.

(* ===================================================================== *)
(** ** The image chain on an empty prompt *)
(* ===================================================================== *)

(** C10. Whatever the mode, a prompt that is empty or holds only white
    space makes [generate] return [None] at once: no provider is contacted,
    no inference call is made, no fallback payload is built; the world is
    left as it was. *)
Theorem generate_blank_prompt (E : env) (w : world) (prompt model_type : list N) :
  forallb is_space prompt = true ->
  generate E prompt model_type w = (Ok NoResult, w).
Proof.
  intros Hblank. unfold generate. rewrite (strip_blank prompt Hblank). reflexivity.
Qed.

Lemma generate_blank_prompt_witness :
  forallb is_space (lit "  ") = true /\
  generate Sample.healthy (lit "  ") FLUX Sample.fresh = (Ok NoResult, Sample.fresh).
Proof.
  split; [reflexivity|].
  apply (generate_blank_prompt Sample.healthy Sample.fresh (lit "  ") FLUX). reflexivity.
Defined.

Example generate_blank_every_mode :
  Forall (fun mode => generate Sample.healthy [9%N; 32%N; 10%N] mode Sample.fresh
                      = (Ok NoResult, Sample.fresh))
         [AUTO; FLUX; POLLINATIONS; CREATIVE].
Proof. repeat constructor. Qed.

(* ===================================================================== *)
(** ** The conversation store *)
(* ===================================================================== *)

Lemma load_spec w : load w = (Ok (loaded w), w).
Proof.
  unfold load, loaded, get_world, mbind, M_bind, bind, ret.
  by destruct (memory_file w).
Qed.

(** C6. A user the store has never seen gets the default profile with an
    empty history and empty settings; a user whose entry is a bare list (the
    legacy schema) gets that list as history and empty settings.  The store
    itself is not touched by the read. *)
Theorem get_user_data_default_and_legacy (w : world) (user_id : list N) :
  (never_seen w user_id ->
   get_user_data user_id w = (Ok (profile (JList []) (JObj [])), w)) /\
  (forall turns, legacy_entry w user_id turns ->
   get_user_data user_id w = (Ok (profile (JList turns) (JObj [])), w)).
Proof.
  split.
  - intros (d & Hd & Hnone).
    unfold get_user_data. rewrite (bind_ok _ _ _ _ _ (load_spec w)), Hd.
    unfold py_get. rewrite Hnone. reflexivity.
  - intros turns (d & Hd & Hlist).
    unfold get_user_data. rewrite (bind_ok _ _ _ _ _ (load_spec w)), Hd.
    unfold py_get. rewrite Hlist. reflexivity.
Qed.

Lemma get_user_data_default_and_legacy_witness :
  (never_seen Sample.fresh (lit "42") /\
   get_user_data (lit "42") Sample.fresh
   = (Ok (profile (JList []) (JObj [])), Sample.fresh)) /\
  (legacy_entry Sample.legacy (lit "42") [turn (lit "user") (Some (lit "hi"))] /\
   get_user_data (lit "42") Sample.legacy
   = (Ok (profile (JList [turn (lit "user") (Some (lit "hi"))]) (JObj [])), Sample.legacy)).
Proof.
  split; split.
  - exists []. split; reflexivity.
  - apply (proj1 (get_user_data_default_and_legacy Sample.fresh (lit "42"))).
    exists []. split; reflexivity.
  - eexists. split; reflexivity.
  - apply (proj2 (get_user_data_default_and_legacy Sample.legacy (lit "42"))).
    eexists. split; reflexivity.
Defined.

Lemma dict_mem_get (k : list N) (d : list (list N * json)) :
  dict_mem k d = match dict_get k d with Some _ => true | None => false end.
Proof.
  induction d as [|[k' v] d IH]; simpl; [done|].
  destruct (str_eqb k k'); simpl; [done | apply IH].
Qed.

Lemma dict_get_set_eq (k : list N) (v : json) (d : list (list N * json)) :
  dict_get k (dict_set k v d) = Some v.
Proof.
  induction d as [|[k' v'] d IH]; simpl.
  - by rewrite str_eqb_refl.
  - destruct (str_eqb k k') eqn:Hk; simpl; rewrite ?str_eqb_refl, ?Hk; [done | apply IH].
Qed.

Lemma dict_get_set_ne (k k' : list N) (v : json) (d : list (list N * json)) :
  k <> k' -> dict_get k' (dict_set k v d) = dict_get k' d.
Proof.
  intros Hne. induction d as [|[k0 v0] d IH]; simpl.
  - apply str_eqb_neq in Hne.
    destruct (str_eqb k' k) eqn:H; [|done].
    apply str_eqb_eq in H. apply str_eqb_neq in Hne. congruence.
  - destruct (str_eqb k k0) eqn:Hk; simpl.
    + apply str_eqb_eq in Hk. subst k0.
      destruct (str_eqb k' k) eqn:H; [|done].
      apply str_eqb_eq in H. congruence.
    + by rewrite IH.
Qed.

Lemma ensure_key_obj (k : list N) (v : json) (p : list (list N * json)) w :
  ensure_key k v (JObj p) w
  = (Ok (JObj (if dict_mem k p then p else dict_set k v p)), w).
Proof.
  unfold ensure_key, py_in, py_set_item, mbind, M_bind, bind, ret.
  by destruct (dict_mem k p).
Qed.

Lemma history_is_not_settings : lit "history" <> lit "settings".
Proof. discriminate. Qed.

(** On a well-formed store [get_user_data] returns a profile whose history
    is the stored one and whose settings are a dict; the store is only
    read. *)
Lemma get_user_data_well_formed (w : world) (user_id : list N) :
  well_formed_store w ->
  exists p s,
    get_user_data user_id w = (Ok (JObj p), w) /\
    dict_get (lit "history") p = Some (JList (stored_history w user_id)) /\
    dict_get (lit "settings") p = Some (JObj s).
Proof.
  intros (d & Hd & Hwf).
  unfold get_user_data. rewrite (bind_ok _ _ _ _ _ (load_spec w)), Hd.
  unfold stored_history, stored_entry. rewrite Hd.
  unfold py_get.
  destruct (dict_get user_id d) as [entry|] eqn:Hentry.
  - specialize (Hwf _ _ Hentry).
    destruct entry as [| | | |turns|p]; try discriminate Hwf.
    + exists [(lit "history", JList turns); (lit "settings", JObj [])], []. done.
    + simpl in Hwf. apply andb_prop in Hwf as [Hh Hs].
      set (p1 := if dict_mem (lit "history") p then p
                 else dict_set (lit "history") (JList []) p).
      set (p2 := if dict_mem (lit "settings") p1 then p1
                 else dict_set (lit "settings") (JObj []) p1).
      assert (Hrun : (ret (JObj p) ≫= (fun user_data : json =>
                 ensure_key (lit "history") (JList []) user_data ≫= fun user_data =>
                 ensure_key (lit "settings") (JObj []) user_data ≫= fun user_data =>
                 ret user_data)) w = (Ok (JObj p2), w)).
      { rewrite (bind_ok _ _ w (JObj p) w eq_refl).
        rewrite (bind_ok _ _ _ _ _ (ensure_key_obj _ _ p w)).
        rewrite (bind_ok _ _ _ _ _ (ensure_key_obj _ _ p1 w)). reflexivity. }
      assert (H1 : dict_get (lit "history") p1
                   = Some (JList match dict_get (lit "history") p with
                                 | Some (JList h) => h | _ => [] end)
                   /\ dict_get (lit "settings") p1 = dict_get (lit "settings") p).
      { unfold p1. rewrite dict_mem_get.
        destruct (dict_get (lit "history") p) as [[| | | |h|]|] eqn:Hhist;
          try discriminate Hh; [done|].
        split; [apply dict_get_set_eq|].
        apply dict_get_set_ne, history_is_not_settings. }
      destruct H1 as [H1h H1s].
      assert (H2 : dict_get (lit "history") p2 = dict_get (lit "history") p1
                   /\ exists s, dict_get (lit "settings") p2 = Some (JObj s)).
      { unfold p2. rewrite dict_mem_get, H1s.
        destruct (dict_get (lit "settings") p) as [[| | | | |s]|] eqn:Hset;
          try discriminate Hs.
        - split; [done|]. exists s. by rewrite H1s.
        - split; [|exists []; apply dict_get_set_eq].
          apply dict_get_set_ne. intros H. by apply history_is_not_settings. }
      destruct H2 as [H2h [s H2s]].
      exists p2, s. split; [exact Hrun|]. split; [by rewrite H2h, H1h | done].
  - exists [(lit "history", JList []); (lit "settings", JObj [])], []. done.
Qed.

(* ===================================================================== *)
(** ** What a handler leaves alone *)
(* ===================================================================== *)

Section Steps.
Context (R : relation world) `{!PreOrder R}.

Lemma steps_ret {A} (a : A) : steps_with R (ret a).
Proof. intros w. reflexivity. Qed.

Lemma steps_raise {A} : steps_with R (@raise A).
Proof. intros w. reflexivity. Qed.

Lemma steps_get_world : steps_with R get_world.
Proof. intros w. reflexivity. Qed.

Lemma steps_bind {A B} (m : M A) (k : A -> M B) :
  steps_with R m -> (forall a, steps_with R (k a)) -> steps_with R (m ≫= k).
Proof.
  intros Hm Hk w. unfold mbind, M_bind, bind.
  specialize (Hm w). destruct (m w) as [[a|] w1]; simpl in *; [|done].
  etransitivity; [exact Hm | apply Hk].
Qed.

Lemma steps_ret_bind {A B} (a : A) (k : A -> M B) :
  steps_with R (k a) -> steps_with R (ret a ≫= k).
Proof. intros Hk w. apply Hk. Qed.

Lemma steps_raise_bind {A B} (k : A -> M B) : steps_with R (raise ≫= k).
Proof. intros w. reflexivity. Qed.

Lemma steps_try {A} (m h : M A) :
  steps_with R m -> steps_with R h -> steps_with R (try_except m h).
Proof.
  intros Hm Hh w. unfold try_except.
  specialize (Hm w). destruct (m w) as [[a|] w1]; simpl in *; [done|].
  etransitivity; [exact Hm | apply Hh].
Qed.

Lemma steps_call {A} (e : event) (o : outcome A) :
  (forall w, R w (log_event e w)) -> steps_with R (call e o).
Proof. intros H w. unfold call. destruct o; apply H. Qed.

Lemma steps_modify (f : world -> world) :
  (forall w, R w (f w)) -> steps_with R (modify f).
Proof. intros H w. apply H. Qed.
End Steps.

#[global] Instance same_memory_preorder : PreOrder same_memory.
Proof. split; [done|]. intros x y z Hxy Hyz. unfold same_memory in *. congruence. Qed.

#[global] Instance same_disk_preorder : PreOrder same_disk.
Proof. split; [done|]. intros x y z Hxy Hyz. unfold same_disk in *. congruence. Qed.

#[global] Instance sends_preorder (P : event -> Prop) : PreOrder (sends P).
Proof.
  split.
  - intros w. exists []. split; [by rewrite app_nil_r | constructor].
  - intros x y z (e1 & H1 & F1) (e2 & H2 & F2). exists (e1 ++ e2). split.
    + by rewrite H2, H1, app_assoc.
    + by apply Forall_app.
Qed.

Lemma sends_log_event (P : event -> Prop) (e : event) :
  P e -> forall w, sends P w (log_event e w).
Proof. intros He w. exists [e]. split; [done | by constructor]. Qed.

Create HintDb steps.

(** The closure rules, in the order the tactic below tries them. *)
Ltac steps_rec :=
  first
    [ solve [eauto with steps nocore]
    | apply steps_ret; solve [typeclasses eauto]
    | apply steps_raise; solve [typeclasses eauto]
    | apply steps_get_world; solve [typeclasses eauto]
    | apply steps_ret_bind
    | apply steps_raise_bind; solve [typeclasses eauto]
    | apply steps_bind; [typeclasses eauto | | intros ?]
    | apply steps_try; [typeclasses eauto | | ]
    | apply steps_call;
        [intros ?; first [reflexivity | apply sends_log_event; solve [auto]
                         | solve [auto with steps]]]
    | apply steps_modify; intros ?;
        first [reflexivity | by (exists []; rewrite app_nil_r) | solve [auto with steps]]
    | match goal with
      | |- steps_with _ (match ?x with _ => _ end) => destruct x
      | |- steps_with _ (if ?b then _ else _) => destruct b
      | |- steps_with _ (let _ := _ in _) => cbv zeta
      end
    | progress unfold to_plain, send_message, safe_send_message, reply_to,
        reply_word_count, py_extend, py_set_item, py_item, py_get, py_in, py_last,
        ensure_key, as_str, model_or, load, save, save_user_data, get_user_data,
        get_setting, log_request, send_chat_action, chat, delete_thinking,
        send_photo, request, write_file, remove_file ].

Ltac steps := repeat steps_rec.

Lemma safe_send_message_keeps_memory E chat t : steps_with same_memory (safe_send_message E chat t).
Proof. unfold safe_send_message, send_message, to_plain. steps. Qed.

Lemma safe_send_message_keeps_disk E chat t : steps_with same_disk (safe_send_message E chat t).
Proof. unfold safe_send_message, send_message, to_plain. steps. Qed.

Lemma safe_send_message_sends (P : event -> Prop) E chat t :
  (forall t', P (SendMessage chat t')) -> steps_with (sends P) (safe_send_message E chat t).
Proof. intros HP. unfold safe_send_message, send_message, to_plain. steps. Qed.

Lemma reply_to_keeps_memory E m t : steps_with same_memory (reply_to E m t).
Proof. unfold reply_to. steps. Qed.

Lemma reply_to_keeps_disk E m t : steps_with same_disk (reply_to E m t).
Proof. unfold reply_to. steps. Qed.

Lemma reply_to_sends (P : event -> Prop) E m t :
  (forall t', P (SendMessage (chat_id m) t')) -> steps_with (sends P) (reply_to E m t).
Proof. intros HP. unfold reply_to. steps. Qed.

Lemma log_request_keeps_memory E u n t : steps_with same_memory (log_request E u n t).
Proof. unfold log_request. steps. Qed.

Lemma log_request_keeps_disk E u n t : steps_with same_disk (log_request E u n t).
Proof. unfold log_request. steps. Qed.

Lemma log_request_sends (P : event -> Prop) E u n t : steps_with (sends P) (log_request E u n t).
Proof. unfold log_request. steps. Qed.

(* ===================================================================== *)
(** ** Chat turns *)
(* ===================================================================== *)

Lemma limit_memory_length (h : list json) : length (limit_memory h) <= 20.
Proof.
  unfold limit_memory. destruct (20 <? length h) eqn:H.
  - rewrite length_last_n. lia.
  - apply Nat.ltb_ge in H. lia.
Qed.

Lemma stored_history_saved (w : world) (user_id : list N) (d p : list (list N * json)) h :
  memory_file w
  = Document (JObj (dict_set user_id (JObj (dict_set (lit "history") (JList h) p)) d)) ->
  stored_history w user_id = h.
Proof.
  intros H. unfold stored_history, stored_entry, loaded. rewrite H.
  by rewrite !dict_get_set_eq.
Qed.

Lemma try_cong {A} (X Y h : M A) w w1 :
  X w = Y w1 -> try_except X h w = try_except Y h w1.
Proof. unfold try_except. by intros ->. Qed.

(** With a working disk, [save_and_reply] leaves the extended and capped
    history in the user's entry, however the sending goes afterwards. *)
Lemma save_and_reply_saves E m uid p h user_text content d (handler : M ()) w :
  loaded w = JObj d ->
  memory_write E = WriteOk ->
  steps_with same_memory handler ->
  memory_file (try_except (save_and_reply E m uid (JObj p) (JList h) user_text content)
                 handler w).2
  = Document (JObj (dict_set uid (JObj (dict_set (lit "history")
      (JList (limit_memory (h ++ [turn (lit "user") (Some user_text);
                                  turn (lit "assistant") (clean_markdown content)]))) p)) d)).
Proof.
  intros Hd Hwrite Hhandler.
  set (reply := clean_markdown content).
  set (rest := safe_send_message E (chat_id m) (Reply <$> reply) ≫= fun _ =>
               reply_word_count reply ≫= fun reply_words =>
               log_request E uid (word_count user_text + reply_words) (lit "chat")).
  erewrite (try_cong _ rest).
  2:{ unfold save_and_reply. fold reply.
      unfold py_extend. erewrite bind_ok by reflexivity.
      unfold py_set_item at 1. erewrite bind_ok by reflexivity.
      erewrite bind_ok; [reflexivity|].
      unfold save_user_data. rewrite (bind_ok _ _ _ _ _ (load_spec _)), Hd.
      unfold py_set_item. erewrite bind_ok by reflexivity.
      unfold save. rewrite Hwrite. reflexivity. }
  assert (Hrest : steps_with same_memory (try_except rest handler)).
  { unfold rest. steps. }
  apply (Hrest (set_memory_file _ w)).
Qed.

(** C3. When a chat turn is processed and persisted (the message is free
    text, the typing indicator goes out, the inference call returns and the
    memory file can be written), the history the store then holds for the
    user is the old history followed by the user text and the reply, cut to
    its last 20 entries: at most 20 entries, however long the old history
    was. *)
Theorem history_capped_after_turn (E : env) (w : world) (m : message)
    (user_text : list N) (content : option (list N)) :
  chat_turn E w m user_text ->
  groq_chat E (chat_turn_request (last_n 4 (stored_history w (str_of_int (chat_id m)))) user_text)
    = Returned content ->
  memory_write E = WriteOk ->
  let w' := run (handle_all_messages E m) w in
  stored_history w' (str_of_int (chat_id m))
  = limit_memory (stored_history w (str_of_int (chat_id m)) ++
                  [turn (lit "user") (Some user_text);
                   turn (lit "assistant") (clean_markdown content)]) /\
  length (stored_history w' (str_of_int (chat_id m))) <= 20.
Proof.
  intros [Htext Hne Hcmd Hstore Htyping Hclient] Hchat Hwrite w'.
  set (uid := str_of_int (chat_id m)) in *.
  set (h := stored_history w uid) in *.
  destruct (get_user_data_well_formed w uid Hstore) as (p & s & Hget & Hhist & Hset).
  destruct Hstore as (d & Hd & _).
  enough (exists p', memory_file w' = Document (JObj (dict_set uid (JObj (dict_set
            (lit "history") (JList (limit_memory (h ++
               [turn (lit "user") (Some user_text);
                turn (lit "assistant") (clean_markdown content)]))) p')) d))) as [p' Hw'].
  { rewrite (stored_history_saved _ _ _ _ _ Hw'). split; [done | apply limit_memory_length]. }
  exists p. subst w'. unfold run, handle_all_messages. rewrite Htext.
  destruct user_text as [|c t]; [done|]. rewrite Hcmd.
  fold uid. rewrite Hclient.
  set (h1 := try_except (reply_to E m ChatThinking) (ret ())).
  set (h2 := try_except (reply_to E m ChatTryAgain) (ret ())).
  set (w1 := log_event (GroqChat (chat_turn_request (last_n 4 h) (c :: t)))
               (log_event (SendChatAction (chat_id m) (lit "typing")) w)).
  erewrite (try_cong _ (try_except (save_and_reply E m uid (JObj p) (JList h) (c :: t) content) h1) _ _ w1).
  2:{ erewrite bind_ok by exact Hget.
      unfold py_item. rewrite Hhist. fold h.
      erewrite bind_ok by reflexivity.
      unfold py_last. erewrite bind_ok by reflexivity.
      unfold send_chat_action. rewrite Htyping.
      erewrite bind_ok by reflexivity.
      apply try_cong.
      unfold chat. rewrite Hchat. erewrite bind_ok by reflexivity. reflexivity. }
  assert (Hh1 : steps_with same_memory h1) by (unfold h1; steps).
  assert (Hh2 : steps_with same_memory h2) by (unfold h2; steps).
  pose proof (save_and_reply_saves E m uid p h (c :: t) content d h1 w1 Hd Hwrite Hh1) as Hsaved.
  unfold try_except at 1.
  destruct (try_except _ h1 w1) as [[[]|] w2]; simpl in *.
  - exact Hsaved.
  - rewrite (Hh2 w2). exact Hsaved.
Qed.

Lemma filter_chat_calls_none (evs : list event) :
  Forall (fun e => is_chat_call e = false) evs -> List.filter is_chat_call evs = [].
Proof.
  induction 1 as [|e evs He _ IH]; simpl; [done|]. by rewrite He.
Qed.

(** C7. A free-text chat turn makes exactly one chat inference call, and
    its message list is the system instruction, the last 4 entries of the
    stored history (all of them when there are fewer) and the new user
    message, in this order; never more than 4 prior entries. *)
Theorem chat_call_replays_last_four (E : env) (w : world) (m : message) (user_text : list N) :
  chat_turn E w m user_text ->
  let h := stored_history w (str_of_int (chat_id m)) in
  List.filter is_chat_call (events_of (handle_all_messages E m) w)
  = [GroqChat {| model := LLAMA;
                 messages := [turn (lit "system") (Some SYSTEM_PROMPT)]
                             ++ last_n 4 h
                             ++ [turn (lit "user") (Some user_text)];
                 temperature_tenths := 7;
                 max_tokens := 400 |}]
  /\ length (last_n 4 h) = 4 `min` length h.
Proof.
  intros [Htext Hne Hcmd Hstore Htyping Hclient] h.
  split; [|apply length_last_n].
  set (uid := str_of_int (chat_id m)) in *.
  destruct (get_user_data_well_formed w uid Hstore) as (p & s & Hget & Hhist & Hset).
  fold h in Hhist.
  set (P := fun e => is_chat_call e = false).
  set (request := chat_turn_request (last_n 4 h) user_text).
  set (w1 := log_event (GroqChat request)
               (log_event (SendChatAction (chat_id m) (lit "typing")) w)).
  assert (HP : forall chat t, P (SendMessage chat t)) by done.
  enough (exists T : M (), steps_with (sends P) T /\
            handle_all_messages E m w = T w1) as (T & HT & Hrun).
  { destruct (HT w1) as (evs & Hsent & Hevs).
    unfold events_of, run. rewrite Hrun, Hsent. unfold w1. simpl.
    rewrite <- !app_assoc, drop_app_length. simpl.
    by rewrite (filter_chat_calls_none evs Hevs). }
  unfold handle_all_messages. rewrite Htext.
  destruct user_text as [|c t]; [done|]. rewrite Hcmd. fold uid. rewrite Hclient.
  set (h2 := try_except (reply_to E m ChatTryAgain) (ret ())).
  set (h1 := try_except (reply_to E m ChatThinking) (ret ())).
  assert (Hh1 : steps_with (sends P) h1) by (unfold h1; steps).
  assert (Hh2 : steps_with (sends P) h2) by (unfold h2; steps).
  destruct (groq_chat E request) as [content|] eqn:Hchat.
  - exists (try_except (try_except
              (save_and_reply E m uid (JObj p) (JList h) (c :: t) content) h1) h2).
    split.
    + unfold save_and_reply. steps.
    + apply try_cong.
      erewrite bind_ok by exact Hget.
      unfold py_item. rewrite Hhist.
      erewrite bind_ok by reflexivity.
      unfold py_last. erewrite bind_ok by reflexivity.
      unfold send_chat_action. rewrite Htyping.
      erewrite bind_ok by reflexivity.
      apply try_cong.
      unfold chat. fold request. rewrite Hchat. erewrite bind_ok by reflexivity.
      reflexivity.
  - exists (try_except h1 h2). split; [steps|].
    apply try_cong.
    erewrite bind_ok by exact Hget.
    unfold py_item. rewrite Hhist.
    erewrite bind_ok by reflexivity.
    unfold py_last. erewrite bind_ok by reflexivity.
    unfold send_chat_action. rewrite Htyping.
    erewrite bind_ok by reflexivity.
    apply try_exc.
    unfold chat. fold request. rewrite Hchat. reflexivity.
Qed.

Lemma sample_store_well_formed (n : nat) : well_formed_store (Sample.talkative n).
Proof.
  eexists. split; [reflexivity|].
  intros k v. simpl. destruct (str_eqb k (lit "42")); [|done].
  intros [= <-]. reflexivity.
Qed.

Lemma sample_chat_turn (n : nat) :
  chat_turn Sample.healthy (Sample.talkative n) (Sample.msg (lit "hi you")) (lit "hi you").
Proof. split; try done. apply sample_store_well_formed. Qed.

Lemma history_capped_after_turn_witness :
  let w' := run (handle_all_messages Sample.healthy (Sample.msg (lit "hi you")))
                (Sample.talkative 25) in
  stored_history w' (lit "42")
  = limit_memory (stored_history (Sample.talkative 25) (lit "42") ++
                  [turn (lit "user") (Some (lit "hi you"));
                   turn (lit "assistant") (Some (lit "Sure."))]) /\
  length (stored_history w' (lit "42")) <= 20.
Proof.
  apply (history_capped_after_turn Sample.healthy (Sample.talkative 25)
           (Sample.msg (lit "hi you")) (lit "hi you") (Some (lit "Sure."))).
  - split; try done.
    eexists. split; [reflexivity|].
    intros k v. simpl. destruct (str_eqb k (lit "42")); [|done].
    intros [= <-]. reflexivity.
  - reflexivity.
  - reflexivity.
Defined.

Example history_of_25_becomes_20 :
  length (stored_history
            (run (handle_all_messages Sample.healthy (Sample.msg (lit "hi you")))
                 (Sample.talkative 25)) (lit "42")) = 20.
Proof. vm_compute. reflexivity. Qed.

Lemma chat_call_replays_last_four_witness :
  let h := stored_history (Sample.talkative 25) (lit "42") in
  List.filter is_chat_call
    (events_of (handle_all_messages Sample.healthy (Sample.msg (lit "hi you")))
               (Sample.talkative 25))
  = [GroqChat {| model := LLAMA;
                 messages := [turn (lit "system") (Some SYSTEM_PROMPT)]
                             ++ last_n 4 h
                             ++ [turn (lit "user") (Some (lit "hi you"))];
                 temperature_tenths := 7;
                 max_tokens := 400 |}]
  /\ length (last_n 4 h) = 4 `min` length h.
Proof.
  apply (chat_call_replays_last_four Sample.healthy (Sample.talkative 25)
           (Sample.msg (lit "hi you")) (lit "hi you")).
  split; try done.
  eexists. split; [reflexivity|].
  intros k v. simpl. destruct (str_eqb k (lit "42")); [|done].
  intros [= <-]. reflexivity.
Defined.

(* ===================================================================== *)
(** ** Commands without an argument *)
(* ===================================================================== *)

Lemma get_setting_well_formed (w : world) (user_id key : list N) (dflt : json) :
  well_formed_store w -> exists v, get_setting user_id key dflt w = (Ok v, w).
Proof.
  intros Hstore.
  destruct (get_user_data_well_formed w user_id Hstore) as (p & s & Hget & _ & Hset).
  unfold get_setting. erewrite bind_ok by exact Hget.
  unfold py_item. rewrite Hset. erewrite bind_ok by reflexivity.
  eexists. reflexivity.
Qed.

Lemma route_not_shadowed (command : list N) : route command <> Some HandleDrawDefault.
Proof.
  unfold route, registry. simpl.
  repeat case_match; simpl; congruence.
Qed.

Lemma usage_events_not_external chat usage evs :
  evs = [SendMessage chat (Some usage)] \/
  evs = [SendMessage chat (Some usage); SendMessage chat (Some (Plain usage))] ->
  Forall (fun e => is_external_call e = false) evs.
Proof. intros [-> | ->]; repeat constructor. Qed.

Lemma process_image_generation_usage E w m (model : list N) :
  model <> [] ->
  command_argument (text m) = None ->
  well_formed_store w ->
  exists evs,
    process_image_generation E m (Some model) w = (Ok tt, log_events evs w) /\
    (evs = [SendMessage (chat_id m) (Some (ImageUsage model true))] \/
     evs = [SendMessage (chat_id m) (Some (ImageUsage model true));
            SendMessage (chat_id m) (Some (Plain (ImageUsage model true)))]).
Proof.
  intros Hmodel Hnone Hstore.
  destruct (get_setting_well_formed w (str_of_int (chat_id m)) (lit "image_model")
              (JStr AUTO) Hstore) as [v Hv].
  destruct (reply_to_spec E m (ImageUsage model true) w) as (evs & Hrun & Hevs).
  exists evs. split; [|done].
  unfold process_image_generation. rewrite Hnone.
  apply try_ok.
  erewrite bind_ok by exact Hv.
  destruct model as [|c model]; [done|].
  unfold model_or. erewrite bind_ok by reflexivity.
  unfold as_str. erewrite bind_ok by reflexivity.
  exact Hrun.
Qed.

(** C8. A command that takes an argument and comes without one -- /search,
    /code, /draw, /flux and the rest -- is answered with the usage text of
    its handler (sent once, and once more as plain text if the transport
    refused the markup) and with nothing else: no inference call, no
    image-provider request, and the stores are left as they were. *)
Theorem no_argument_shows_usage (E : env) (w : world) (command : list N)
    (h : handler) (m : message) :
  route command = Some h ->
  command_argument (text m) = None ->
  well_formed_store w ->
  exists usage evs,
    is_usage_text h usage /\
    run_handler E h m w = (Ok tt, log_events evs w) /\
    (evs = [SendMessage (chat_id m) (Some usage)] \/
     evs = [SendMessage (chat_id m) (Some usage);
            SendMessage (chat_id m) (Some (Plain usage))]) /\
    Forall (fun e => is_external_call e = false) evs.
Proof.
  intros Hroute Hnone Hstore.
  assert (Hgoal : exists usage evs,
    is_usage_text h usage /\
    run_handler E h m w = (Ok tt, log_events evs w) /\
    (evs = [SendMessage (chat_id m) (Some usage)] \/
     evs = [SendMessage (chat_id m) (Some usage);
            SendMessage (chat_id m) (Some (Plain usage))])).
  { destruct h; simpl.
    - destruct (reply_to_spec E m DrawUsage w) as (evs & Hrun & Hevs).
      exists DrawUsage, evs. split; [done|]. split; [|done].
      unfold handle_draw. rewrite Hnone. by apply try_ok.
    - destruct (reply_to_spec E m SearchUsage w) as (evs & Hrun & Hevs).
      exists SearchUsage, evs. split; [done|]. split; [|done].
      unfold handle_search. rewrite Hnone. by apply try_ok.
    - destruct (reply_to_spec E m CodeUsage w) as (evs & Hrun & Hevs).
      exists CodeUsage, evs. split; [done|]. split; [|done].
      unfold handle_code. rewrite Hnone. by apply try_ok.
    - by apply route_not_shadowed in Hroute.
    - destruct (process_image_generation_usage E w m FLUX) as (evs & ? & ?); try done.
      by exists (ImageUsage FLUX true), evs.
    - destruct (process_image_generation_usage E w m POLLINATIONS) as (evs & ? & ?); try done.
      by exists (ImageUsage POLLINATIONS true), evs.
    - destruct (process_image_generation_usage E w m CREATIVE) as (evs & ? & ?); try done.
      by exists (ImageUsage CREATIVE true), evs.
    - destruct (process_image_generation_usage E w m AUTO) as (evs & ? & ?); try done.
      by exists (ImageUsage AUTO true), evs. }
  destruct Hgoal as (usage & evs & Husage & Hrun & Hevs).
  exists usage, evs. repeat split; try done.
  by eapply usage_events_not_external.
Qed.

Lemma no_argument_shows_usage_witness :
  exists usage evs,
    is_usage_text HandleFlux usage /\
    run_handler Sample.healthy HandleFlux (Sample.msg (lit "/flux")) (Sample.talkative 3)
    = (Ok tt, log_events evs (Sample.talkative 3)) /\
    (evs = [SendMessage 42 (Some usage)] \/
     evs = [SendMessage 42 (Some usage); SendMessage 42 (Some (Plain usage))]) /\
    Forall (fun e => is_external_call e = false) evs.
Proof.
  apply (no_argument_shows_usage Sample.healthy (Sample.talkative 3) (lit "flux")
           HandleFlux (Sample.msg (lit "/flux"))).
  - reflexivity.
  - reflexivity.
  - eexists. split; [reflexivity|].
    intros k v. simpl. destruct (str_eqb k (lit "42")); [|done].
    intros [= <-]. reflexivity.
Defined.

(** Every command name of the argument-taking handlers, and where the
    transport routes it; /draw, /imagine and /generate never reach
    [handle_draw_default]. *)
Example routes :
  route <$> [lit "draw"; lit "imagine"; lit "generate"; lit "search"; lit "find";
             lit "google"; lit "code"; lit "program"; lit "debug"; lit "flux";
             lit "pollinations"; lit "pollin"; lit "creative"; lit "art"; lit "auto"]
  = Some <$> [HandleDraw; HandleDraw; HandleDraw; HandleSearch; HandleSearch;
              HandleSearch; HandleCode; HandleCode; HandleCode; HandleFlux;
              HandlePollinations; HandlePollinations; HandleCreative; HandleCreative;
              HandleAuto].
Proof. reflexivity. Qed.

(** With an argument the same command does reach the outside. *)
Example search_with_argument_calls_inference :
  List.filter is_external_call
    (events_of (handle_search Sample.healthy (Sample.msg (lit "/search rocq"))) Sample.fresh)
  = [GroqChat (single_turn_request (search_prompt (lit "rocq")) 7 500)].
Proof. reflexivity. Qed.

(* ===================================================================== *)
(** ** The image chain when every provider fails *)
(* ===================================================================== *)

Lemma try_hugging_face_fails E clean_prompt w :
  primary_fails E clean_prompt = true ->
  exists evs, try_hugging_face E clean_prompt w = (Ok None, log_events evs w) /\
              Forall (fun e => is_image_request e = true) evs.
Proof.
  unfold primary_fails, try_hugging_face, request, try_except, call,
    mbind, M_bind, bind, ret.
  destruct (http E HfApi clean_prompt) as [r|].
  - destruct (status_code r =? 200)%Z.
    + intros ->%negb_true_iff. eexists [_]. split; [reflexivity | by repeat constructor].
    + destruct (status_code r =? 410)%Z.
      * destruct (http E HfRouter clean_prompt) as [r'|].
        -- intros ->%negb_true_iff. eexists [_; _].
           split; [by rewrite !log_event_events, log_events_app | by repeat constructor].
        -- intros _. eexists [_; _].
           split; [by rewrite !log_event_events, log_events_app | by repeat constructor].
      * intros _. eexists [_]. split; [reflexivity | by repeat constructor].
  - intros _. eexists [_]. split; [reflexivity | by repeat constructor].
Qed.

Lemma try_pollinations_fails E clean_prompt w :
  secondary_fails E clean_prompt = true ->
  exists evs, try_pollinations E clean_prompt w = (Ok None, log_events evs w) /\
              Forall (fun e => is_image_request e = true) evs.
Proof.
  unfold secondary_fails, soft_failure, try_pollinations, request, try_except, call,
    mbind, M_bind, bind, ret.
  destruct (http E Pollinations clean_prompt) as [r|].
  - destruct (status_code r =? 200)%Z; simpl.
    + intros ->%negb_true_iff. eexists [_]. split; [reflexivity | by repeat constructor].
    + intros _. eexists [_]. split; [reflexivity | by repeat constructor].
  - intros _. eexists [_]. split; [reflexivity | by repeat constructor].
Qed.

Lemma try_creative_fails E clean_prompt w :
  tertiary_fails E clean_prompt = true ->
  exists evs, try_creative E clean_prompt w = (Ok None, log_events evs w) /\
              Forall (fun e => is_image_request e = true) evs.
Proof.
  unfold tertiary_fails, try_creative, request, try_except, call,
    mbind, M_bind, bind, ret. cbv zeta.
  destruct (http E (PollinationsStyled (random_choice E styles)) clean_prompt) as [r|].
  - intros ->%negb_true_iff. eexists [_]. split; [reflexivity | by repeat constructor].
  - intros _. eexists [_]. split; [reflexivity | by repeat constructor].
Qed.

Lemma text_fallback_result E clean_prompt w :
  exists w', text_fallback E clean_prompt w = (Ok (fallback_result E clean_prompt), w').
Proof.
  unfold text_fallback, fallback_result, try_except, call, mbind, M_bind, bind, ret.
  destruct (groq_client E); [|by eexists].
  destruct (groq_chat E (description_request clean_prompt)); by eexists.
Qed.

(** C1, as the code has it.  In auto mode, for a prompt that is not blank,
    when step 1 fails (also after its one retry on status 410), step 2 fails
    and step 3 ends in an exception or a status other than 200, [generate]
    returns the text fallback: the "backend not configured" payload when no
    inference credential is configured, the textual-description payload
    when the inference call returns, and [None] when the configured
    inference call itself raises. *)
Theorem generate_auto_fallback (E : env) (w : world) (prompt : list N) :
  strip prompt <> [] ->
  primary_fails E (strip prompt) = true ->
  secondary_fails E (strip prompt) = true ->
  tertiary_fails E (strip prompt) = true ->
  result (generate E prompt AUTO) w = Ok (fallback_result E (strip prompt)) /\
  (groq_client E = false ->
   fallback_result E (strip prompt) = TextPayload (not_configured_payload (strip prompt))) /\
  (forall description,
   groq_client E = true ->
   groq_chat E (description_request (strip prompt)) = Returned description ->
   fallback_result E (strip prompt)
   = TextPayload (description_payload (strip prompt) description)) /\
  (groq_client E = true ->
   groq_chat E (description_request (strip prompt)) = Raised ->
   fallback_result E (strip prompt) = NoResult).
Proof.
  intros Hprompt H1 H2 H3. split.
  - unfold result, generate.
    destruct (strip prompt) as [|c cp] eqn:Hstrip; [done|].
    destruct (try_hugging_face_fails E (c :: cp) w H1) as (e1 & Hr1 & _).
    destruct (try_pollinations_fails E (c :: cp) (log_events e1 w) H2) as (e2 & Hr2 & _).
    destruct (try_creative_fails E (c :: cp) (log_events e2 (log_events e1 w)) H3)
      as (e3 & Hr3 & _).
    destruct (text_fallback_result E (c :: cp) (log_events e3 (log_events e2 (log_events e1 w))))
      as (w' & Hr4).
    erewrite try_ok; [reflexivity|].
    unfold or_else.
    change (is_one_of AUTO AUTO FLUX) with true.
    change (is_one_of AUTO AUTO POLLINATIONS) with true.
    change (is_one_of AUTO AUTO CREATIVE) with true.
    change (str_eqb AUTO AUTO) with true. cbv iota.
    erewrite bind_ok by exact Hr1. cbv iota.
    erewrite bind_ok by exact Hr2. cbv iota.
    erewrite bind_ok by exact Hr3. cbv iota.
    exact Hr4.
  - unfold fallback_result. repeat split.
    + by intros ->.
    + by intros d -> ->.
    + by intros -> ->.
Qed.

(** C1 as stated does not hold: with every provider failing and the
    inference call raising, auto mode returns a bare [None]. *)
Lemma generate_auto_can_return_none :
  ~ (forall (E : env) (w : world) (prompt : list N),
       strip prompt <> [] ->
       (forall e, soft_failure (http E e (strip prompt)) = true) ->
       exists p, result (generate E prompt AUTO) w = Ok (TextPayload p)).
Proof.
  intros H.
  destruct (H Sample.all_down Sample.fresh (lit "cat")) as [p Hp]; [done | done |].
  vm_compute in Hp. discriminate Hp.
Qed.

Lemma generate_auto_fallback_witness :
  result (generate Sample.providers_down (lit " cat ") AUTO) Sample.fresh
  = Ok (fallback_result Sample.providers_down (strip (lit " cat "))) /\
  (groq_client Sample.providers_down = false ->
   fallback_result Sample.providers_down (strip (lit " cat "))
   = TextPayload (not_configured_payload (strip (lit " cat ")))) /\
  (forall description,
   groq_client Sample.providers_down = true ->
   groq_chat Sample.providers_down (description_request (strip (lit " cat "))) = Returned description ->
   fallback_result Sample.providers_down (strip (lit " cat "))
   = TextPayload (description_payload (strip (lit " cat ")) description)) /\
  (groq_client Sample.providers_down = true ->
   groq_chat Sample.providers_down (description_request (strip (lit " cat "))) = Raised ->
   fallback_result Sample.providers_down (strip (lit " cat ")) = NoResult).
Proof.
  apply (generate_auto_fallback Sample.providers_down Sample.fresh (lit " cat ")).
  - discriminate.
  - reflexivity.
  - reflexivity.
  - reflexivity.
Defined.

(** C4, at the failing input.  The stylized request is answered 200 with
    content type text/html: by the specification's criterion this is a soft
    failure, and step 2 does reject the very same answer, yet step 3 returns
    the HTML bytes as the image. *)
Theorem creative_returns_html_as_image :
  result (generate Sample.providers_html (lit "a cat") CREATIVE) Sample.fresh
  = Ok (ImageBytes Sample.html) /\
  soft_failure (http Sample.providers_html
                  (PollinationsStyled (random_choice Sample.providers_html styles))
                  (lit "a cat")) = true /\
  result (generate Sample.providers_html (lit "a cat") POLLINATIONS) Sample.fresh
  = Ok NoResult.
Proof. repeat split. Qed.

(** Step 3 accepts any answer with status 200, whatever its content
    type. *)
Lemma try_creative_ignores_content_type E clean_prompt w r :
  http E (PollinationsStyled (random_choice E styles)) clean_prompt = Returned r ->
  status_code r = 200%Z ->
  result (try_creative E clean_prompt) w = Ok (Some (content r)).
Proof.
  intros Hr Hs. unfold result, try_creative, request, try_except, call,
    mbind, M_bind, bind, ret. cbv zeta. rewrite Hr, Hs. reflexivity.
Qed.

(* ===================================================================== *)
(** ** The per-type breakdown of the metrics *)
(* ===================================================================== *)

Lemma record_chats_metrics E (events : list chat_event) w :
  db_available E = true ->
  metrics (run (record_chats E events) w)
  = metrics w ++ (chat_row <$> events).
Proof.
  intros Hdb. revert w.
  induction events as [|e events IH]; intros w; simpl.
  - by rewrite app_nil_r.
  - unfold run in *. unfold mbind, M_bind, bind, log_request. simpl. rewrite Hdb.
    unfold modify. rewrite IH. simpl. by rewrite <- app_assoc.
Qed.

Lemma group_count_chats (rows : list metric_row) :
  Forall (fun r => m_request_type r = lit "chat") rows ->
  rows <> [] ->
  group_count rows = {[ lit "chat" := length rows ]}.
Proof.
  induction 1 as [|r rows Hr Hrows IH]; intros Hne; [done|].
  simpl. rewrite Hr.
  destruct rows as [|r' rows'].
  - simpl. rewrite lookup_empty. simpl. apply insert_empty.
  - rewrite IH by done. rewrite lookup_singleton_eq. simpl.
    apply insert_singleton_eq.
Qed.

Lemma filter_all {A} (P : A -> Prop) `{!forall x, Decision (P x)} (l : list A) :
  Forall P l -> filter P l = l.
Proof.
  induction 1 as [|x l Hx _ IH]; [done|].
  rewrite filter_cons_True by done. by rewrite IH.
Qed.

(** C5, as the code has it.  After N >= 1 chat events and no others, all
    recorded within the last minute and on the UTC calendar day of the
    query, the breakdown is exactly {"chat": N} (and the requests-per-minute
    figure is N).  The breakdown is grouped over today's rows, not over the
    last minute's. *)
Theorem breakdown_counts_chats_of_today (E : env) (w : world) (events : list chat_event) :
  db_available E = true ->
  metrics w = [] ->
  events <> [] ->
  Forall (within_last_minute E) events ->
  Forall (same_utc_day E) events ->
  exists r,
    result (get_current_metrics E) (run (record_chats E events) w) = Ok r /\
    breakdown r = {[ lit "chat" := length events ]} /\
    RPM r = length events.
Proof.
  intros Hdb Hempty Hne Hrecent Htoday.
  pose proof (record_chats_metrics E events w Hdb) as Hrows.
  rewrite Hempty in Hrows. simpl in Hrows.
  unfold result, get_current_metrics, get_world, mbind, M_bind, bind, ret.
  rewrite Hdb. eexists. split; [reflexivity|]. simpl. rewrite Hrows.
  split.
  - rewrite filter_all.
    + rewrite group_count_chats.
      * by rewrite length_fmap.
      * apply Forall_fmap. by apply Forall_true.
      * by destruct events.
    + apply Forall_fmap. eapply Forall_impl; [exact Htoday|].
      intros e He. unfold is_today. simpl. by apply Z.eqb_eq.
  - rewrite filter_all; [by rewrite length_fmap|].
    apply Forall_fmap. eapply Forall_impl; [exact Hrecent|].
    intros e [He _]. unfold in_last_minute. simpl. by apply Z.ltb_lt.
Qed.

(** With no event recorded the breakdown is the empty dict, not
    {"chat": 0}. *)
Lemma breakdown_empty_without_events (E : env) (w : world) :
  metrics w = [] ->
  exists r, result (get_current_metrics E) (run (record_chats E []) w) = Ok r /\
            breakdown r = ∅.
Proof.
  intros Hempty.
  unfold result, run, get_current_metrics, get_world, mbind, M_bind, bind, ret. simpl.
  destruct (db_available E); eexists; (split; [reflexivity|]); simpl; [|done].
  by rewrite Hempty.
Qed.

(** C5 as stated does not hold: a chat recorded one second before
    midnight UTC lies within the last minute of a query made at midnight,
    but not on the query's day, and the breakdown is empty. *)
Lemma breakdown_misses_chats_before_midnight :
  ~ (forall (E : env) (w : world) (events : list chat_event),
       db_available E = true ->
       metrics w = [] ->
       Forall (within_last_minute E) events ->
       exists r,
         result (get_current_metrics E) (run (record_chats E events) w) = Ok r /\
         breakdown r = {[ lit "chat" := length events ]}).
Proof.
  intros H.
  destruct (H (with_now 86400 Sample.healthy) Sample.fresh [Sample.late_chat])
    as (r & Hr & Hb); [done | done | |].
  - constructor; [|constructor]. unfold within_last_minute. simpl. lia.
  - vm_compute in Hr. injection Hr as <-. vm_compute in Hb. discriminate Hb.
Qed.

Lemma breakdown_counts_chats_of_today_witness :
  exists r,
    result (get_current_metrics (with_now 86400 Sample.healthy))
      (run (record_chats (with_now 86400 Sample.healthy)
              [{| at_time := 86400; by_user := lit "42"; tokens_used := 3 |};
               {| at_time := 86400; by_user := lit "7"; tokens_used := 5 |}])
           Sample.fresh) = Ok r /\
    breakdown r = {[ lit "chat" := 2 ]} /\
    RPM r = 2.
Proof.
  apply (breakdown_counts_chats_of_today (with_now 86400 Sample.healthy) Sample.fresh
           [{| at_time := 86400; by_user := lit "42"; tokens_used := 3 |};
            {| at_time := 86400; by_user := lit "7"; tokens_used := 5 |}]).
  - reflexivity.
  - reflexivity.
  - discriminate.
  - repeat constructor; simpl; lia.
  - repeat constructor.
Defined.

(* ===================================================================== *)
(** ** The transient voice clip *)
(* ===================================================================== *)

Lemma handle_all_messages_keeps_disk E m : steps_with same_disk (handle_all_messages E m).
Proof. unfold handle_all_messages, save_and_reply. steps. Qed.

(** Once the clip is on disk, the two exits that skip the cleanup leave it
    there: the early return without a credential, and the except branch
    after a failed transcription. *)
Lemma handle_voice_leaves_clip (E : env) (w : world) (m : message)
    (file_path : list N) (audio : list Byte.byte) :
  tg_send_chat_action E (chat_id m) = Returned tt ->
  tg_get_file E (voice_file_id m) = Returned file_path ->
  tg_download_file E file_path = Returned audio ->
  groq_client E = false \/ groq_transcribe E (temp_filename E m) audio = Raised ->
  disk (run (handle_voice E m) w) !! temp_filename E m = Some audio.
Proof.
  intros Hact Hfile Hdown Hexit.
  set (name := temp_filename E m) in *.
  set (w1 := log_event (DownloadFile file_path)
               (log_event (GetFile (voice_file_id m))
                  (log_event (SendChatAction (chat_id m) (lit "upload_document")) w))).
  set (w2 := set_disk (<[name := audio]> (disk w1)) w1).
  assert (Hw2 : disk w2 !! name = Some audio) by apply lookup_insert_eq.
  unfold run, handle_voice. cbv zeta. fold name.
  destruct (groq_client E) eqn:Hclient.
  - destruct Hexit as [|Hraise]; [done|].
    erewrite try_exc.
    2:{ unfold send_chat_action. rewrite Hact. erewrite bind_ok by reflexivity.
        rewrite Hfile. erewrite bind_ok by reflexivity.
        rewrite Hdown. erewrite bind_ok by reflexivity.
        erewrite bind_ok by reflexivity.
        rewrite Hraise. reflexivity. }
    rewrite (reply_to_keeps_disk E m VoiceFailed _). exact Hw2.
  - erewrite (try_cong _ (reply_to E m (BackendNotConfigured VoiceFeature)) _ _ w2).
    2:{ unfold send_chat_action. rewrite Hact. erewrite bind_ok by reflexivity.
        rewrite Hfile. erewrite bind_ok by reflexivity.
        rewrite Hdown. erewrite bind_ok by reflexivity.
        erewrite bind_ok by reflexivity. reflexivity. }
    assert (Hrest : steps_with same_disk
              (try_except (reply_to E m (BackendNotConfigured VoiceFeature))
                          (reply_to E m VoiceFailed))) by steps.
    rewrite (Hrest w2). exact Hw2.
Qed.

(** The exit through the cleanup removes the clip. *)
Lemma handle_voice_removes_clip_on_success (E : env) (w : world) (m : message)
    (file_path : list N) (audio : list Byte.byte) (transcription : list N) :
  tg_send_chat_action E (chat_id m) = Returned tt ->
  tg_get_file E (voice_file_id m) = Returned file_path ->
  tg_download_file E file_path = Returned audio ->
  groq_client E = true ->
  groq_transcribe E (temp_filename E m) audio = Returned transcription ->
  disk (run (handle_voice E m) w) !! temp_filename E m = None.
Proof.
  intros Hact Hfile Hdown Hclient Htext.
  set (name := temp_filename E m) in *.
  set (w1 := log_event (DownloadFile file_path)
               (log_event (GetFile (voice_file_id m))
                  (log_event (SendChatAction (chat_id m) (lit "upload_document")) w))).
  set (w2 := set_disk (<[name := audio]> (disk w1)) w1).
  set (w3 := log_event (GroqTranscribe name audio) w2).
  set (w4 := set_disk (delete name (disk w3)) w3).
  assert (Hw4 : disk w4 !! name = None) by apply lookup_delete_eq.
  unfold run, handle_voice. cbv zeta. rewrite Hclient. fold name.
  set (rest := match strip transcription with
               | [] => reply_to E m VoiceUnclear
               | _ :: _ =>
                   reply_to E m (VoiceTranscribed transcription) ≫= fun _ =>
                   handle_all_messages E (with_text m transcription)
               end).
  erewrite (try_cong _ rest _ _ w4).
  2:{ unfold send_chat_action. rewrite Hact. erewrite bind_ok by reflexivity.
      rewrite Hfile. erewrite bind_ok by reflexivity.
      rewrite Hdown. erewrite bind_ok by reflexivity.
      erewrite bind_ok by reflexivity.
      rewrite Htext. erewrite bind_ok by reflexivity.
      erewrite bind_ok; [reflexivity|].
      unfold remove_file, get_world. erewrite bind_ok by reflexivity.
      cbn [disk log_event set_disk]. rewrite lookup_insert_eq. reflexivity. }
  assert (Hrest : steps_with same_disk (try_except rest (reply_to E m VoiceFailed))).
  { unfold rest. pose proof (handle_all_messages_keeps_disk E) as Hk. destruct (strip transcription); steps; apply Hk. }
  rewrite (Hrest w4). exact Hw4.
Qed.

(** C2, at the failing inputs.  Without an inference credential, and when
    the transcription call raises, the downloaded clip is still on disk
    after [handle_voice] has returned; only the successful transcription
    removes it. *)
Theorem voice_clip_left_on_disk :
  let m := Sample.msg (lit "") in
  disk (run (handle_voice Sample.no_credential m) Sample.fresh)
    !! temp_filename Sample.no_credential m = Some [Byte.x4f; Byte.x67; Byte.x67; Byte.x53]
  /\ disk (run (handle_voice Sample.groq_failing m) Sample.fresh)
    !! temp_filename Sample.groq_failing m = Some [Byte.x4f; Byte.x67; Byte.x67; Byte.x53]
  /\ disk (run (handle_voice Sample.healthy m) Sample.fresh)
    !! temp_filename Sample.healthy m = None.
Proof. vm_compute. done. Qed.

(* ===================================================================== *)
(** ** On every store *)
(* ===================================================================== *)

Lemma sends_events_of {A} (P : event -> Prop) (m : M A) w :
  steps_with (sends P) m -> Forall P (events_of m w).
Proof.
  intros Hm. destruct (Hm w) as (evs & Hsent & Hevs).
  unfold events_of, run. rewrite Hsent. by rewrite drop_app_length.
Qed.

(** Whatever the store holds, a command without its argument makes no
    inference call and no image-provider request. *)
Lemma no_argument_no_external_call (E : env) (w : world) (h : handler) (m : message) :
  command_argument (text m) = None ->
  Forall (fun e => is_external_call e = false) (events_of (run_handler E h m) w).
Proof.
  intros Hnone. apply sends_events_of.
  set (P := fun e => is_external_call e = false).
  assert (HP : forall chat t, P (SendMessage chat t)) by done.
  destruct h; simpl;
    unfold handle_draw, handle_search, handle_code, handle_draw_default, handle_flux,
      handle_pollinations, handle_creative, handle_auto, process_image_generation;
    rewrite Hnone; steps.
Qed.

(** Whatever the store holds and whichever way the turn ends, no chat call
    of [handle_all_messages] carries more than four prior entries. *)
Lemma chat_calls_replay_at_most_four (E : env) (w : world) (m : message) :
  Forall (replays_at_most_four m) (events_of (handle_all_messages E m) w).
Proof.
  apply sends_events_of.
  set (P := replays_at_most_four m).
  assert (HP : forall chat t, P (SendMessage chat t)) by done.
  assert (HA : forall chat t, P (SendChatAction chat t)) by done.
  assert (Hcall : forall prior user_text,
            text m = Some user_text -> length prior <= 4 ->
            steps_with (sends P)
              (call (GroqChat (chat_turn_request prior user_text))
                    (groq_chat E (chat_turn_request prior user_text)))).
  { intros prior user_text Htext Hlen. apply steps_call. intros w0.
    apply sends_log_event. exists prior, user_text. done. }
  unfold handle_all_messages, save_and_reply.
  destruct (text m) as [[|c t]|] eqn:Htext; [steps | | steps].
  destruct (startswith (lit "/") (c :: t)); [steps|].
  apply steps_try; [typeclasses eauto | | steps].
  apply steps_bind; [typeclasses eauto | steps | intros user_data].
  apply steps_bind; [typeclasses eauto | steps | intros history].
  destruct history as [| | |s|l|]; unfold py_last; steps.
  - apply Hcall; [done|]. rewrite length_fmap, length_last_n. lia.
  - apply Hcall; [done|]. rewrite length_last_n. lia.
Qed.

(* ===================================================================== *)
(** ** The store stays well formed *)
(* ===================================================================== *)

#[global] Instance keeps_well_formed_preorder : PreOrder keeps_well_formed.
Proof.
  split; [intros w H; exact H|].
  intros x y z Hxy Hyz H. apply Hyz, Hxy, H.
Qed.

Lemma well_formed_same_memory w w' :
  memory_file w' = memory_file w -> keeps_well_formed w w'.
Proof.
  intros Hm (d & Hd & Hwf). exists d. split; [|done].
  unfold loaded in *. by rewrite Hm.
Qed.

Lemma keeps_well_formed_log_event e w : keeps_well_formed w (log_event e w).
Proof. by apply well_formed_same_memory. Qed.

Lemma keeps_well_formed_set_metrics r w : keeps_well_formed w (set_metrics r w).
Proof. by apply well_formed_same_memory. Qed.

Lemma keeps_well_formed_unreadable w : keeps_well_formed w (set_memory_file Unreadable w).
Proof. intros _. exists []. split; [done|]. intros k v [=]. Qed.

#[global] Hint Resolve keeps_well_formed_log_event keeps_well_formed_set_metrics
  keeps_well_formed_unreadable : steps.

(** Saving an entry of the right shape keeps the store well formed. *)
Lemma save_user_data_keeps_well_formed E user_id user_data :
  well_formed_profile user_data = true ->
  steps_with keeps_well_formed (save_user_data E user_id user_data).
Proof.
  intros Hentry w Hstore. pose proof Hstore as (d & Hd & Hwf).
  unfold save_user_data. rewrite (bind_ok _ _ _ _ _ (load_spec w)), Hd.
  unfold py_set_item. erewrite bind_ok by reflexivity.
  unfold save. destruct (memory_write E); simpl.
  - exists (dict_set user_id user_data d). split; [done|].
    intros k v. destruct (decide (user_id = k)) as [<-|Hne].
    + rewrite dict_get_set_eq. by intros [= <-].
    + rewrite dict_get_set_ne by done. apply Hwf.
  - done.
  - by apply keeps_well_formed_unreadable.
Qed.

Lemma profile_with_history_well_formed p s h :
  dict_get (lit "settings") p = Some (JObj s) ->
  well_formed_profile (JObj (dict_set (lit "history") (JList h) p)) = true.
Proof.
  intros Hs. simpl. rewrite dict_get_set_eq.
  rewrite dict_get_set_ne by apply history_is_not_settings. by rewrite Hs.
Qed.

Lemma profile_with_settings_well_formed p h s :
  dict_get (lit "history") p = Some (JList h) ->
  well_formed_profile (JObj (dict_set (lit "settings") (JObj s) p)) = true.
Proof.
  intros Hh. simpl. rewrite dict_get_set_eq.
  rewrite dict_get_set_ne by (intros H; by apply history_is_not_settings).
  by rewrite Hh.
Qed.

#[global] Hint Resolve save_user_data_keeps_well_formed profile_with_history_well_formed
  profile_with_settings_well_formed : steps.

(** A chat turn keeps the store well formed, whatever way it ends. *)
Lemma handle_all_messages_keeps_well_formed (E : env) (m : message) :
  steps_with keeps_well_formed (handle_all_messages E m).
Proof.
  intros w Hstore.
  destruct (get_user_data_well_formed w (str_of_int (chat_id m)) Hstore)
    as (p & s & Hget & Hhist & Hset).
  unfold handle_all_messages.
  destruct (text m) as [[|c t]|]; [by apply (steps_try keeps_well_formed); steps | |
                                   by apply (steps_try keeps_well_formed); steps].
  destruct (startswith (lit "/") (c :: t));
    [by apply (steps_try keeps_well_formed); steps|].
  erewrite try_cong.
  2:{ erewrite bind_ok by exact Hget.
      unfold py_item. rewrite Hhist. erewrite bind_ok by reflexivity.
      unfold py_last. erewrite bind_ok by reflexivity. reflexivity. }
  set (h := stored_history w (str_of_int (chat_id m))) in *.
  match goal with
  | |- well_formed_store (snd (?T w)) => assert (HT : steps_with keeps_well_formed T)
  end.
  { unfold save_and_reply. steps. }
  exact (HT w Hstore).
Qed.

(** So does a change of setting. *)
Lemma update_setting_keeps_well_formed (E : env) (user_id key : list N) (value : json) :
  steps_with keeps_well_formed (update_setting E user_id key value).
Proof.
  intros w Hstore.
  destruct (get_user_data_well_formed w user_id Hstore) as (p & s & Hget & Hhist & Hset).
  unfold update_setting.
  erewrite bind_ok by exact Hget.
  unfold py_item. rewrite Hset. erewrite bind_ok by reflexivity.
  unfold py_set_item. erewrite bind_ok by reflexivity.
  erewrite bind_ok by reflexivity.
  eapply save_user_data_keeps_well_formed; [|exact Hstore].
  eapply profile_with_settings_well_formed, Hhist.
Qed.

Lemma fresh_store_well_formed : well_formed_store Sample.fresh.
Proof. exists []. split; [done|]. intros k v [=]. Qed.

(* ===================================================================== *)
(** * Further properties *)
(* ===================================================================== *)

(* ===================================================================== *)
(** ** The counter store, row by row *)
(* ===================================================================== *)

Lemma get_current_metrics_run E w :
  db_available E = true ->
  get_current_metrics E w
  = (Ok {| RPM := length (filter (fun r => in_last_minute E r = true) (metrics w));
           TPM := foldr (fun r acc => (m_tokens r + acc)%Z) 0%Z
                    (filter (fun r => in_last_minute E r = true) (metrics w));
           RPD := length (filter (fun r => is_today E r = true) (metrics w));
           breakdown := group_count (filter (fun r => is_today E r = true) (metrics w)) |},
     w).
Proof.
  intros Hdb. unfold get_current_metrics, get_world, mbind, M_bind, bind, ret.
  by rewrite Hdb.
Qed.

(** A request type is a key of the grouped counts exactly when a row has
    it, and then its value is the number of these rows. *)
Lemma group_count_lookup (rows : list metric_row) (t : list N) :
  group_count rows !! t
  = match length (filter (fun r => m_request_type r = t) rows) with
    | O => None
    | S n => Some (S n)
    end.
Proof.
  induction rows as [|r rows IH]; simpl; [apply lookup_empty|].
  destruct (decide (m_request_type r = t)) as [Heq|Hne].
  - rewrite filter_cons_True by done. simpl. rewrite Heq, lookup_insert_eq, IH.
    by destruct (length _).
  - rewrite filter_cons_False by done. by rewrite lookup_insert_ne.
Qed.

Lemma group_count_snoc_lookup (rows : list metric_row) (r : metric_row) :
  group_count (rows ++ [r]) !! m_request_type r
  = Some (S (default 0 (group_count rows !! m_request_type r))).
Proof.
  rewrite !group_count_lookup, filter_app, length_app.
  rewrite (filter_cons_True _ r) by done. simpl.
  destruct (length (filter _ rows)); simpl; f_equal; lia.
Qed.

Lemma sum_tokens_snoc (rows : list metric_row) (r : metric_row) :
  foldr (fun r acc => (m_tokens r + acc)%Z) 0%Z (rows ++ [r])
  = (foldr (fun r acc => (m_tokens r + acc)%Z) 0%Z rows + m_tokens r)%Z.
Proof. induction rows as [|x rows IH]; simpl; lia. Qed.

(** X1. On an empty table, and whenever the database statements raise,
    [get_current_metrics] returns the zeroed report -- 0 requests, 0 tokens,
    an empty breakdown -- and changes nothing. *)
Theorem metrics_zero_when_empty_or_failing (E : env) (w : world) :
  metrics w = [] \/ db_available E = false ->
  get_current_metrics E w
  = (Ok {| RPM := 0; TPM := 0; RPD := 0; breakdown := ∅ |}, w).
Proof.
  intros [Hempty|Hdb].
  - unfold get_current_metrics, get_world, mbind, M_bind, bind, ret.
    rewrite Hempty. by destruct (db_available E).
  - unfold get_current_metrics, get_world, mbind, M_bind, bind, ret. by rewrite Hdb.
Qed.

Lemma metrics_zero_when_empty_or_failing_witness :
  get_current_metrics (Scenario.with_database false Sample.healthy) Scenario.two_users
  = (Ok {| RPM := 0; TPM := 0; RPD := 0; breakdown := ∅ |}, Scenario.two_users).
Proof.
  apply (metrics_zero_when_empty_or_failing
           (Scenario.with_database false Sample.healthy) Scenario.two_users).
  right. reflexivity.
Defined.

(** X2. A request that was just logged is counted: queried at the same
    clock, the report has one more request in the last minute and one more
    today, the token sum grown by the logged tokens, and one more under the
    request's type. *)
Theorem logged_request_is_counted (E : env) (w : world) (user_id : list N)
    (tokens : Z) (request_type : list N) :
  db_available E = true ->
  exists before after,
    result (get_current_metrics E) w = Ok before /\
    result (get_current_metrics E) (run (log_request E user_id tokens request_type) w)
    = Ok after /\
    RPM after = S (RPM before) /\
    TPM after = (TPM before + tokens)%Z /\
    RPD after = S (RPD before) /\
    breakdown after !! request_type
    = Some (S (default 0 (breakdown before !! request_type))).
Proof.
  intros Hdb. unfold result. rewrite !get_current_metrics_run by done.
  eexists _, _. split; [reflexivity|]. split; [reflexivity|]. simpl.
  unfold run, log_request. rewrite Hdb. simpl.
  set (r := {| m_user_id := user_id; m_timestamp := now E; m_tokens := tokens;
               m_request_type := request_type |}).
  assert (Hrecent : in_last_minute E r = true).
  { unfold in_last_minute. simpl. apply Z.ltb_lt. lia. }
  assert (Htoday : is_today E r = true).
  { unfold is_today. simpl. by apply Z.eqb_eq. }
  rewrite !filter_app, !(filter_cons_True _ r) by done.
  rewrite !filter_nil, !length_app. simpl.
  repeat split; try lia.
  - apply sum_tokens_snoc.
  - apply (group_count_snoc_lookup _ r).
Qed.

Lemma logged_request_is_counted_witness :
  exists before after,
    result (get_current_metrics Sample.healthy) Scenario.two_users = Ok before /\
    result (get_current_metrics Sample.healthy)
      (run (log_request Sample.healthy (lit "42") 9 (lit "chat")) Scenario.two_users)
    = Ok after /\
    RPM after = S (RPM before) /\
    TPM after = (TPM before + 9)%Z /\
    RPD after = S (RPD before) /\
    breakdown after !! lit "chat" = Some (S (default 0 (breakdown before !! lit "chat"))).
Proof.
  apply (logged_request_is_counted Sample.healthy Scenario.two_users (lit "42") 9 (lit "chat")).
  reflexivity.
Defined.

(** X3. The breakdown has an entry for a request type exactly when a row of
    that type was written on the UTC day of the query, and the entry is the
    number of these rows; a type without a row today has no entry (not an
    entry 0). *)
Theorem breakdown_counts_todays_rows_by_type (E : env) (w : world)
    (request_type : list N) :
  db_available E = true ->
  exists r,
    result (get_current_metrics E) w = Ok r /\
    breakdown r !! request_type
    = match todays_count E request_type (metrics w) with
      | O => None
      | S n => Some (S n)
      end.
Proof.
  intros Hdb. unfold result. rewrite get_current_metrics_run by done.
  eexists. split; [reflexivity|]. simpl. apply group_count_lookup.
Qed.

Lemma breakdown_counts_todays_rows_by_type_witness :
  exists r,
    result (get_current_metrics Sample.healthy) Scenario.two_users = Ok r /\
    breakdown r !! lit "vision_analysis"
    = match todays_count Sample.healthy (lit "vision_analysis")
              (metrics Scenario.two_users) with
      | O => None
      | S n => Some (S n)
      end.
Proof.
  apply (breakdown_counts_todays_rows_by_type Sample.healthy Scenario.two_users
           (lit "vision_analysis")).
  reflexivity.
Defined.

(* ===================================================================== *)
(** ** The memory store: what is written is what is read *)
(* ===================================================================== *)

Lemma settings_is_not_history : lit "settings" <> lit "history".
Proof. discriminate. Qed.

(** An entry that already has both keys is returned as it is stored. *)
Lemma get_user_data_complete_entry (w : world) (user_id : list N)
    (d p : list (list N * json)) :
  loaded w = JObj d ->
  dict_get user_id d = Some (JObj p) ->
  dict_mem (lit "history") p = true ->
  dict_mem (lit "settings") p = true ->
  get_user_data user_id w = (Ok (JObj p), w).
Proof.
  intros Hd Hentry Hh Hs.
  unfold get_user_data. rewrite (bind_ok _ _ _ _ _ (load_spec w)), Hd.
  unfold py_get. rewrite Hentry. simpl. erewrite bind_ok by reflexivity.
  rewrite (bind_ok _ _ _ _ _ (ensure_key_obj _ _ p w)), Hh.
  rewrite (bind_ok _ _ _ _ _ (ensure_key_obj _ _ p w)), Hs.
  reflexivity.
Qed.

Lemma save_user_data_run (E : env) (w : world) (user_id : list N) (user_data : json)
    (d : list (list N * json)) :
  loaded w = JObj d ->
  save_user_data E user_id user_data w
  = (Ok tt, match memory_write E with
            | WriteOk => set_memory_file (Document (JObj (dict_set user_id user_data d))) w
            | OpenFails => w
            | DumpFails => set_memory_file Unreadable w
            end).
Proof.
  intros Hd. unfold save_user_data.
  rewrite (bind_ok _ _ _ _ _ (load_spec w)), Hd.
  unfold py_set_item. erewrite bind_ok by reflexivity.
  unfold save. by destruct (memory_write E).
Qed.

Lemma save_user_data_not_a_dict (E : env) (w : world) (user_id : list N) (user_data : json) :
  (forall d, loaded w <> JObj d) ->
  save_user_data E user_id user_data w = (Exc, w).
Proof.
  intros Hd. unfold save_user_data.
  rewrite (bind_ok _ _ _ _ _ (load_spec w)).
  destruct (loaded w); try reflexivity. by destruct (Hd fields).
Qed.

Lemma get_user_data_default_entry (w : world) (user_id : list N) :
  never_seen w user_id ->
  get_user_data user_id w = (Ok (profile (JList []) (JObj [])), w).
Proof.
  intros (d & Hd & Hnone).
  unfold get_user_data. rewrite (bind_ok _ _ _ _ _ (load_spec w)), Hd.
  unfold py_get. rewrite Hnone. reflexivity.
Qed.

(** X4. A profile that has both keys, saved for a user while writes succeed,
    is what the next [get_user_data] of that user returns, unchanged. *)
Theorem saved_profile_is_read_back (E : env) (w : world) (user_id : list N)
    (p : list (list N * json)) :
  (exists d, loaded w = JObj d) ->
  memory_write E = WriteOk ->
  dict_mem (lit "history") p = true ->
  dict_mem (lit "settings") p = true ->
  let w' := run (save_user_data E user_id (JObj p)) w in
  get_user_data user_id w' = (Ok (JObj p), w').
Proof.
  intros [d Hd] Hwrite Hh Hs w'. subst w'. unfold run.
  rewrite (save_user_data_run E w user_id (JObj p) d Hd), Hwrite. simpl.
  eapply get_user_data_complete_entry; [reflexivity | | done | done].
  apply dict_get_set_eq.
Qed.

(** X5. Saving one user's data leaves every other user's stored entry as it
    was (unless the dump itself fails half-way, see the next theorem). *)
Theorem save_user_data_keeps_other_users (E : env) (w : world) (user_id other : list N)
    (user_data : json) :
  other <> user_id ->
  memory_write E <> DumpFails ->
  stored_entry (run (save_user_data E user_id user_data) w) other = stored_entry w other.
Proof.
  intros Hother Hwrite. unfold run.
  destruct (loaded w) as [| | | | |d] eqn:Hd.
  1-5: rewrite save_user_data_not_a_dict; [done | intros d; by rewrite Hd].
  rewrite (save_user_data_run E w user_id user_data d Hd).
  destruct (memory_write E); [|done|done].
  unfold stored_entry, loaded. simpl. fold (loaded w). rewrite Hd.
  apply dict_get_set_ne. congruence.
Qed.

(** X6. [save] opens the memory file for writing before it serialises: when
    the dump then raises, the file is left unreadable, the exception is
    swallowed, and from then on every user -- not only the one being saved
    -- reads as a new user with an empty history and no settings. *)
Theorem failed_dump_forgets_every_user (E : env) (w : world) (user_id other : list N)
    (user_data : json) :
  (exists d, loaded w = JObj d) ->
  memory_write E = DumpFails ->
  let w' := run (save_user_data E user_id user_data) w in
  get_user_data other w' = (Ok (profile (JList []) (JObj [])), w').
Proof.
  intros [d Hd] Hwrite w'. subst w'. unfold run.
  rewrite (save_user_data_run E w user_id user_data d Hd), Hwrite. simpl.
  apply get_user_data_default_entry. by exists [].
Qed.

(** The profile [get_user_data] returns on a well-formed store. *)
Lemma get_user_data_reads_profile (w : world) (user_id : list N) :
  well_formed_store w ->
  exists p,
    get_user_data user_id w = (Ok (JObj p), w) /\
    dict_get (lit "history") p = Some (JList (stored_history w user_id)) /\
    dict_get (lit "settings") p = Some (JObj (stored_settings w user_id)).
Proof.
  intros (d & Hd & Hwf).
  unfold get_user_data. rewrite (bind_ok _ _ _ _ _ (load_spec w)), Hd.
  unfold stored_history, stored_settings, stored_entry. rewrite Hd.
  unfold py_get.
  destruct (dict_get user_id d) as [entry|] eqn:Hentry.
  - specialize (Hwf _ _ Hentry).
    destruct entry as [| | | |turns|p]; try discriminate Hwf.
    + by exists [(lit "history", JList turns); (lit "settings", JObj [])].
    + simpl in Hwf. apply andb_prop in Hwf as [Hh Hs].
      simpl. erewrite bind_ok by reflexivity.
      rewrite (bind_ok _ _ _ _ _ (ensure_key_obj _ _ p w)).
      rewrite (bind_ok _ _ _ _ _ (ensure_key_obj _ _ _ w)).
      eexists. split; [reflexivity|].
      rewrite (dict_mem_get (lit "history") p).
      destruct (dict_get (lit "history") p) as [[| | | |h|]|] eqn:Hhist;
        try discriminate Hh.
      * rewrite (dict_mem_get (lit "settings") p).
        destruct (dict_get (lit "settings") p) as [[| | | | |s]|] eqn:Hset;
          try discriminate Hs.
        -- by rewrite Hhist, Hset.
        -- rewrite dict_get_set_eq.
           rewrite (dict_get_set_ne _ _ _ _ settings_is_not_history). by rewrite Hhist.
      * rewrite dict_mem_get.
        rewrite (dict_get_set_ne _ _ _ _ history_is_not_settings).
        destruct (dict_get (lit "settings") p) as [[| | | | |s]|] eqn:Hset;
          try discriminate Hs.
        -- rewrite dict_get_set_eq.
           by rewrite (dict_get_set_ne _ _ _ _ history_is_not_settings), Hset.
        -- rewrite dict_get_set_eq.
           rewrite (dict_get_set_ne _ _ _ _ settings_is_not_history).
           by rewrite dict_get_set_eq.
  - by exists [(lit "history", JList []); (lit "settings", JObj [])].
Qed.

Lemma get_setting_run (w : world) (user_id key : list N) (dflt : json) :
  well_formed_store w ->
  get_setting user_id key dflt w
  = (Ok (default dflt (dict_get key (stored_settings w user_id))), w).
Proof.
  intros Hstore.
  destruct (get_user_data_reads_profile w user_id Hstore) as (p & Hget & _ & Hset).
  unfold get_setting. erewrite bind_ok by exact Hget.
  unfold py_item. rewrite Hset. erewrite bind_ok by reflexivity.
  reflexivity.
Qed.

(** X9. On a well-formed store [get_setting] returns the stored value of the
    key, and the caller's default when the key is not stored; for a user
    without an entry it is always the default.  It changes nothing. *)
Theorem get_setting_reads_stored_or_default (w : world) (user_id key : list N)
    (dflt : json) :
  well_formed_store w ->
  get_setting user_id key dflt w
  = (Ok (default dflt (dict_get key (stored_settings w user_id))), w) /\
  (never_seen w user_id -> get_setting user_id key dflt w = (Ok dflt, w)).
Proof.
  intros Hstore. rewrite (get_setting_run w user_id key dflt Hstore).
  split; [done|]. intros (d & Hd & Hnone).
  unfold stored_settings, stored_entry. by rewrite Hd, Hnone.
Qed.

Lemma update_setting_run (E : env) (w : world) (user_id key : list N) (value : json) :
  well_formed_store w ->
  memory_write E = WriteOk ->
  exists d p,
    loaded w = JObj d /\
    dict_get (lit "history") p = Some (JList (stored_history w user_id)) /\
    update_setting E user_id key value w
    = (Ok tt,
       set_memory_file
         (Document (JObj (dict_set user_id
            (JObj (dict_set (lit "settings")
                     (JObj (dict_set key value (stored_settings w user_id))) p)) d))) w).
Proof.
  intros Hstore Hwrite.
  destruct (get_user_data_reads_profile w user_id Hstore) as (p & Hget & Hhist & Hset).
  destruct Hstore as (d & Hd & _). exists d, p. split; [done|]. split; [done|].
  unfold update_setting. erewrite bind_ok by exact Hget.
  unfold py_item. rewrite Hset. erewrite bind_ok by reflexivity.
  unfold py_set_item. erewrite bind_ok by reflexivity.
  erewrite bind_ok by reflexivity.
  by rewrite (save_user_data_run E w user_id _ d Hd), Hwrite.
Qed.

Lemma stored_after_update (w w' : world) (user_id : list N) (d p s : list (list N * json))
    (h : list json) :
  dict_get (lit "history") p = Some (JList h) ->
  memory_file w'
  = Document (JObj (dict_set user_id (JObj (dict_set (lit "settings") (JObj s) p)) d)) ->
  stored_history w' user_id = h /\ stored_settings w' user_id = s.
Proof.
  intros Hh Hw'. unfold stored_history, stored_settings, stored_entry, loaded.
  rewrite Hw', dict_get_set_eq, dict_get_set_eq.
  rewrite (dict_get_set_ne _ _ _ _ settings_is_not_history), Hh. done.
Qed.

(** X7. A setting that was just updated is what [get_setting] returns next,
    whatever default the caller passes. *)
Theorem updated_setting_is_read_back (E : env) (w : world) (user_id key : list N)
    (value dflt : json) :
  well_formed_store w ->
  memory_write E = WriteOk ->
  let w' := run (update_setting E user_id key value) w in
  get_setting user_id key dflt w' = (Ok value, w').
Proof.
  intros Hstore Hwrite w'.
  assert (Hstore' : well_formed_store w')
    by (apply (update_setting_keeps_well_formed E user_id key value w Hstore)).
  rewrite (get_setting_run w' user_id key dflt Hstore').
  destruct (update_setting_run E w user_id key value Hstore Hwrite) as (d & p & Hd & Hh & Hrun).
  assert (Hw' : memory_file w' = Document (JObj (dict_set user_id
            (JObj (dict_set (lit "settings")
                     (JObj (dict_set key value (stored_settings w user_id))) p)) d))).
  { subst w'. unfold run. by rewrite Hrun. }
  destruct (stored_after_update w w' user_id d p _ _ Hh Hw') as [_ ->].
  by rewrite dict_get_set_eq.
Qed.

(** X8. [update_setting] changes one setting of one user: the user's
    history, the user's other settings and every other user's entry stay as
    they were. *)
Theorem update_setting_changes_one_setting (E : env) (w : world)
    (user_id key : list N) (value : json) :
  well_formed_store w ->
  memory_write E = WriteOk ->
  let w' := run (update_setting E user_id key value) w in
  stored_history w' user_id = stored_history w user_id /\
  (forall key' dflt, key' <> key ->
     result (get_setting user_id key' dflt) w' = result (get_setting user_id key' dflt) w) /\
  (forall other, other <> user_id -> stored_entry w' other = stored_entry w other).
Proof.
  intros Hstore Hwrite w'.
  assert (Hstore' : well_formed_store w')
    by (apply (update_setting_keeps_well_formed E user_id key value w Hstore)).
  destruct (update_setting_run E w user_id key value Hstore Hwrite) as (d & p & Hd & Hh & Hrun).
  assert (Hw' : memory_file w' = Document (JObj (dict_set user_id
            (JObj (dict_set (lit "settings")
                     (JObj (dict_set key value (stored_settings w user_id))) p)) d))).
  { subst w'. unfold run. by rewrite Hrun. }
  destruct (stored_after_update w w' user_id d p _ _ Hh Hw') as [Hhist Hsettings].
  split; [done|]. split.
  - intros key' dflt Hne. unfold result.
    rewrite (get_setting_run w' user_id key' dflt Hstore').
    rewrite (get_setting_run w user_id key' dflt Hstore). simpl.
    rewrite Hsettings. rewrite dict_get_set_ne by congruence. done.
  - intros other Hother. unfold stored_entry, loaded. rewrite Hw'. fold (loaded w).
    rewrite Hd. apply dict_get_set_ne. congruence.
Qed.

(** Shows that a sample store is well formed, entry by entry. *)
Ltac store_is_well_formed :=
  eexists; split; [reflexivity|];
  let k := fresh "k" in let v := fresh "v" in
  intros k v; simpl;
  repeat (match goal with
          | |- context [str_eqb k ?x] =>
              destruct (str_eqb k x); [intros [= <-]; reflexivity|]
          end);
  done.

Lemma saved_profile_is_read_back_witness :
  let p := [(lit "history", JList [turn (lit "user") (Some (lit "hi"))]);
            (lit "settings", JObj [])] in
  let w' := run (save_user_data Sample.healthy (lit "7") (JObj p)) Scenario.two_users in
  get_user_data (lit "7") w' = (Ok (JObj p), w').
Proof.
  apply (saved_profile_is_read_back Sample.healthy Scenario.two_users (lit "7")
           [(lit "history", JList [turn (lit "user") (Some (lit "hi"))]);
            (lit "settings", JObj [])]).
  - eexists. reflexivity.
  - reflexivity.
  - reflexivity.
  - reflexivity.
Defined.

Lemma save_user_data_keeps_other_users_witness :
  stored_entry (run (save_user_data Sample.healthy (lit "42") (JList [])) Scenario.two_users)
    (lit "7")
  = stored_entry Scenario.two_users (lit "7").
Proof.
  apply (save_user_data_keeps_other_users Sample.healthy Scenario.two_users
           (lit "42") (lit "7") (JList [])).
  - discriminate.
  - discriminate.
Defined.

Lemma failed_dump_forgets_every_user_witness :
  let E := Scenario.with_memory_write DumpFails Sample.healthy in
  let w' := run (save_user_data E (lit "42") (JList [])) Scenario.two_users in
  get_user_data (lit "7") w' = (Ok (profile (JList []) (JObj [])), w').
Proof.
  apply (failed_dump_forgets_every_user
           (Scenario.with_memory_write DumpFails Sample.healthy)
           Scenario.two_users (lit "42") (lit "7") (JList [])).
  - eexists. reflexivity.
  - reflexivity.
Defined.

Lemma get_setting_reads_stored_or_default_witness :
  get_setting (lit "42") (lit "image_model") (JStr AUTO) Scenario.two_users
  = (Ok (default (JStr AUTO)
           (dict_get (lit "image_model") (stored_settings Scenario.two_users (lit "42")))),
     Scenario.two_users) /\
  (never_seen Scenario.two_users (lit "42") ->
   get_setting (lit "42") (lit "image_model") (JStr AUTO) Scenario.two_users
   = (Ok (JStr AUTO), Scenario.two_users)).
Proof.
  apply (get_setting_reads_stored_or_default Scenario.two_users (lit "42")
           (lit "image_model") (JStr AUTO)).
  store_is_well_formed.
Defined.

Lemma updated_setting_is_read_back_witness :
  let w' := run (update_setting Sample.healthy (lit "7") (lit "image_model") (JStr CREATIVE))
                Scenario.two_users in
  get_setting (lit "7") (lit "image_model") (JStr AUTO) w' = (Ok (JStr CREATIVE), w').
Proof.
  apply (updated_setting_is_read_back Sample.healthy Scenario.two_users (lit "7")
           (lit "image_model") (JStr CREATIVE) (JStr AUTO)).
  - store_is_well_formed.
  - reflexivity.
Defined.

Lemma update_setting_changes_one_setting_witness :
  let w' := run (update_setting Sample.healthy (lit "42") (lit "language") (JStr (lit "am")))
                Scenario.two_users in
  stored_history w' (lit "42") = stored_history Scenario.two_users (lit "42") /\
  (forall key' dflt, key' <> lit "language" ->
     result (get_setting (lit "42") key' dflt) w'
     = result (get_setting (lit "42") key' dflt) Scenario.two_users) /\
  (forall other, other <> lit "42" ->
     stored_entry w' other = stored_entry Scenario.two_users other).
Proof.
  apply (update_setting_changes_one_setting Sample.healthy Scenario.two_users (lit "42")
           (lit "language") (JStr (lit "am"))).
  - store_is_well_formed.
  - reflexivity.
Defined.

(* ===================================================================== *)
(** ** [clean_markdown]: what it adds and what it leaves *)
(* ===================================================================== *)

Lemma startswith_length (p s : list N) : startswith p s = true -> length p <= length s.
Proof.
  revert s. induction p as [|a p IH]; intros [|b s]; simpl; try done; try lia.
  intros [_ H]%andb_prop. apply IH in H. lia.
Qed.

Lemma startswith_app_other (p a : list N) (c : N) (b : list N) :
  a <> [] -> c ∉ p -> startswith p (a ++ c :: b) = startswith p a.
Proof.
  revert a. induction p as [|y p IH]; intros [|x a] Ha Hc; try done.
  simpl. f_equal.
  destruct a as [|x' a].
  - simpl. destruct p as [|z p]; [done|]. simpl.
    apply not_elem_of_cons in Hc as [_ Hc]. apply not_elem_of_cons in Hc as [Hc _].
    apply andb_false_intro1. apply N.eqb_neq. congruence.
  - apply IH; [done|]. by apply not_elem_of_cons in Hc as [_ Hc].
Qed.

Lemma count_from_app (sub : list N) (k : nat) (a b : list N) :
  (forall a', a' <> [] -> startswith sub (a' ++ b) = startswith sub a') ->
  count_from sub k (a ++ b) = count_from sub k a + count_from sub (k - length a) b.
Proof.
  intros Hb. revert k. induction a as [|x a IH]; intros k.
  - simpl. by rewrite Nat.sub_0_r.
  - destruct k as [|k].
    + cbn [app count_from]. change (x :: a ++ b) with ((x :: a) ++ b).
      rewrite Hb by done.
      destruct (startswith sub (x :: a)) eqn:Hs.
      * rewrite IH. apply startswith_length in Hs. simpl in Hs.
        replace (length sub - 1 - length a) with 0 by lia. simpl. lia.
      * rewrite IH. simpl. done.
    + simpl. apply IH.
Qed.

Lemma count_single_app (c : N) (a b : list N) :
  count [c] (a ++ b) = count [c] a + count [c] b.
Proof.
  unfold count. rewrite count_from_app; [done|].
  intros [|x a'] Ha; [done|]. simpl. by rewrite !andb_true_r.
Qed.

Lemma count_app_other (sub a : list N) (c : N) (b : list N) :
  c ∉ sub -> count sub (a ++ c :: b) = count sub a + count sub (c :: b).
Proof.
  intros Hc. unfold count. rewrite count_from_app; [done|].
  intros a' Ha. by apply startswith_app_other.
Qed.

Lemma odd_succ_even (n : nat) : Nat.odd n = true -> Nat.even (n + 1) = true.
Proof.
  intros H. rewrite Nat.add_1_r, Nat.even_succ. exact H.
Qed.

Lemma close_if_odd_single_even (c : N) (text : list N) :
  Nat.even (count [c] (close_if_odd [c] [c] text)) = true.
Proof.
  unfold close_if_odd. destruct (Nat.odd (count [c] text)) eqn:Hodd.
  - rewrite count_single_app.
    replace (count [c] [c]) with 1 by (simpl; unfold count; simpl; by rewrite N.eqb_refl).
    by apply odd_succ_even.
  - by rewrite <- Nat.negb_odd, Hodd.
Qed.

(** After the four repairs the fence, the underscore and the asterisk each
    occur an even number of times. *)
Lemma repaired_text_has_even_markers (text : list N) :
  Nat.even (count FENCE (repair_markup text)) = true /\
  Nat.even (count UNDERSCORE (repair_markup text)) = true /\
  Nat.even (count STAR (repair_markup text)) = true.
Proof.
  unfold repair_markup.
  set (t1 := close_if_odd FENCE NL_FENCE text).
  set (t2 := close_if_odd BOLD BOLD t1).
  set (t3 := close_if_odd UNDERSCORE UNDERSCORE t2).
  assert (Hfence : forall c, c <> 96%N -> c ∉ FENCE).
  { intros c Hc. change FENCE with [96%N; 96%N; 96%N].
    rewrite !not_elem_of_cons. repeat split; try done. apply not_elem_of_nil. }
  assert (H1 : Nat.even (count FENCE t1) = true).
  { unfold t1, close_if_odd. destruct (Nat.odd (count FENCE text)) eqn:Hodd.
    - change NL_FENCE with (10%N :: FENCE).
      rewrite count_app_other by (by apply Hfence).
      change (count FENCE (10%N :: FENCE)) with 1. by apply odd_succ_even.
    - by rewrite <- Nat.negb_odd, Hodd. }
  assert (H2 : count FENCE t2 = count FENCE t1).
  { unfold t2, close_if_odd. destruct (Nat.odd _); [|done].
    change BOLD with [42%N; 42%N].
    rewrite count_app_other by (by apply Hfence).
    change (count FENCE [42%N; 42%N]) with 0. lia. }
  assert (H3 : count FENCE t3 = count FENCE t2).
  { unfold t3, close_if_odd. destruct (Nat.odd _); [|done].
    change UNDERSCORE with [95%N].
    rewrite count_app_other by (by apply Hfence).
    change (count FENCE [95%N]) with 0. lia. }
  repeat split.
  - unfold close_if_odd at 1. destruct (Nat.odd _).
    + change STAR with [42%N].
      rewrite count_app_other by (by apply Hfence).
      change (count FENCE [42%N]) with 0. rewrite Nat.add_0_r. by rewrite H3, H2.
    + by rewrite H3, H2.
  - unfold close_if_odd at 1. destruct (Nat.odd _).
    + change STAR with [42%N]. change UNDERSCORE with [95%N].
      rewrite count_single_app.
      change (count [95%N] [42%N]) with 0. rewrite Nat.add_0_r.
      apply (close_if_odd_single_even 95%N).
    + apply (close_if_odd_single_even 95%N).
  - apply (close_if_odd_single_even 42%N).
Qed.

Lemma close_if_odd_grows (marker closer text : list N) :
  exists suffix, close_if_odd marker closer text = text ++ suffix /\
                 length suffix <= length closer.
Proof.
  unfold close_if_odd. destruct (Nat.odd _).
  - by exists closer.
  - exists []. split; [by rewrite app_nil_r | simpl; lia].
Qed.

Lemma repair_markup_grows (text : list N) :
  exists suffix, repair_markup text = text ++ suffix /\ length suffix <= 8.
Proof.
  unfold repair_markup.
  destruct (close_if_odd_grows FENCE NL_FENCE text) as (s1 & -> & H1).
  destruct (close_if_odd_grows BOLD BOLD (text ++ s1)) as (s2 & -> & H2).
  destruct (close_if_odd_grows UNDERSCORE UNDERSCORE ((text ++ s1) ++ s2)) as (s3 & -> & H3).
  destruct (close_if_odd_grows STAR STAR (((text ++ s1) ++ s2) ++ s3)) as (s4 & -> & H4).
  exists (s1 ++ s2 ++ s3 ++ s4). split; [by rewrite <- !app_assoc|].
  rewrite !length_app.
  change (length NL_FENCE) with 4 in H1. change (length BOLD) with 2 in H2.
  change (length UNDERSCORE) with 1 in H3. change (length STAR) with 1 in H4. lia.
Qed.

(** X10. [clean_markdown] never rewrites what it is given: its result is the
    text followed by at most eight closing characters, cut to 4000
    characters. *)
Theorem clean_markdown_only_appends_and_cuts (text : list N) :
  exists suffix,
    length suffix <= 8 /\
    clean_markdown (Some text) = Some (take 4000 (text ++ suffix)).
Proof.
  destruct text as [|c t].
  - exists []. split; [simpl; lia | reflexivity].
  - destruct (repair_markup_grows (c :: t)) as (suffix & Hrepair & Hlen).
    exists suffix. split; [done|]. unfold clean_markdown. by rewrite Hrepair.
Qed.

(** X11. A text in which the fence, the bold marker, the underscore and the
    asterisk each occur an even number of times gets no closing marker: it
    comes back cut to 4000 characters, and unchanged when it is no longer
    than that. *)
Theorem clean_markdown_keeps_balanced_text (text : list N) :
  Nat.even (count FENCE text) = true ->
  Nat.even (count BOLD text) = true ->
  Nat.even (count UNDERSCORE text) = true ->
  Nat.even (count STAR text) = true ->
  clean_markdown (Some text) = Some (take 4000 text) /\
  (length text <= 4000 -> clean_markdown (Some text) = Some text).
Proof.
  intros Hf Hb Hu Hs.
  assert (Hclean : clean_markdown (Some text) = Some (take 4000 text)).
  { destruct text as [|c t]; [done|].
    unfold clean_markdown, repair_markup, close_if_odd.
    rewrite <- !Nat.negb_even, Hf. simpl negb. cbv iota.
    rewrite Hb. simpl negb. cbv iota. rewrite Hu. simpl negb. cbv iota.
    by rewrite Hs. }
  split; [done|]. intros Hlen. rewrite Hclean. by rewrite take_ge.
Qed.

Lemma clean_markdown_keeps_balanced_text_witness :
  clean_markdown (Some (lit "a *b* c")) = Some (take 4000 (lit "a *b* c")) /\
  (length (lit "a *b* c") <= 4000 -> clean_markdown (Some (lit "a *b* c")) = Some (lit "a *b* c")).
Proof.
  apply (clean_markdown_keeps_balanced_text (lit "a *b* c")); reflexivity.
Defined.

(** X12. When the text leaves room for the closing markers (at most 3992
    characters), the result has an even number of code fences, of
    underscores and of asterisks. *)
Theorem clean_markdown_balances_markers (text out : list N) :
  length text + 8 <= 4000 ->
  clean_markdown (Some text) = Some out ->
  Nat.even (count FENCE out) = true /\
  Nat.even (count UNDERSCORE out) = true /\
  Nat.even (count STAR out) = true.
Proof.
  intros Hlen Hout.
  destruct text as [|c t].
  - injection Hout as <-. done.
  - unfold clean_markdown in Hout. injection Hout as <-.
    destruct (repair_markup_grows (c :: t)) as (suffix & Hrepair & Hsuffix).
    rewrite take_ge.
    + apply repaired_text_has_even_markers.
    + rewrite Hrepair, length_app. lia.
Qed.

Lemma clean_markdown_balances_markers_witness :
  Nat.even (count FENCE (lit "```py_*x" ++ NL_FENCE ++ lit "_*")) = true /\
  Nat.even (count UNDERSCORE (lit "```py_*x" ++ NL_FENCE ++ lit "_*")) = true /\
  Nat.even (count STAR (lit "```py_*x" ++ NL_FENCE ++ lit "_*")) = true.
Proof.
  apply (clean_markdown_balances_markers (lit "```py_*x") (lit "```py_*x" ++ NL_FENCE ++ lit "_*")).
  - simpl. lia.
  - reflexivity.
Defined.

(** The bold marker is not covered: closing a single asterisk makes a bold
    marker that stays open. *)
Example lone_star_becomes_open_bold :
  clean_markdown (Some (lit "*")) = Some (lit "**") /\ count BOLD (lit "**") = 1.
Proof. done. Qed.

(* ===================================================================== *)
(** ** Sending, and which provider is asked *)
(* ===================================================================== *)

(** X13. [safe_send_message] never raises and sends at most twice: once as
    given, and, only when that send raised, once more with the markup
    characters removed; it returns the id of the send that went through and
    None when both raised. *)
Theorem safe_send_message_tries_twice_at_most (E : env) (w : world) (chat : Z)
    (text : option message_text) :
  exists r evs,
    safe_send_message E chat text w = (Ok r, log_events evs w) /\
    match tg_send_message E chat text, text with
    | Returned id, _ => r = id /\ evs = [SendMessage chat text]
    | Raised, None => r = None /\ evs = [SendMessage chat None]
    | Raised, Some t =>
        evs = [SendMessage chat (Some t); SendMessage chat (Some (Plain t))] /\
        r = match tg_send_message E chat (Some (Plain t)) with
            | Returned id => id
            | Raised => None
            end
    end.
Proof.
  unfold safe_send_message, try_except, send_message, to_plain, call, raise,
    mbind, M_bind, bind, ret.
  destruct (tg_send_message E chat text) as [id|].
  - by exists id, [SendMessage chat text].
  - destruct text as [t|].
    + destruct (tg_send_message E chat (Some (Plain t))) as [id|]; eexists _, [_; _];
        by rewrite !log_event_events, log_events_app.
    + by exists None, [SendMessage chat None].
Qed.

Lemma try_hugging_face_spec E clean_prompt w :
  exists r evs,
    try_hugging_face E clean_prompt w = (Ok r, log_events evs w) /\
    Forall (is_request_of FLUX) evs.
Proof.
  unfold try_hugging_face, request, try_except, call, mbind, M_bind, bind, ret.
  destruct (http E HfApi clean_prompt) as [r|].
  - destruct (status_code r =? 200)%Z.
    + destruct (contains _ _); eexists _, [_];
        (split; [reflexivity | by repeat constructor]).
    + destruct (status_code r =? 410)%Z.
      * destruct (http E HfRouter clean_prompt) as [r'|].
        -- destruct (status_code r' =? 200)%Z; eexists _, [_; _];
             (split; [by rewrite !log_event_events, log_events_app | by repeat constructor]).
        -- eexists _, [_; _].
           split; [by rewrite !log_event_events, log_events_app | by repeat constructor].
      * eexists _, [_]. split; [reflexivity | by repeat constructor].
  - eexists _, [_]. split; [reflexivity | by repeat constructor].
Qed.

Lemma try_pollinations_spec E clean_prompt w :
  exists r evs,
    try_pollinations E clean_prompt w = (Ok r, log_events evs w) /\
    Forall (is_request_of POLLINATIONS) evs.
Proof.
  unfold try_pollinations, request, try_except, call, mbind, M_bind, bind, ret.
  destruct (http E Pollinations clean_prompt) as [r|].
  - destruct (status_code r =? 200)%Z; [destruct (contains _ _)|]; eexists _, [_];
      (split; [reflexivity | by repeat constructor]).
  - eexists _, [_]. split; [reflexivity | by repeat constructor].
Qed.

Lemma try_creative_spec E clean_prompt w :
  exists r,
    try_creative E clean_prompt w
    = (Ok r, log_events [ImageRequest (PollinationsStyled (random_choice E styles))
                           clean_prompt] w).
Proof.
  unfold try_creative, request, try_except, call, mbind, M_bind, bind, ret. cbv zeta.
  destruct (http E _ clean_prompt) as [r|].
  - destruct (status_code r =? 200)%Z; by eexists.
  - by eexists.
Qed.

(** X14. When a specific image model is chosen, only that model's provider
    is asked (the primary one possibly at both of its addresses) and the
    result is an image or nothing, never the text description of the
    automatic mode. *)
Theorem specific_mode_asks_one_provider (E : env) (w : world) (prompt mode : list N) :
  mode ∈ [FLUX; POLLINATIONS; CREATIVE] ->
  exists r evs,
    generate E prompt mode w = (Ok r, log_events evs w) /\
    Forall (is_request_of mode) evs /\
    (forall p, r <> TextPayload p).
Proof.
  intros Hmode. unfold generate.
  destruct (strip prompt) as [|c cp] eqn:Hstrip.
  { exists NoResult, []. by rewrite log_events_nil. }
  set (clean := c :: cp).
  rewrite !elem_of_cons in Hmode.
  destruct Hmode as [-> | [-> | [-> | Hnil]]]; [| | |by apply elem_of_nil in Hnil].
  - destruct (try_hugging_face_spec E clean w) as (r & evs & Hrun & Hevs).
    exists (match r with Some b => ImageBytes b | None => NoResult end), evs.
    split; [|split; [done | by destruct r]].
    apply try_ok. unfold or_else.
    change (is_one_of FLUX AUTO FLUX) with true.
    change (is_one_of FLUX AUTO POLLINATIONS) with false.
    change (is_one_of FLUX AUTO CREATIVE) with false.
    change (str_eqb FLUX AUTO) with false. cbv iota.
    erewrite bind_ok by exact Hrun. by destruct r.
  - destruct (try_pollinations_spec E clean w) as (r & evs & Hrun & Hevs).
    exists (match r with Some b => ImageBytes b | None => NoResult end), evs.
    split; [|split; [done | by destruct r]].
    apply try_ok. unfold or_else.
    change (is_one_of POLLINATIONS AUTO FLUX) with false.
    change (is_one_of POLLINATIONS AUTO POLLINATIONS) with true.
    change (is_one_of POLLINATIONS AUTO CREATIVE) with false.
    change (str_eqb POLLINATIONS AUTO) with false. cbv iota.
    erewrite bind_ok by exact Hrun. by destruct r.
  - destruct (try_creative_spec E clean w) as (r & Hrun).
    exists (match r with Some b => ImageBytes b | None => NoResult end),
      [ImageRequest (PollinationsStyled (random_choice E styles)) clean].
    split; [|split; [by repeat constructor | by destruct r]].
    apply try_ok. unfold or_else.
    change (is_one_of CREATIVE AUTO FLUX) with false.
    change (is_one_of CREATIVE AUTO POLLINATIONS) with false.
    change (is_one_of CREATIVE AUTO CREATIVE) with true.
    change (str_eqb CREATIVE AUTO) with false. cbv iota.
    erewrite bind_ok by exact Hrun. by destruct r.
Qed.

Lemma specific_mode_asks_one_provider_witness :
  exists r evs,
    generate Sample.providers_html (lit "a cat") POLLINATIONS Sample.fresh
    = (Ok r, log_events evs Sample.fresh) /\
    Forall (is_request_of POLLINATIONS) evs /\
    (forall p, r <> TextPayload p).
Proof.
  apply (specific_mode_asks_one_provider Sample.providers_html Sample.fresh (lit "a cat")
           POLLINATIONS).
  apply list_elem_of_further, list_elem_of_here.
Defined.

(** X15. In the automatic mode the chain stops at the first success: when
    the primary provider answers 200 with an image content type, its bytes
    are the result and no other provider is asked. *)
Theorem first_success_ends_the_chain (E : env) (w : world) (prompt : list N) (r : response) :
  strip prompt <> [] ->
  http E HfApi (strip prompt) = Returned r ->
  status_code r = 200%Z ->
  contains (lit "image") (default [] (content_type r)) = true ->
  generate E prompt AUTO w
  = (Ok (ImageBytes (content r)), log_events [ImageRequest HfApi (strip prompt)] w).
Proof.
  intros Hprompt Hr Hstatus Himage. unfold generate.
  destruct (strip prompt) as [|c cp] eqn:Hstrip; [done|].
  apply try_ok. unfold or_else.
  change (is_one_of AUTO AUTO FLUX) with true. cbv iota.
  assert (Hrun : try_hugging_face E (c :: cp) w
                 = (Ok (Some (content r)), log_events [ImageRequest HfApi (c :: cp)] w)).
  { unfold try_hugging_face, request, try_except, call, mbind, M_bind, bind, ret.
    by rewrite Hr, Hstatus, Himage. }
  by erewrite bind_ok by exact Hrun.
Qed.

Lemma first_success_ends_the_chain_witness :
  generate Sample.healthy (lit " a cat ") AUTO Sample.fresh
  = (Ok (ImageBytes (content Sample.image_response)),
     log_events [ImageRequest HfApi (strip (lit " a cat "))] Sample.fresh).
Proof.
  apply (first_success_ends_the_chain Sample.healthy Sample.fresh (lit " a cat ")
           Sample.image_response).
  - discriminate.
  - reflexivity.
  - reflexivity.
  - reflexivity.
Defined.

(** X16. A mode that is none of auto, flux, pollinations, creative asks no
    provider at all and yields nothing. *)
Theorem unknown_mode_asks_nobody (E : env) (w : world) (prompt mode : list N) :
  mode ∉ [AUTO; FLUX; POLLINATIONS; CREATIVE] ->
  generate E prompt mode w = (Ok NoResult, w).
Proof.
  intros Hmode. rewrite !not_elem_of_cons in Hmode.
  destruct Hmode as (Ha & Hf & Hp & Hc & _).
  apply str_eqb_neq in Ha, Hf, Hp, Hc.
  unfold generate. destruct (strip prompt); [done|].
  unfold or_else, is_one_of. by rewrite Ha, Hf, Hp, Hc.
Qed.

Lemma unknown_mode_asks_nobody_witness :
  generate Sample.healthy (lit "a cat") (lit "dalle") Sample.fresh = (Ok NoResult, Sample.fresh).
Proof.
  apply (unknown_mode_asks_nobody Sample.healthy Sample.fresh (lit "a cat") (lit "dalle")).
  rewrite !not_elem_of_cons. repeat split; try discriminate. apply not_elem_of_nil.
Defined.

(** X17. When the primary provider answers 410, the same prompt is posted
    once to its router address, and a 200 from there is taken as the image
    whatever its content type; nothing else is asked in the flux mode. *)
Theorem moved_endpoint_is_retried_once (E : env) (w : world) (prompt : list N)
    (moved : response) :
  strip prompt <> [] ->
  http E HfApi (strip prompt) = Returned moved ->
  status_code moved = 410%Z ->
  generate E prompt FLUX w
  = (Ok match http E HfRouter (strip prompt) with
        | Returned r => if (status_code r =? 200)%Z then ImageBytes (content r) else NoResult
        | Raised => NoResult
        end,
     log_events [ImageRequest HfApi (strip prompt); ImageRequest HfRouter (strip prompt)] w).
Proof.
  intros Hprompt Hmoved Hstatus. unfold generate.
  destruct (strip prompt) as [|c cp] eqn:Hstrip; [done|].
  apply try_ok. unfold or_else.
  change (is_one_of FLUX AUTO FLUX) with true.
  change (is_one_of FLUX AUTO POLLINATIONS) with false.
  change (is_one_of FLUX AUTO CREATIVE) with false.
  change (str_eqb FLUX AUTO) with false. cbv iota.
  unfold try_hugging_face, request, try_except, call, mbind, M_bind, bind, ret.
  rewrite Hmoved, Hstatus. simpl.
  destruct (http E HfRouter (c :: cp)) as [r|].
  - destruct (status_code r =? 200)%Z; by rewrite !log_event_events, log_events_app.
  - by rewrite !log_event_events, log_events_app.
Qed.

Lemma moved_endpoint_is_retried_once_witness :
  generate Scenario.hf_moved (lit "a cat") FLUX Sample.fresh
  = (Ok match http Scenario.hf_moved HfRouter (strip (lit "a cat")) with
        | Returned r => if (status_code r =? 200)%Z then ImageBytes (content r) else NoResult
        | Raised => NoResult
        end,
     log_events [ImageRequest HfApi (strip (lit "a cat"));
                 ImageRequest HfRouter (strip (lit "a cat"))] Sample.fresh).
Proof.
  apply (moved_endpoint_is_retried_once Scenario.hf_moved Sample.fresh (lit "a cat")
           {| status_code := 410; content_type := None; content := [] |}).
  - discriminate.
  - reflexivity.
  - reflexivity.
Defined.

(* ===================================================================== *)
(** ** A chat turn: what it touches and what it leaves *)
(* ===================================================================== *)

#[global] Instance same_metrics_preorder : PreOrder same_metrics.
Proof. split; [done|]. intros x y z Hxy Hyz. unfold same_metrics in *. congruence. Qed.

#[global] Instance others_kept_preorder user_id : PreOrder (others_kept user_id).
Proof.
  split; [done|]. intros x y z Hxy Hyz k Hk. by rewrite (Hyz k Hk), (Hxy k Hk).
Qed.

#[global] Instance keeps_settings_preorder user_id s : PreOrder (keeps_settings user_id s).
Proof.
  split; [by intros w H|]. intros x y z Hxy Hyz H. apply Hyz, Hxy, H.
Qed.

Lemma others_kept_same_memory user_id w w' :
  memory_file w' = memory_file w -> others_kept user_id w w'.
Proof. intros H k _. unfold stored_entry, loaded. by rewrite H. Qed.

Lemma others_kept_log_event user_id e w : others_kept user_id w (log_event e w).
Proof. by apply others_kept_same_memory. Qed.

Lemma others_kept_set_metrics user_id r w : others_kept user_id w (set_metrics r w).
Proof. by apply others_kept_same_memory. Qed.

Lemma keeps_settings_same_memory user_id s w w' :
  memory_file w' = memory_file w -> keeps_settings user_id s w w'.
Proof.
  intros H Hs. unfold stored_settings, stored_entry, loaded in *. by rewrite H.
Qed.

Lemma keeps_settings_log_event user_id s e w : keeps_settings user_id s w (log_event e w).
Proof. by apply keeps_settings_same_memory. Qed.

Lemma keeps_settings_set_metrics user_id s r w : keeps_settings user_id s w (set_metrics r w).
Proof. by apply keeps_settings_same_memory. Qed.

#[global] Hint Resolve others_kept_log_event others_kept_set_metrics
  keeps_settings_log_event keeps_settings_set_metrics : steps.

Lemma save_user_data_others_kept (E : env) (user_id : list N) (user_data : json) :
  memory_write E <> DumpFails ->
  steps_with (others_kept user_id) (save_user_data E user_id user_data).
Proof.
  intros Hwrite w other Hother.
  destruct (loaded w) as [| | | | |d] eqn:Hd.
  1-5: rewrite save_user_data_not_a_dict; [done | intros d; by rewrite Hd].
  rewrite (save_user_data_run E w user_id user_data d Hd).
  destruct (memory_write E); [|done|done].
  unfold stored_entry, loaded. simpl. fold (loaded w). rewrite Hd.
  apply dict_get_set_ne. congruence.
Qed.

#[global] Hint Resolve save_user_data_others_kept : steps.

(** X21. A chat message of one user never changes what is stored for any
    other user, whatever the services answer (short of a dump that fails
    half-way, which empties the file for everybody). *)
Theorem chat_turn_keeps_other_users (E : env) (w : world) (m : message) (other : list N) :
  memory_write E <> DumpFails ->
  other <> str_of_int (chat_id m) ->
  stored_entry (run (handle_all_messages E m) w) other = stored_entry w other.
Proof.
  intros Hwrite Hother.
  assert (H : steps_with (others_kept (str_of_int (chat_id m))) (handle_all_messages E m)).
  { unfold handle_all_messages, save_and_reply. steps. }
  exact (H w other Hother).
Qed.

Lemma chat_turn_keeps_other_users_witness :
  stored_entry (run (handle_all_messages Sample.healthy (Sample.msg (lit "hi you")))
                  Scenario.two_users) (lit "7")
  = stored_entry Scenario.two_users (lit "7").
Proof.
  apply (chat_turn_keeps_other_users Sample.healthy Scenario.two_users
           (Sample.msg (lit "hi you")) (lit "7")).
  - discriminate.
  - discriminate.
Defined.

(** X18. A message without text, with empty text, or starting with a slash
    is skipped by the chat handler: nothing is sent, nothing is called,
    nothing is stored. *)
Theorem commands_and_empty_text_are_skipped (E : env) (w : world) (m : message) :
  match text m with
  | None => True
  | Some t => t = [] \/ startswith (lit "/") t = true
  end ->
  handle_all_messages E m w = (Ok tt, w).
Proof.
  intros Htext. unfold handle_all_messages.
  destruct (text m) as [[|c t]|]; [done | | done].
  destruct Htext as [|Hcmd]; [done|]. by rewrite Hcmd.
Qed.

Lemma commands_and_empty_text_are_skipped_witness :
  handle_all_messages Sample.healthy (Sample.msg (lit "/draw a cat")) Scenario.two_users
  = (Ok tt, Scenario.two_users).
Proof.
  apply (commands_and_empty_text_are_skipped Sample.healthy Scenario.two_users
           (Sample.msg (lit "/draw a cat"))).
  right. reflexivity.
Defined.

Lemma steps_call_raised_bind (R : relation world) {A B} (e : event) (k : A -> M B) :
  (forall w, R w (log_event e w)) -> steps_with R (call e Raised ≫= k).
Proof. intros H w. apply H. Qed.

(** X19. A turn that gets no answer -- no inference credential, or the
    inference call raises -- is not remembered and not counted: the memory
    file and the metrics table are as before. *)
Theorem unanswered_turn_changes_no_store (E : env) (w : world) (m : message) :
  groq_client E = false \/ (forall r, groq_chat E r = Raised) ->
  let w' := run (handle_all_messages E m) w in
  memory_file w' = memory_file w /\ metrics w' = metrics w.
Proof.
  intros Hnone w'.
  assert (H : forall R : relation world, PreOrder R ->
            (forall e w, R w (log_event e w)) ->
            steps_with R (handle_all_messages E m)).
  { intros R HR Hlog. unfold handle_all_messages.
    destruct (text m) as [[|c t]|]; [steps | | steps].
    destruct (startswith _ _); [steps|].
    apply steps_try; [done | | steps; apply Hlog].
    apply steps_bind; [done | steps | intros user_data].
    apply steps_bind; [done | steps | intros history].
    apply steps_bind; [done | steps | intros prior].
    apply steps_bind; [done | apply steps_call, Hlog | intros _].
    apply steps_try; [done | | steps; apply Hlog].
    destruct (groq_client E) eqn:Hclient.
    - destruct Hnone as [|Hraise]; [done|].
      unfold chat. rewrite Hraise. by apply steps_call_raised_bind.
    - steps; apply Hlog. }
  split.
  - by apply (H same_memory _).
  - by apply (H same_metrics _).
Qed.

Lemma unanswered_turn_changes_no_store_witness :
  let w' := run (handle_all_messages Sample.groq_failing (Sample.msg (lit "hi you")))
                Scenario.two_users in
  memory_file w' = memory_file Scenario.two_users /\ metrics w' = metrics Scenario.two_users.
Proof.
  apply (unanswered_turn_changes_no_store Sample.groq_failing Scenario.two_users
           (Sample.msg (lit "hi you"))).
  right. intros r. reflexivity.
Defined.

Lemma save_profile_keeps_settings (E : env) (user_id : list N) (p s : list (list N * json))
    (h : list json) :
  memory_write E <> DumpFails ->
  dict_get (lit "settings") p = Some (JObj s) ->
  steps_with (keeps_settings user_id s)
    (save_user_data E user_id (JObj (dict_set (lit "history") (JList h) p))).
Proof.
  intros Hwrite Hs w Hw.
  destruct (loaded w) as [| | | | |d] eqn:Hd.
  1-5: rewrite save_user_data_not_a_dict; [done | intros d; by rewrite Hd].
  rewrite (save_user_data_run E w user_id _ d Hd).
  destruct (memory_write E); [|done|done].
  unfold stored_settings, stored_entry, loaded. simpl.
  rewrite dict_get_set_eq.
  by rewrite (dict_get_set_ne _ _ _ _ history_is_not_settings), Hs.
Qed.

#[global] Hint Resolve save_profile_keeps_settings : steps.

(** X22. A chat turn rewrites the user's history only: the user's settings
    are the same after the handler as before, whatever path it took. *)
Theorem chat_turn_keeps_settings (E : env) (w : world) (m : message) :
  well_formed_store w ->
  memory_write E <> DumpFails ->
  stored_settings (run (handle_all_messages E m) w) (str_of_int (chat_id m))
  = stored_settings w (str_of_int (chat_id m)).
Proof.
  intros Hstore Hwrite.
  set (uid := str_of_int (chat_id m)).
  set (s := stored_settings w uid).
  destruct (get_user_data_reads_profile w uid Hstore) as (p & Hget & Hhist & Hset).
  fold s in Hset.
  enough (H : keeps_settings uid s w (run (handle_all_messages E m) w)) by by apply H.
  unfold run, handle_all_messages. fold uid.
  destruct (text m) as [[|c t]|]; [by apply (steps_try (keeps_settings uid s)); steps | |
                                   by apply (steps_try (keeps_settings uid s)); steps].
  destruct (startswith (lit "/") (c :: t));
    [by apply (steps_try (keeps_settings uid s)); steps|].
  erewrite try_cong.
  2:{ erewrite bind_ok by exact Hget.
      unfold py_item. rewrite Hhist. erewrite bind_ok by reflexivity.
      unfold py_last. erewrite bind_ok by reflexivity. reflexivity. }
  match goal with
  | |- keeps_settings _ _ _ (snd (?T w)) => assert (HT : steps_with (keeps_settings uid s) T)
  end.
  { unfold save_and_reply. steps. }
  exact (HT w).
Qed.

Lemma chat_turn_keeps_settings_witness :
  stored_settings (run (handle_all_messages Sample.healthy (Sample.msg (lit "hi you")))
                     Scenario.two_users) (str_of_int (chat_id (Sample.msg (lit "hi you"))))
  = stored_settings Scenario.two_users (str_of_int (chat_id (Sample.msg (lit "hi you")))).
Proof.
  apply (chat_turn_keeps_settings Sample.healthy Scenario.two_users (Sample.msg (lit "hi you"))).
  - store_is_well_formed.
  - discriminate.
Defined.

Lemma save_and_reply_run (E : env) (w : world) (m : message) (user_id : list N)
    (p d : list (list N * json)) (h : list json) (user_text reply : list N)
    (content : option (list N)) :
  loaded w = JObj d ->
  clean_markdown content = Some reply ->
  db_available E = true ->
  exists w',
    save_and_reply E m user_id (JObj p) (JList h) user_text content w = (Ok tt, w') /\
    metrics w' = metrics w ++
      [logged_row E user_id (word_count user_text + word_count reply) (lit "chat")].
Proof.
  intros Hd Hreply Hdb. unfold save_and_reply. rewrite Hreply.
  unfold py_extend. erewrite bind_ok by reflexivity.
  unfold py_set_item. erewrite bind_ok by reflexivity.
  erewrite bind_ok by (apply (save_user_data_run E w user_id _ d Hd)).
  match goal with |- context [safe_send_message E ?c ?t ≫= _] =>
    destruct (safe_send_message_spec E c (Reply reply)
                (match memory_write E with
                 | WriteOk => set_memory_file (Document (JObj (dict_set user_id
                     (JObj (dict_set (lit "history") (JList (limit_memory (h ++
                        [turn (lit "user") (Some user_text);
                         turn (lit "assistant") (Some reply)]))) p)) d))) w
                 | OpenFails => w
                 | DumpFails => set_memory_file Unreadable w
                 end)) as (r & evs & Hsend & _)
  end.
  erewrite bind_ok by exact Hsend.
  unfold reply_word_count. erewrite bind_ok by reflexivity.
  unfold log_request. rewrite Hdb. eexists. split; [reflexivity|].
  simpl. by destruct (memory_write E).
Qed.

(** X20. An answered chat turn adds exactly one row to the metrics table:
    type chat, stamped with the current time, with the number of words of
    the message plus the number of words of the cleaned reply as tokens. *)
Theorem answered_turn_is_logged (E : env) (w : world) (m : message)
    (user_text reply : list N) (content : option (list N)) :
  chat_turn E w m user_text ->
  groq_chat E (chat_turn_request (last_n 4 (stored_history w (str_of_int (chat_id m))))
                 user_text) = Returned content ->
  clean_markdown content = Some reply ->
  db_available E = true ->
  metrics (run (handle_all_messages E m) w)
  = metrics w ++
    [logged_row E (str_of_int (chat_id m)) (word_count user_text + word_count reply)
       (lit "chat")].
Proof.
  intros [Htext Hne Hcmd Hstore Htyping Hclient] Hchat Hreply Hdb.
  set (uid := str_of_int (chat_id m)) in *.
  set (h := stored_history w uid) in *.
  destruct (get_user_data_well_formed w uid Hstore) as (p & s & Hget & Hhist & Hset).
  destruct Hstore as (d & Hd & _).
  set (w1 := log_event (GroqChat (chat_turn_request (last_n 4 h) user_text))
               (log_event (SendChatAction (chat_id m) (lit "typing")) w)).
  destruct (save_and_reply_run E w1 m uid p d h user_text reply content Hd Hreply Hdb)
    as (w' & Hrun & Hmetrics).
  unfold run, handle_all_messages. rewrite Htext.
  destruct user_text as [|c t]; [done|]. rewrite Hcmd. fold uid. rewrite Hclient.
  erewrite try_ok; [exact Hmetrics|].
  erewrite bind_ok by exact Hget.
  unfold py_item. rewrite Hhist. fold h.
  erewrite bind_ok by reflexivity.
  unfold py_last. erewrite bind_ok by reflexivity.
  unfold send_chat_action. rewrite Htyping.
  erewrite bind_ok by reflexivity.
  apply try_ok.
  unfold chat. rewrite Hchat. erewrite bind_ok by reflexivity.
  exact Hrun.
Qed.

Lemma answered_turn_is_logged_witness :
  metrics (run (handle_all_messages Sample.healthy (Sample.msg (lit "hi you")))
             Scenario.two_users)
  = metrics Scenario.two_users ++
    [logged_row Sample.healthy (str_of_int (chat_id (Sample.msg (lit "hi you"))))
       (word_count (lit "hi you") + word_count (lit "Sure.")) (lit "chat")].
Proof.
  apply (answered_turn_is_logged Sample.healthy Scenario.two_users (Sample.msg (lit "hi you"))
           (lit "hi you") (lit "Sure.") (Some (lit "Sure."))).
  - split; try done. store_is_well_formed.
  - reflexivity.
  - reflexivity.
  - reflexivity.
Defined.

(* ===================================================================== *)
(** ** What the command handlers add to the metrics table *)
(* ===================================================================== *)

Section Completes.
Context (R : relation world) `{!PreOrder R}.

Lemma completes_ret {A} (a : A) : completes R (ret a).
Proof. intros w. by exists a, w. Qed.

Lemma completes_bind {A B} (m : M A) (k : A -> M B) :
  completes R m -> (forall a, completes R (k a)) -> completes R (m ≫= k).
Proof.
  intros Hm Hk w. destruct (Hm w) as (a & w1 & Hrun & H1).
  destruct (Hk a w1) as (b & w2 & Hrun2 & H2).
  exists b, w2. split; [by rewrite (bind_ok _ _ _ _ _ Hrun) | by etransitivity].
Qed.

Lemma completes_try {A} (m h : M A) :
  steps_with R m -> completes R h -> completes R (try_except m h).
Proof.
  intros Hm Hh w. unfold try_except. specialize (Hm w).
  destruct (m w) as [[a|] w1]; simpl in Hm.
  - by exists a, w1.
  - destruct (Hh w1) as (b & w2 & Hrun & H2). exists b, w2.
    split; [done | by etransitivity].
Qed.
End Completes.

Lemma log_events_same_metrics evs w : same_metrics w (log_events evs w).
Proof. done. Qed.

Lemma reply_to_completes E m t : completes same_metrics (reply_to E m t).
Proof.
  intros w. destruct (reply_to_spec E m t w) as (evs & Hrun & _).
  by exists tt, (log_events evs w).
Qed.

Lemma safe_send_message_completes E chat t :
  completes same_metrics (safe_send_message E chat (Some t)).
Proof.
  intros w. destruct (safe_send_message_spec E chat t w) as (r & evs & Hrun & _).
  by exists r, (log_events evs w).
Qed.

Lemma delete_thinking_completes E chat thinking :
  completes same_metrics (delete_thinking E chat thinking).
Proof.
  unfold delete_thinking. destruct thinking.
  - apply (completes_try same_metrics); [steps | apply (completes_ret same_metrics)].
  - apply (completes_ret same_metrics).
Qed.

Lemma generate_completes E prompt mode : completes same_metrics (generate E prompt mode).
Proof.
  unfold generate. apply (completes_try same_metrics); [| apply (completes_ret same_metrics)].
  unfold or_else, try_hugging_face, try_pollinations, try_creative, text_fallback.
  steps.
Qed.

(** After a step that always returns and leaves the metrics alone,
    [log_request] adds its row. *)
Lemma logged_after {A} (E : env) (m : M A) (user_id : list N) (tokens : Z)
    (request_type : list N) (w : world) :
  completes same_metrics m ->
  db_available E = true ->
  exists w',
    (m ≫= fun _ => log_request E user_id tokens request_type) w = (Ok tt, w') /\
    metrics w' = metrics w ++ [logged_row E user_id tokens request_type].
Proof.
  intros Hm Hdb. destruct (Hm w) as (a & w1 & Hrun & Hsame).
  eexists. split.
  - erewrite bind_ok by exact Hrun. unfold log_request. rewrite Hdb. reflexivity.
  - simpl. by rewrite Hsame.
Qed.

(** X24. An image command with a prompt is counted once whatever comes back
    -- an image, the text description, nothing, or a photo that could not be
    sent: one row of type image_gen_<model> with the number of words of the
    prompt as tokens. *)
Theorem image_request_is_logged_whatever_comes_back (E : env) (w : world) (m : message)
    (model prompt : list N) :
  model <> [] ->
  command_argument (text m) = Some prompt ->
  db_available E = true ->
  metrics (run (process_image_generation E m (Some model)) w)
  = metrics w ++
    [logged_row E (str_of_int (chat_id m)) (word_count prompt) (lit "image_gen_" ++ model)].
Proof.
  intros Hmodel Hprompt Hdb.
  destruct model as [|c model]; [done|]. set (mode := c :: model).
  unfold run, process_image_generation. rewrite Hprompt. cbv zeta.
  destruct (safe_send_message_spec E (chat_id m) (ImageCreating mode (take 60 prompt)) w)
    as (thinking & evs & Hsend & _).
  erewrite bind_ok.
  2:{ apply try_ok. unfold model_or. erewrite bind_ok by reflexivity.
      unfold as_str. erewrite bind_ok by reflexivity.
      erewrite bind_ok by exact Hsend. reflexivity. }
  cbv iota beta.
  match goal with
  | |- context [try_except (?G ≫= ?K) ?H] =>
      assert (Hbody : completes same_metrics
                (G ≫= fun result =>
                 delete_thinking E (chat_id m) thinking ≫= fun _ =>
                 match result with
                 | TextPayload p => reply_to E m (ImageConcept p mode)
                 | ImageBytes [] | NoResult => reply_to E m ImageGenerationFailed
                 | ImageBytes ((_ :: _) as b) =>
                     try_except
                       (send_photo E (chat_id m) b (ImageCaption mode prompt (now E)))
                       (reply_to E m ImageSendFailed)
                 end))
  end.
  { apply (completes_bind same_metrics); [apply generate_completes | intros result].
    apply (completes_bind same_metrics); [apply delete_thinking_completes | intros _].
    destruct result as [|[|b0 b]|p]; try apply reply_to_completes.
    apply (completes_try same_metrics); [unfold send_photo; steps | apply reply_to_completes]. }
  destruct (logged_after E _ (str_of_int (chat_id m)) (word_count prompt)
              (lit "image_gen_" ++ mode) (log_events evs w) Hbody Hdb)
    as (w' & Hrun & Hmetrics).
  erewrite try_ok; [exact Hmetrics|].
  rewrite <- Hrun.
  unfold mbind, M_bind, bind.
  destruct (generate E prompt mode (log_events evs w)) as [[result|] w1]; [|done].
  destruct (delete_thinking E (chat_id m) thinking w1) as [[[]|] w2]; [|done].
  reflexivity.
Qed.

Lemma image_request_is_logged_whatever_comes_back_witness :
  metrics (run (process_image_generation Sample.all_down (Sample.msg (lit "/flux a red cat"))
                  (Some FLUX)) Scenario.two_users)
  = metrics Scenario.two_users ++
    [logged_row Sample.all_down (str_of_int (chat_id (Sample.msg (lit "/flux a red cat"))))
       (word_count (lit "a red cat")) (lit "image_gen_" ++ FLUX)].
Proof.
  apply (image_request_is_logged_whatever_comes_back Sample.all_down Scenario.two_users
           (Sample.msg (lit "/flux a red cat")) FLUX (lit "a red cat")).
  - discriminate.
  - reflexivity.
  - reflexivity.
Defined.

(** X23. A search with a query is counted once, as 30 tokens per word of
    the query, also when the inference call raised and only the apology was
    sent; it is not counted when no inference credential is configured. *)
Theorem search_is_logged_unless_unconfigured (E : env) (w : world) (m : message)
    (query : list N) :
  command_argument (text m) = Some query ->
  tg_send_chat_action E (chat_id m) = Returned tt ->
  db_available E = true ->
  metrics (run (handle_search E m) w)
  = if groq_client E
    then metrics w ++
         [logged_row E (str_of_int (chat_id m)) (word_count query * 30) (lit "search")]
    else metrics w.
Proof.
  intros Hquery Htyping Hdb.
  unfold run, handle_search. rewrite Hquery.
  set (w0 := log_event (SendChatAction (chat_id m) (lit "typing")) w).
  assert (Hinner : exists w1,
    try_except
      (if groq_client E then
         chat E (single_turn_request (search_prompt query) 7 500) ≫= fun content =>
         reply_to E m (SearchResults query (clean_markdown content)) ≫= fun _ => ret true
       else reply_to E m (BackendNotConfigured SearchFeature) ≫= fun _ => ret false)
      (reply_to E m (SearchApology query) ≫= fun _ => ret true) w0
    = (Ok (groq_client E), w1) /\ metrics w1 = metrics w).
  { destruct (groq_client E).
    - unfold chat, call.
      destruct (groq_chat E _) as [content|].
      + destruct (reply_to_spec E m (SearchResults query (clean_markdown content))
                    (log_event (GroqChat (single_turn_request (search_prompt query) 7 500)) w0))
          as (evs & Hreply & _).
        eexists. split; [|shelve]. apply try_ok.
        erewrite bind_ok by reflexivity. erewrite bind_ok by exact Hreply. reflexivity.
      + destruct (reply_to_spec E m (SearchApology query)
                    (log_event (GroqChat (single_turn_request (search_prompt query) 7 500)) w0))
          as (evs & Hreply & _).
        eexists. split; [|shelve]. erewrite try_exc by reflexivity.
        erewrite bind_ok by exact Hreply. reflexivity.
    - destruct (reply_to_spec E m (BackendNotConfigured SearchFeature) w0)
        as (evs & Hreply & _).
      eexists. split; [|shelve]. apply try_ok.
      erewrite bind_ok by exact Hreply. reflexivity.
      Unshelve. all: done. }
  destruct Hinner as (w1 & Hinner & Hmetrics).
  destruct (groq_client E).
  - erewrite try_ok; cycle 1.
    { unfold send_chat_action. rewrite Htyping. erewrite bind_ok by reflexivity.
      erewrite bind_ok by exact Hinner.
      unfold log_request. rewrite Hdb. reflexivity. }
    simpl. by rewrite Hmetrics.
  - erewrite try_ok; cycle 1.
    { unfold send_chat_action. rewrite Htyping. erewrite bind_ok by reflexivity.
      erewrite bind_ok by exact Hinner. reflexivity. }
    done.
Qed.

Lemma search_is_logged_unless_unconfigured_witness :
  metrics (run (handle_search Sample.groq_failing (Sample.msg (lit "/search rocq prover")))
             Scenario.two_users)
  = if groq_client Sample.groq_failing
    then metrics Scenario.two_users ++
         [logged_row Sample.groq_failing
            (str_of_int (chat_id (Sample.msg (lit "/search rocq prover"))))
            (word_count (lit "rocq prover") * 30) (lit "search")]
    else metrics Scenario.two_users.
Proof.
  apply (search_is_logged_unless_unconfigured Sample.groq_failing Scenario.two_users
           (Sample.msg (lit "/search rocq prover")) (lit "rocq prover")).
  - reflexivity.
  - reflexivity.
  - reflexivity.
Defined.

(* ===================================================================== *)
(** ** Voice messages *)
(* ===================================================================== *)

(** The chat handler always returns. *)
Lemma handle_all_messages_returns E m w :
  exists w', handle_all_messages E m w = (Ok tt, w').
Proof.
  unfold handle_all_messages. unfold try_except at 1.
  destruct (_ w) as [[[]|] w1]; [by eexists|].
  unfold try_except.
  destruct (reply_to_spec E m ChatTryAgain w1) as (evs & -> & _). by eexists.
Qed.

(** X25. A voice message that is transcribed to a non-blank text is handled
    exactly as if the user had typed the transcript: after the transcript
    has been echoed to the user, the chat handler runs on the same message
    with the transcript as its text.  Up to that point nothing is stored or
    counted and the temporary clip is gone from the disk. *)
Theorem transcript_is_handled_as_typed_text (E : env) (w : world) (m : message)
    (file_path : list N) (audio : list Byte.byte) (transcription : list N) :
  tg_send_chat_action E (chat_id m) = Returned tt ->
  tg_get_file E (voice_file_id m) = Returned file_path ->
  tg_download_file E file_path = Returned audio ->
  groq_client E = true ->
  groq_transcribe E (temp_filename E m) audio = Returned transcription ->
  strip transcription <> [] ->
  exists w1,
    handle_voice E m w = handle_all_messages E (with_text m transcription) w1 /\
    SendMessage (chat_id m) (Some (VoiceTranscribed transcription)) ∈ sent w1 /\
    memory_file w1 = memory_file w /\
    metrics w1 = metrics w /\
    disk w1 !! temp_filename E m = None.
Proof.
  intros Hact Hfile Hdown Hclient Htext Hblank.
  set (name := temp_filename E m) in *.
  set (w1 := log_event (DownloadFile file_path)
               (log_event (GetFile (voice_file_id m))
                  (log_event (SendChatAction (chat_id m) (lit "upload_document")) w))).
  set (w2 := set_disk (<[name := audio]> (disk w1)) w1).
  set (w3 := log_event (GroqTranscribe name audio) w2).
  set (w4 := set_disk (delete name (disk w3)) w3).
  destruct (reply_to_spec E m (VoiceTranscribed transcription) w4) as (evs & Hreply & Hevs).
  exists (log_events evs w4). split; [|split; [|split; [|split]]].
  - destruct (handle_all_messages_returns E (with_text m transcription) (log_events evs w4))
      as [w' Hrun].
    rewrite Hrun. unfold handle_voice. cbv zeta. rewrite Hclient. fold name.
    apply try_ok.
    unfold send_chat_action. rewrite Hact. erewrite bind_ok by reflexivity.
    rewrite Hfile. erewrite bind_ok by reflexivity.
    rewrite Hdown. erewrite bind_ok by reflexivity.
    erewrite bind_ok by reflexivity.
    rewrite Htext. erewrite bind_ok by reflexivity.
    erewrite bind_ok.
    2:{ unfold remove_file, get_world. erewrite bind_ok by reflexivity.
        cbn [disk log_event set_disk]. rewrite lookup_insert_eq. reflexivity. }
    destruct (strip transcription) as [|c t]; [done|].
    erewrite bind_ok by exact Hreply. exact Hrun.
  - simpl. rewrite elem_of_app. right. destruct Hevs as [-> | ->]; set_solver.
  - done.
  - done.
  - simpl. apply lookup_delete_eq.
Qed.

Lemma transcript_is_handled_as_typed_text_witness :
  exists w1,
    handle_voice Sample.healthy Scenario.voice_note Scenario.two_users
    = handle_all_messages Sample.healthy
        (with_text Scenario.voice_note (lit "hello there")) w1 /\
    SendMessage (chat_id Scenario.voice_note) (Some (VoiceTranscribed (lit "hello there")))
      ∈ sent w1 /\
    memory_file w1 = memory_file Scenario.two_users /\
    metrics w1 = metrics Scenario.two_users /\
    disk w1 !! temp_filename Sample.healthy Scenario.voice_note = None.
Proof.
  apply (transcript_is_handled_as_typed_text Sample.healthy Scenario.two_users
           Scenario.voice_note (lit "voice/file_1.oga")
           [Byte.x4f; Byte.x67; Byte.x67; Byte.x53] (lit "hello there")).
  - reflexivity.
  - reflexivity.
  - reflexivity.
  - reflexivity.
  - reflexivity.
  - discriminate.
Defined.

(** X26. A transcript that is empty or only white space ends the handling:
    the user is asked to try again, no chat completion is requested, nothing
    is stored or counted, and the temporary clip is gone from the disk. *)
Theorem blank_transcript_ends_the_handling (E : env) (w : world) (m : message)
    (file_path : list N) (audio : list Byte.byte) (transcription : list N) :
  tg_send_chat_action E (chat_id m) = Returned tt ->
  tg_get_file E (voice_file_id m) = Returned file_path ->
  tg_download_file E file_path = Returned audio ->
  groq_client E = true ->
  groq_transcribe E (temp_filename E m) audio = Returned transcription ->
  strip transcription = [] ->
  let w' := run (handle_voice E m) w in
  List.filter is_chat_call (events_of (handle_voice E m) w) = [] /\
  SendMessage (chat_id m) (Some VoiceUnclear) ∈ sent w' /\
  memory_file w' = memory_file w /\
  metrics w' = metrics w /\
  disk w' !! temp_filename E m = None.
Proof.
  intros Hact Hfile Hdown Hclient Htext Hblank w'.
  set (name := temp_filename E m) in *.
  set (w1 := log_event (DownloadFile file_path)
               (log_event (GetFile (voice_file_id m))
                  (log_event (SendChatAction (chat_id m) (lit "upload_document")) w))).
  set (w2 := set_disk (<[name := audio]> (disk w1)) w1).
  set (w3 := log_event (GroqTranscribe name audio) w2).
  set (w4 := set_disk (delete name (disk w3)) w3).
  destruct (reply_to_spec E m VoiceUnclear w4) as (evs & Hreply & Hevs).
  assert (Hrun : handle_voice E m w = (Ok tt, log_events evs w4)).
  { unfold handle_voice. cbv zeta. rewrite Hclient. fold name.
    apply try_ok.
    unfold send_chat_action. rewrite Hact. erewrite bind_ok by reflexivity.
    rewrite Hfile. erewrite bind_ok by reflexivity.
    rewrite Hdown. erewrite bind_ok by reflexivity.
    erewrite bind_ok by reflexivity.
    rewrite Htext. erewrite bind_ok by reflexivity.
    erewrite bind_ok.
    2:{ unfold remove_file, get_world. erewrite bind_ok by reflexivity.
        cbn [disk log_event set_disk]. rewrite lookup_insert_eq. reflexivity. }
    rewrite Hblank. exact Hreply. }
  subst w'. unfold events_of, run. rewrite Hrun. simpl.
  split; [|split; [|split; [|split]]].
  - rewrite <- !app_assoc, drop_app_length. destruct Hevs as [-> | ->]; reflexivity.
  - rewrite elem_of_app. right. destruct Hevs as [-> | ->]; set_solver.
  - done.
  - done.
  - apply lookup_delete_eq.
Qed.

Lemma blank_transcript_ends_the_handling_witness :
  let w' := run (handle_voice Scenario.silent_audio Scenario.voice_note) Scenario.two_users in
  List.filter is_chat_call
    (events_of (handle_voice Scenario.silent_audio Scenario.voice_note) Scenario.two_users)
  = [] /\
  SendMessage (chat_id Scenario.voice_note) (Some VoiceUnclear) ∈ sent w' /\
  memory_file w' = memory_file Scenario.two_users /\
  metrics w' = metrics Scenario.two_users /\
  disk w' !! temp_filename Scenario.silent_audio Scenario.voice_note = None.
Proof.
  apply (blank_transcript_ends_the_handling Scenario.silent_audio Scenario.two_users
           Scenario.voice_note (lit "voice/file_1.oga")
           [Byte.x4f; Byte.x67; Byte.x67; Byte.x53] (lit "  ")).
  - reflexivity.
  - reflexivity.
  - reflexivity.
  - reflexivity.
  - reflexivity.
  - reflexivity.
Defined.

(** X27. Without BOT_TOKEN the stand-in bot raises on get_file, so a voice
    message is never downloaded, written to disk or transcribed: the handler
    only makes the three calls below, the last one being the failure notice
    (which the stand-in bot prints and drops). *)
Theorem dummy_bot_drops_voice_clips (E : env) (w : world) (m : message) :
  is_dummy_bot E ->
  handle_voice E m w
  = (Ok tt, log_events [SendChatAction (chat_id m) (lit "upload_document");
                        GetFile (voice_file_id m);
                        SendMessage (chat_id m) (Some VoiceFailed)] w).
Proof.
  intros [Hsend _ _ Hact Hfile _].
  unfold handle_voice. cbv zeta.
  erewrite try_exc.
  2:{ unfold send_chat_action. rewrite Hact. erewrite bind_ok by reflexivity.
      rewrite Hfile. reflexivity. }
  unfold reply_to, safe_send_message, send_message, try_except, call,
    mbind, M_bind, bind, ret.
  rewrite Hsend. by rewrite !log_event_events, !log_events_app.
Qed.

Lemma dummy_bot_drops_voice_clips_witness :
  handle_voice Scenario.dummy_bot Scenario.voice_note Scenario.two_users
  = (Ok tt, log_events [SendChatAction (chat_id Scenario.voice_note) (lit "upload_document");
                        GetFile (voice_file_id Scenario.voice_note);
                        SendMessage (chat_id Scenario.voice_note) (Some VoiceFailed)]
              Scenario.two_users).
Proof.
  apply (dummy_bot_drops_voice_clips Scenario.dummy_bot Scenario.two_users Scenario.voice_note).
  split; intros; reflexivity.
Defined.

(* ===================================================================== *)
(** ** /reset, and the shape of the store *)
(* ===================================================================== *)

(** What [handle_reset] does on a well-formed store. *)
Lemma handle_reset_run (E : env) (cleared completed : message_text) (w : world)
    (m : message) :
  well_formed_store w ->
  exists d p evs,
    loaded w = JObj d /\
    dict_get (lit "settings") p = Some (JObj (stored_settings w (str_of_int (chat_id m)))) /\
    (evs = [SendMessage (chat_id m) (Some cleared)] \/
     evs = [SendMessage (chat_id m) (Some cleared);
            SendMessage (chat_id m) (Some (Plain cleared))]) /\
    handle_reset E cleared completed m w
    = (Ok tt,
       log_events evs
         match memory_write E with
         | WriteOk =>
             set_memory_file
               (Document (JObj (dict_set (str_of_int (chat_id m))
                  (JObj (dict_set (lit "history") (JList []) p)) d))) w
         | OpenFails => w
         | DumpFails => set_memory_file Unreadable w
         end).
Proof.
  intros Hstore.
  destruct (get_user_data_reads_profile w (str_of_int (chat_id m)) Hstore)
    as (p & Hget & _ & Hset).
  destruct Hstore as (d & Hd & _).
  destruct (reply_to_spec E m cleared
              match memory_write E with
              | WriteOk =>
                  set_memory_file
                    (Document (JObj (dict_set (str_of_int (chat_id m))
                       (JObj (dict_set (lit "history") (JList []) p)) d))) w
              | OpenFails => w
              | DumpFails => set_memory_file Unreadable w
              end) as (evs & Hreply & Hevs).
  exists d, p, evs. split; [done|]. split; [done|]. split; [done|].
  unfold handle_reset. cbv zeta. apply try_ok.
  erewrite bind_ok by exact Hget.
  unfold py_set_item. erewrite bind_ok by reflexivity.
  erewrite bind_ok by (apply (save_user_data_run E w _ _ d Hd)).
  exact Hreply.
Qed.

(** X28. /reset empties the history of the user who sent it and nothing
    else: the user's settings, every other user's entry and the metrics
    table stay as they were, and no service other than the messenger is
    called. *)
Theorem reset_clears_only_the_history (E : env) (cleared completed : message_text)
    (w : world) (m : message) :
  well_formed_store w ->
  memory_write E = WriteOk ->
  let user_id := str_of_int (chat_id m) in
  let w' := run (handle_reset E cleared completed m) w in
  stored_history w' user_id = [] /\
  stored_settings w' user_id = stored_settings w user_id /\
  (forall other, other <> user_id -> stored_entry w' other = stored_entry w other) /\
  metrics w' = metrics w /\
  Forall (fun e => is_external_call e = false)
    (events_of (handle_reset E cleared completed m) w).
Proof.
  intros Hstore Hwrite user_id w'.
  destruct (handle_reset_run E cleared completed w m Hstore)
    as (d & p & evs & Hd & Hset & Hevs & Hrun).
  rewrite Hwrite in Hrun. subst w'. unfold events_of, run. rewrite Hrun.
  unfold stored_history, stored_settings, stored_entry, loaded. simpl.
  rewrite !dict_get_set_eq.
  rewrite (dict_get_set_ne _ _ _ _ history_is_not_settings), Hset.
  repeat split; try done.
  - intros other Hother. fold (loaded w). rewrite Hd.
    apply dict_get_set_ne. intros Heq. apply Hother. by rewrite <- Heq.
  - rewrite drop_app_length. destruct Hevs as [-> | ->]; by repeat constructor.
Qed.

Lemma reset_clears_only_the_history_witness :
  let user_id := str_of_int (chat_id (Sample.msg (lit "/reset"))) in
  let w' := run (handle_reset Sample.healthy Scenario.memory_cleared Scenario.reset_completed
                   (Sample.msg (lit "/reset"))) Scenario.two_users in
  stored_history w' user_id = [] /\
  stored_settings w' user_id = stored_settings Scenario.two_users user_id /\
  (forall other, other <> user_id ->
     stored_entry w' other = stored_entry Scenario.two_users other) /\
  metrics w' = metrics Scenario.two_users /\
  Forall (fun e => is_external_call e = false)
    (events_of (handle_reset Sample.healthy Scenario.memory_cleared Scenario.reset_completed
                  (Sample.msg (lit "/reset"))) Scenario.two_users).
Proof.
  apply (reset_clears_only_the_history Sample.healthy Scenario.memory_cleared
           Scenario.reset_completed Scenario.two_users (Sample.msg (lit "/reset"))).
  - store_is_well_formed.
  - reflexivity.
Defined.

(** X29. When the memory file cannot be opened for writing, [save] swallows
    the error: /reset leaves the file as it was and still sends the
    confirmation that the memory was cleared. *)
Theorem reset_is_confirmed_even_if_not_written (E : env)
    (cleared completed : message_text) (w : world) (m : message) :
  well_formed_store w ->
  memory_write E = OpenFails ->
  let w' := run (handle_reset E cleared completed m) w in
  memory_file w' = memory_file w /\
  SendMessage (chat_id m) (Some cleared) ∈ sent w'.
Proof.
  intros Hstore Hwrite w'.
  destruct (handle_reset_run E cleared completed w m Hstore)
    as (d & p & evs & Hd & Hset & Hevs & Hrun).
  rewrite Hwrite in Hrun. subst w'. unfold run. rewrite Hrun. simpl.
  split; [done|]. rewrite elem_of_app. right. destruct Hevs as [-> | ->]; set_solver.
Qed.

Lemma reset_is_confirmed_even_if_not_written_witness :
  let E := Scenario.with_memory_write OpenFails Sample.healthy in
  let w' := run (handle_reset E Scenario.memory_cleared Scenario.reset_completed
                   (Sample.msg (lit "/reset"))) Scenario.two_users in
  memory_file w' = memory_file Scenario.two_users /\
  SendMessage (chat_id (Sample.msg (lit "/reset"))) (Some Scenario.memory_cleared) ∈ sent w'.
Proof.
  apply (reset_is_confirmed_even_if_not_written
           (Scenario.with_memory_write OpenFails Sample.healthy)
           Scenario.memory_cleared Scenario.reset_completed Scenario.two_users
           (Sample.msg (lit "/reset"))).
  - store_is_well_formed.
  - reflexivity.
Defined.

Lemma handle_reset_keeps_well_formed (E : env) (cleared completed : message_text)
    (m : message) :
  steps_with keeps_well_formed (handle_reset E cleared completed m).
Proof.
  intros w Hstore.
  destruct (handle_reset_run E cleared completed w m Hstore)
    as (d & p & evs & Hd & Hset & Hevs & Hrun).
  rewrite Hrun. simpl.
  assert (Hsaved : well_formed_store
            (snd (save_user_data E (str_of_int (chat_id m))
                    (JObj (dict_set (lit "history") (JList []) p)) w))).
  { apply (save_user_data_keeps_well_formed E _ _); [|done].
    by eapply profile_with_history_well_formed. }
  rewrite (save_user_data_run E w _ _ d Hd) in Hsaved. simpl in Hsaved.
  destruct Hsaved as (d' & Hd' & Hwf'). exists d'. split; [|done].
  unfold loaded in *. simpl. exact Hd'.
Qed.

(** X30. The shape of the store is an invariant of everything that writes
    to it: a chat turn, a settings update and a reset each take a
    well-formed store to a well-formed store (entries are lists of turns or
    profiles whose history is a list and whose settings are a mapping),
    whatever the services answer and whether or not the write succeeds. *)
Theorem store_shape_is_kept (E : env) (cleared completed : message_text)
    (w : world) (m : message) (key : list N) (value : json) :
  well_formed_store w ->
  well_formed_store (run (handle_all_messages E m) w) /\
  well_formed_store (run (update_setting E (str_of_int (chat_id m)) key value) w) /\
  well_formed_store (run (handle_reset E cleared completed m) w).
Proof.
  intros Hstore. repeat split.
  - by apply handle_all_messages_keeps_well_formed.
  - by apply update_setting_keeps_well_formed.
  - by apply handle_reset_keeps_well_formed.
Qed.

Lemma store_shape_is_kept_witness :
  well_formed_store (run (handle_all_messages Sample.all_down (Sample.msg (lit "hi you")))
                       Scenario.two_users) /\
  well_formed_store
    (run (update_setting Sample.all_down (str_of_int (chat_id (Sample.msg (lit "hi you"))))
            (lit "image_model") (JStr CREATIVE)) Scenario.two_users) /\
  well_formed_store
    (run (handle_reset Sample.all_down Scenario.memory_cleared Scenario.reset_completed
            (Sample.msg (lit "hi you"))) Scenario.two_users).
Proof.
  apply (store_shape_is_kept Sample.all_down Scenario.memory_cleared Scenario.reset_completed
           Scenario.two_users (Sample.msg (lit "hi you")) (lit "image_model") (JStr CREATIVE)).
  store_is_well_formed.
Defined.
